(** * PyEthHelper: transaction construction, fee calculation and event polling

    A shallow embedding of [PyEthHelper/EthContractHelper.py] and
    [PyEthHelper/ContractEventHelper.py], and of the command line, the
    Ganache keys file and the development node guard that use them.
    Python integers are [Z] (unbounded), Python dictionaries are [gmap]s
    with [string] keys, Python floats are the binary64 numbers of the
    standard library's [SpecFloat], and exceptions are an explicit error
    type.  What the web3 node answers, the signing primitive, the unit
    conversion, the terminal and the clock are read from a record of
    oracles, and the calls are written to a trace of events; an oracle for
    a call that can fail returns or raises. *)

From Stdlib Require Import ZArith Lia List String Ascii Bool.
From Stdlib Require Import Floats.SpecFloat.
From stdpp Require Import base option gmap strings list.

Local Open Scope Z_scope.
Local Open Scope string_scope.

(** ** Python exceptions *)

(** The exceptions the two modules raise themselves, and the ones the
    interpreter and the libraries raise underneath them. *)
Inductive PyError : Type :=
  | RuntimeError_InsufficientBalance (balance maxCost : Z)
      (* 'Insufficient balance to pay for the transaction' *)
  | RuntimeError_Cancelled           (* 'Transaction cancelled' *)
  | ValueError_NoConstructor         (* 'No constructor found in ABI' *)
  | ValueError_FuncNotFound (funcName : string)
  | ValueError_KeyMismatch  (* 'The private key does not match the address' *)
  | ValueError_Sleep                 (* time.sleep of a negative length *)
  | KeyError (key : string)          (* d[key] on a missing key *)
  | IndexError                       (* l[i] out of range *)
  | OverflowError                    (* int -> float or float -> int *)
  | ExternalError (what : string).   (* raised by web3 or the node *)

Inductive result (A : Type) : Type :=
  | Ok (a : A)
  | Raise (e : PyError).
Arguments Ok {A} a.
Arguments Raise {A} e.

(** ** Python floats (binary64) *)

Module Float64.

Definition prec : Z := 53.
Definition emax : Z := 1024.

(** [float(n)] for an int [n]: the nearest double, ties to even;
    [OverflowError] when that is out of range. *)
Definition of_int (n : Z) : result spec_float :=
  match binary_normalize prec emax n 0 false with
  | S754_infinity _ => Raise OverflowError
  | f => Ok f
  end.

(** [x * y] on doubles. *)
Definition mul (x y : spec_float) : spec_float := SFmul prec emax x y.

(** [int(x)] for a float [x]: truncation toward zero; an infinity raises
    [OverflowError] and a NaN [ValueError] (both are failures here). *)
Definition to_int (x : spec_float) : result Z :=
  match x with
  | S754_zero _ => Ok 0
  | S754_finite s m e =>
      Ok (cond_Zopp s
            (match e with
             | Zneg p => Z.pos m / 2 ^ Z.pos p
             | _ => Z.pos m * 2 ^ e
             end))
  | S754_infinity _ => Raise OverflowError
  | S754_nan => Raise (ExternalError "ValueError: cannot convert float NaN to integer")
  end.

(** The literal [1.1]: the double nearest to 11/10, 0x3FF199999999999A. *)
Definition lit_1_1 : spec_float := S754_finite false 4953959590107546 (-52).

End Float64.

(** ** EthContractHelper.py *)

(** [DefaultFeeCalculator(ethGasPrice, ethMaxPriorityFee)]. *)
Definition DefaultFeeCalculator (ethGasPrice ethMaxPriorityFee : Z) : Z * Z :=
  (* priority fee is 2% of base fee *)
  let maxPriorFee := (ethGasPrice * 2) / 100 in
  (* ensure it's higher than w3.eth.max_priority_fee *)
  let maxPriorFee := Z.max maxPriorFee ethMaxPriorityFee in
  (maxPriorFee, ethGasPrice + maxPriorFee).

(** *** Dictionaries, keys, transactions *)

(** The message and the transaction are Python dicts whose values, for
    every key this module reads or writes, are ints. *)
Abbreviation Dict := (gmap string Z).

(** [d[key]]: the value, or [KeyError]. *)
Definition getitem (d : Dict) (key : string) : result Z :=
  match d !! key with
  | Some v => Ok v
  | None => Raise (KeyError key)
  end.

(** An entry of a contract's ABI: a dict of string fields ('type', 'name',
    'stateMutability'); the list-valued fields are not read here. *)
Abbreviation AbiEntry := (gmap string string).

Definition abi_getitem (d : AbiEntry) (key : string) : result string :=
  match d !! key with
  | Some v => Ok v
  | None => Raise (KeyError key)
  end.

(** A transaction as [build_transaction] returns it and as
    [sign_transaction] takes it: a dict whose int-valued entries are
    [tx_fields], and whose 'from' entry, when it has one, is an address. *)
Record TxParams : Type := {
  tx_fields : Dict;
  tx_from : option string
}.

Record SignedTransaction : Type := {
  rawTransaction : string;
  hash : string
}.

Record Block : Type := {
  number : Z;
  timestamp : Z
}.

Record LogEntry : Type := {
  blockNumber : Z;
  data : string
}.

Record TxReceipt : Type := {
  transactionHash : string;
  status : Z;
  contractAddress : option string
}.

(** *** The environment *)

(** What the code does to the outside, in the order it does it. *)
Inductive Event : Type :=
  | EvEstimateGas (value : Z)          (* executable.estimate_gas({'value': v}) *)
  | EvTransact (msg : Dict)            (* executable.transact(msg) *)
  | EvBuildTransaction (msg : Dict)    (* executable.build_transaction(msg) *)
  | EvSign (tx : TxParams) (privKey : string)
                                       (* w3.eth.account.sign_transaction *)
  | EvSendRaw (raw : string)           (* w3.eth.send_raw_transaction *)
  | EvWaitReceipt (txHash : string)    (* w3.eth.wait_for_transaction_receipt *)
  | EvCall                             (* executable.call() *)
  | EvPrint                            (* the cost breakdown on the terminal *)
  | EvInput                            (* input('Confirm transaction? ...') *)
  | EvGetLogs (fromBlock toBlock : Z)  (* event.get_logs(fromBlock, toBlock) *)
  | EvSleep (blkPeriod : Z).           (* time.sleep(blkPeriod / 2) *)

(** A [ContractConstructor] or [ContractFunction] bound to its arguments. *)
Record Executable : Type := {
  estimate_gas : Z -> result Z;
  transact : Dict -> result string;
  build_transaction : Dict -> result TxParams;
  call : result string
}.

(** A [ContractEvent]: its log filter. *)
Record ContractEvent : Type := {
  get_logs : Z -> Z -> result (list LogEntry)
}.

(** The [Web3] handle: the node's answers, the signing primitive, the unit
    conversion, and what the user types at the prompt.  [gas_price] is what
    [w3.eth.gas_price] answers when the message is filled in, and
    [gas_price_again] what it answers when [_SignTx] reads it again for the
    cost breakdown.  [sign_transaction] and [from_wei] return or raise as
    the library does; what [from_wei] returns is only printed.
    [log_receipt] is the closing report of a transaction: the receipt
    rendered as JSON, and the balance read again and converted with
    [from_wei].  [block_number k] is what the [k]-th read of
    [w3.eth.block_number] returns. *)
Record Web3 : Type := {
  default_account : string;
  accounts : list string;
  get_transaction_count : string -> Z;
  chain_id : Z;
  gas_price : Z;
  gas_price_again : Z;
  max_priority_fee : Z;
  get_balance : string -> Z;
  from_key : string -> string;
  from_wei : Z -> string -> result unit;
  sign_transaction : TxParams -> string -> result SignedTransaction;
  send_raw_transaction : string -> result string;
  wait_for_transaction_receipt : string -> result TxReceipt;
  log_receipt : TxReceipt -> result unit;
  get_block : Z -> result Block;
  block_number : nat -> Z;
  stdin : string
}.

(** [w3.eth.default_account = addr]. *)
Definition set_default_account (w3 : Web3) (addr : string) : Web3 :=
  {| default_account := addr;
     accounts := accounts w3;
     get_transaction_count := get_transaction_count w3;
     chain_id := chain_id w3;
     gas_price := gas_price w3;
     gas_price_again := gas_price_again w3;
     max_priority_fee := max_priority_fee w3;
     get_balance := get_balance w3;
     from_key := from_key w3;
     from_wei := from_wei w3;
     sign_transaction := sign_transaction w3;
     send_raw_transaction := send_raw_transaction w3;
     wait_for_transaction_receipt := wait_for_transaction_receipt w3;
     log_receipt := log_receipt w3;
     get_block := get_block w3;
     block_number := block_number w3;
     stdin := stdin w3 |}.

(** The parsed key file: the keys of its 'addresses' object in order, and
    the items of its 'private_keys' object. *)
Record KeyJson : Type := {
  addresses : list string;
  private_keys : list (string * string)
}.

Record Contract : Type := {
  abi : list AbiEntry;
  constructor : list string -> result Executable;
  functions : string -> list string -> result Executable
}.

(** *** Computations: a trace of events, then a value or an exception *)

Definition M (A : Type) : Type := list Event * result A.

Definition ret {A} (a : A) : M A := ([], Ok a).
Definition raise {A} (e : PyError) : M A := ([], Raise e).
Definition emit (ev : Event) : M unit := ([ev], Ok tt).
Definition lift {A} (r : result A) : M A := ([], r).

Definition bind {A B} (m : M A) (f : A -> M B) : M B :=
  match m with
  | (t, Ok a) => let '(t', r) := f a in ((t ++ t')%list, r)
  | (t, Raise e) => (t, Raise e)
  end.

Notation "x <- m ;; k" := (bind m (fun x => k))
  (at level 100, m at level 99, k at level 200, right associativity).
Notation "m ;;; k" := (bind m (fun _ => k))
  (at level 100, k at level 200, right associativity).

Definition trace {A} (m : M A) : list Event := fst m.
Definition outcome {A} (m : M A) : result A := snd m.

(** *** Gas *)

(** [_EstimateGas(executable, value)]: [int(gas * 1.1)], the int turned
    into a float, multiplied by the double 1.1 and truncated. *)
Definition _EstimateGas (executable : Executable) (value : Z) : M Z :=
  emit (EvEstimateGas value) ;;;
  gas <- lift (estimate_gas executable value) ;;
  (* add a little bit flexibility *)
  f <- lift (Float64.of_int gas) ;;
  gas <- lift (Float64.to_int (Float64.mul f Float64.lit_1_1)) ;;
  ret gas.

(** [_DetermineGas(executable, gas, value)]. *)
Definition _DetermineGas (executable : Executable) (gas : option Z) (value : Z)
  : M Z :=
  match gas with
  | None => _EstimateGas executable value
  | Some gas => ret gas
  end.

(** *** The message *)

(** [_FillMessage(w3, gas, value, privKey, feeCalculator)]. *)
Definition _FillMessage (w3 : Web3) (gas value : Z) (privKey : option string)
    (feeCalculator : Z -> Z -> Z * Z) : Dict :=
  let msg : Dict :=
    <["value" := value]>
      (<["gas" := gas]>
        (<["chainId" := chain_id w3]>
          (<["nonce" := get_transaction_count w3 (default_account w3)]> ∅))) in
  match privKey with
  | Some _ =>
      let '(maxPrioriyFee, maxFee) :=
        feeCalculator (gas_price w3) (max_priority_fee w3) in
      <["maxFeePerGas" := maxFee]>
        (<["maxPriorityFeePerGas" := maxPrioriyFee]> msg)
  | None => msg
  end.

(** *** Signing *)

(** [s.lower()] on the letters A to Z.  Python folds every cased letter;
    the strings folded here are compared with 'yes' and with hexadecimal
    addresses, and are taken to be ASCII. *)
Definition lower_ascii (c : ascii) : ascii :=
  let n := nat_of_ascii c in
  if (65 <=? n)%nat && (n <=? 90)%nat then ascii_of_nat (n + 32) else c.

Fixpoint lower (s : string) : string :=
  match s with
  | EmptyString => EmptyString
  | String c s' => String (lower_ascii c) (lower s')
  end.

(** The cost breakdown of [_SignTx] (lines 209 to 241): the gas price is
    read again, every figure is converted with [from_wei], in this order,
    and then all of them are printed.  A conversion that raises ends the
    call before anything is printed. *)
Definition cost_breakdown (w3 : Web3)
    (maxBaseFee maxPriorityFee gas value balance maxFee maxCost : Z)
  : M unit :=
  let baseFee := gas_price_again w3 in
  baseFeeGwei <- lift (from_wei w3 baseFee "gwei") ;;
  let fee := baseFee * gas in
  feeGwei <- lift (from_wei w3 fee "gwei") ;;
  maxBaseFeeGwei <- lift (from_wei w3 maxBaseFee "gwei") ;;
  maxPriorityFeeGwei <- lift (from_wei w3 maxPriorityFee "gwei") ;;
  maxFeeGwei <- lift (from_wei w3 maxFee "gwei") ;;
  valueEther <- lift (from_wei w3 value "ether") ;;
  let cost := fee + value in
  costEther <- lift (from_wei w3 cost "ether") ;;
  maxCostEther <- lift (from_wei w3 maxCost "ether") ;;
  balanceEther <- lift (from_wei w3 balance "ether") ;;
  afterBalanceEther <- lift (from_wei w3 (balance - cost) "ether") ;;
  minAfterBalanceEther <- lift (from_wei w3 (balance - maxCost) "ether") ;;
  emit EvPrint.

(** [_SignTx(w3, tx, privKey, confirmPrompt)]. *)
Definition _SignTx (w3 : Web3) (tx : TxParams) (privKey : string)
    (confirmPrompt : bool) : M SignedTransaction :=
  maxBaseFee <- lift (getitem (tx_fields tx) "maxFeePerGas") ;;
  maxPriorityFee <- lift (getitem (tx_fields tx) "maxPriorityFeePerGas") ;;
  gas <- lift (getitem (tx_fields tx) "gas") ;;
  value <- lift (getitem (tx_fields tx) "value") ;;
  let balance := get_balance w3 (default_account w3) in
  let maxFee := (maxBaseFee + maxPriorityFee) * gas in
  let maxCost := maxFee + value in
  if maxCost >? balance then
    raise (RuntimeError_InsufficientBalance balance maxCost)
  else
    (if confirmPrompt then
       cost_breakdown w3 maxBaseFee maxPriorityFee gas value balance
         maxFee maxCost ;;;
       emit EvInput ;;;
       let confirm := stdin w3 in
       if String.eqb (lower confirm) "yes" then ret tt
       else raise RuntimeError_Cancelled
     else ret tt) ;;;
    emit (EvSign tx privKey) ;;;
    signedTx <- lift (sign_transaction w3 tx privKey) ;;
    ret signedTx.

(** *** Submission *)

(** [_DoTransaction(w3, executable, privKey, gas, value, confirmPrompt,
    feeCalculator)].  The receipt is waited for with the transaction hash
    as the only argument. *)
Definition _DoTransaction (w3 : Web3) (executable : Executable)
    (privKey : option string) (gas : option Z) (value : Z)
    (confirmPrompt : bool) (feeCalculator : Z -> Z -> Z * Z) : M TxReceipt :=
  gas <- _DetermineGas executable gas value ;;
  let msg := _FillMessage w3 gas value privKey feeCalculator in
  txHash <-
    match privKey with
    | None =>
        (* no signing needed *)
        emit (EvTransact msg) ;;;
        lift (transact executable msg)
    | Some privKey =>
        (* need to sign *)
        emit (EvBuildTransaction msg) ;;;
        tx <- lift (build_transaction executable msg) ;;
        signedTx <- _SignTx w3 tx privKey confirmPrompt ;;
        emit (EvSendRaw (rawTransaction signedTx)) ;;;
        lift (send_raw_transaction w3 (rawTransaction signedTx))
    end ;;
  emit (EvWaitReceipt txHash) ;;;
  receipt <- lift (wait_for_transaction_receipt w3 txHash) ;;
  lift (log_receipt w3 receipt) ;;;
  ret receipt.

(** *** Deploying and calling *)

(** [_FindConstructorAbi(abiList)]: the first entry of type
    'constructor'. *)
Fixpoint _FindConstructorAbi (abiList : list AbiEntry) : result AbiEntry :=
  match abiList with
  | [] => Raise ValueError_NoConstructor
  | abi :: rest =>
      match abi_getitem abi "type" with
      | Raise e => Raise e
      | Ok ty =>
          if String.eqb ty "constructor" then Ok abi
          else _FindConstructorAbi rest
      end
  end.

(** [DeployContract(w3, contract, arguments, privKey, gas, value,
    confirmPrompt, feeCalculator)]. *)
Definition DeployContract (w3 : Web3) (contract : Contract)
    (arguments : list string) (privKey : option string) (gas : option Z)
    (value : Z) (confirmPrompt : bool) (feeCalculator : Z -> Z -> Z * Z)
  : M TxReceipt :=
  constrAbi <- lift (_FindConstructorAbi (abi contract)) ;;
  mutability <- lift (abi_getitem constrAbi "stateMutability") ;;
  let isPayable := String.eqb mutability "payable" in
  executable <- lift (constructor contract arguments) ;;
  receipt <- _DoTransaction w3 executable privKey gas
               (if isPayable then value else 0) confirmPrompt feeCalculator ;;
  ret receipt.

(** [_FindFuncAbi(abiList, funcName)]: the first entry of type 'function'
    with that name; 'name' is only read on entries of type 'function'. *)
Fixpoint _FindFuncAbi (abiList : list AbiEntry) (funcName : string)
  : result AbiEntry :=
  match abiList with
  | [] => Raise (ValueError_FuncNotFound funcName)
  | abi :: rest =>
      match abi_getitem abi "type" with
      | Raise e => Raise e
      | Ok ty =>
          if String.eqb ty "function" then
            match abi_getitem abi "name" with
            | Raise e => Raise e
            | Ok name =>
                if String.eqb name funcName then Ok abi
                else _FindFuncAbi rest funcName
            end
          else _FindFuncAbi rest funcName
      end
  end.

(** What [CallContractFunc] hands back: the decoded return value of a
    call, or the receipt of a transaction. *)
Inductive CallResult : Type :=
  | ReturnValue (v : string)
  | Receipt (r : TxReceipt).

(** [CallContractFunc(w3, contract, funcName, arguments, privKey, gas,
    value, confirmPrompt, feeCalculator)]. *)
Definition CallContractFunc (w3 : Web3) (contract : Contract)
    (funcName : string) (arguments : list string) (privKey : option string)
    (gas : option Z) (value : Z) (confirmPrompt : bool)
    (feeCalculator : Z -> Z -> Z * Z) : M CallResult :=
  funcAbi <- lift (_FindFuncAbi (abi contract) funcName) ;;
  mutability <- lift (abi_getitem funcAbi "stateMutability") ;;
  let isViewFunc := String.eqb mutability "view" in
  let isPayable := String.eqb mutability "payable" in
  executable <- lift (functions contract funcName arguments) ;;
  if isViewFunc then
    emit EvCall ;;;
    result <- lift (call executable) ;;
    ret (ReturnValue result)
  else
    receipt <- _DoTransaction w3 executable privKey gas
                 (if isPayable then value else 0) confirmPrompt feeCalculator ;;
    ret (Receipt receipt).

(** *** The sending account *)

(** [_LoadAccountCredentials(keyJson, index)], on the parsed file. *)
Definition _LoadAccountCredentials (keyJson : KeyJson) (index : Z)
  : result (string * string) :=
  if index >=? Z.of_nat (length (addresses keyJson)) then Raise IndexError
  else
    match (if (index <? 0)%Z then None
           else addresses keyJson !! Z.to_nat index) with
    | None => Raise IndexError
    | Some address =>
        match
          List.find (fun item => String.eqb (lower (fst item)) (lower address))
                    (private_keys keyJson)
        with
        | Some (_, priv) => Ok (address, priv)
        | None => Raise (KeyError address)
        end
    end.

(** [SetupSendingAccount(w3, account, keyJson)].  The handle comes back
    with its default account as the function left it, also when the
    function raises. *)
Definition SetupSendingAccount (w3 : Web3) (account : Z)
    (keyJson : option KeyJson) : Web3 * result (option string) :=
  match keyJson with
  | Some keyJson =>
      match _LoadAccountCredentials keyJson account with
      | Raise e => (w3, Raise e)
      | Ok (addr, privKey) =>
          let w3 := set_default_account w3 addr in
          (* ensure that the private key matches the address *)
          let privAcc := from_key w3 privKey in
          if negb (String.eqb privAcc (default_account w3)) then
            (w3, Raise ValueError_KeyMismatch)
          else (w3, Ok (Some privKey))
      end
  | None =>
      match accounts w3 with
      | [] => (w3, Raise IndexError)
      | a :: _ => (set_default_account w3 a, Ok None)
      end
  end.

(** ** ContractEventHelper.py *)

(** [GetBlockPeriod(w3, probeBlkNum)]. *)
Definition GetBlockPeriod (w3 : Web3) (probeBlkNum : Z) : result Z :=
  match get_block w3 probeBlkNum with
  | Raise e => Raise e
  | Ok probeBlk =>
      match get_block w3 (probeBlkNum - 1) with
      | Raise e => Raise e
      | Ok prevBlk => Ok (timestamp probeBlk - timestamp prevBlk)
      end
  end.

(** A run of the poller: the events so far, and [Some] result once it has
    returned or raised; [None] while it is still in its loop. *)
Definition Poll : Type := list Event * option (result (list LogEntry)).

Definition poll_cons (ev : Event) (p : Poll) : Poll := (ev :: fst p, snd p).

(** The [while True] loop of [WaitForEvent], one iteration per unit of
    [fuel]; [reads] counts the reads of [w3.eth.block_number] so far.
    [time.sleep(blkPeriod / 2)] raises on a negative length. *)
Fixpoint WaitForEvent_loop (fuel : nat) (w3 : Web3) (event : ContractEvent)
    (fromBlock timeoutByBlkNum blkPeriod queriedBlkNum currBlkNum : Z)
    (reads : nat) : Poll :=
  match fuel with
  | O => ([], None)
  | S fuel =>
      if queriedBlkNum >=? currBlkNum then
        (* wait for new blocks *)
        if (blkPeriod <? 0)%Z then ([], Some (Raise ValueError_Sleep))
        else
          poll_cons (EvSleep blkPeriod)
            (WaitForEvent_loop fuel w3 event fromBlock timeoutByBlkNum
               blkPeriod queriedBlkNum (block_number w3 reads) (S reads))
      else
        let queriedBlkNum := queriedBlkNum + 1 in
        match get_logs event queriedBlkNum queriedBlkNum with
        | Raise e => ([EvGetLogs queriedBlkNum queriedBlkNum], Some (Raise e))
        | Ok logs =>
            if (0 <? length logs)%nat then
              ([EvGetLogs queriedBlkNum queriedBlkNum], Some (Ok logs))
            else if (timeoutByBlkNum >? 0)
                    && (queriedBlkNum >=? fromBlock + timeoutByBlkNum) then
              ([EvGetLogs queriedBlkNum queriedBlkNum], Some (Ok []))
            else
              poll_cons (EvGetLogs queriedBlkNum queriedBlkNum)
                (WaitForEvent_loop fuel w3 event fromBlock timeoutByBlkNum
                   blkPeriod queriedBlkNum currBlkNum reads)
        end
  end.

(** [WaitForEvent(w3, event, fromBlock, timeoutByBlkNum)]. *)
Definition WaitForEvent (fuel : nat) (w3 : Web3) (event : ContractEvent)
    (fromBlock timeoutByBlkNum : Z) : Poll :=
  match GetBlockPeriod w3 fromBlock with
  | Raise e => ([], Some (Raise e))
  | Ok blkPeriod =>
      let queriedBlkNum := fromBlock - 1 in
      let currBlkNum := block_number w3 0 in
      WaitForEvent_loop fuel w3 event fromBlock timeoutByBlkNum blkPeriod
        queriedBlkNum currBlkNum 1
  end.

(** The log queries of a run, in order. *)
Fixpoint queries (t : list Event) : list (Z * Z) :=
  match t with
  | [] => []
  | EvGetLogs a b :: t => (a, b) :: queries t
  | _ :: t => queries t
  end.

(** The single-block queries for [n] consecutive blocks from [b] on. *)
Fixpoint single_block_queries (b : Z) (n : nat) : list (Z * Z) :=
  match n with
  | O => []
  | S n => (b, b) :: single_block_queries (b + 1) n
  end.

(** The block [stop] ends the poll with [res]: it has logs, or it is empty
    and at or after the deadline. *)
Definition ends_poll (event : ContractEvent) (fromBlock timeoutByBlkNum : Z)
    (stop : Z) (res : list LogEntry) : Prop :=
  (get_logs event stop stop = Ok res /\ res <> [])
  \/ (get_logs event stop stop = Ok [] /\ res = []
      /\ 0 < timeoutByBlkNum /\ fromBlock + timeoutByBlkNum <= stop).

(** The blocks from [lo] up to [stop] do not end the poll. *)
Definition keeps_polling (event : ContractEvent)
    (fromBlock timeoutByBlkNum : Z) (lo stop : Z) : Prop :=
  forall b, lo <= b < stop ->
    get_logs event b b = Ok []
    /\ (timeoutByBlkNum <= 0 \/ b < fromBlock + timeoutByBlkNum).

(** ** What a trace says about the value sent *)

(** An event that carries a value carries [v]: the gas estimate is asked
    for [v], and the message handed over for submission has [v] under
    'value'. *)
Definition carries_value (v : Z) (ev : Event) : Prop :=
  match ev with
  | EvEstimateGas v' => v' = v
  | EvTransact msg | EvBuildTransaction msg => msg !! "value" = Some v
  | _ => True
  end.

(** ** Entries that a search of the ABI passes over *)

(** The entry has a 'type', and if it is a function it has a 'name', and
    that name is not [funcName]: [_FindFuncAbi] reads it and goes on. *)
Definition passed_over (funcName : string) (abi : AbiEntry) : Prop :=
  exists ty,
    abi !! "type" = Some ty
    /\ (ty = "function" ->
        exists name, abi !! "name" = Some name /\ name <> funcName).

(** ** What a transaction that goes through has done *)

(** The events of gas resolution, and those of a prompt that is shown. *)
Definition gas_events (gas : option Z) (value : Z) : list Event :=
  match gas with
  | None => [EvEstimateGas value]
  | Some _ => []
  end.

Definition prompt_events (confirmPrompt : bool) : list Event :=
  if confirmPrompt then [EvPrint; EvInput] else [].

(** The gas limit is the caller's, or the node's estimate with its margin
    of a tenth. *)
Definition gas_resolved (executable : Executable) (gas : option Z)
    (value gas' : Z) : Prop :=
  match gas with
  | Some gas => gas' = gas
  | None =>
      exists estimate f,
        estimate_gas executable value = Ok estimate
        /\ Float64.of_int estimate = Ok f
        /\ Float64.to_int (Float64.mul f Float64.lit_1_1) = Ok gas'
  end.

(** The transaction has its four fields, the balance covers its largest
    cost, the breakdown was printed and the answer was yes if the prompt
    was asked for, and the signing primitive returned [signedTx]. *)
Definition signed_for (w3 : Web3) (tx : TxParams) (privKey : string)
    (confirmPrompt : bool) (signedTx : SignedTransaction) : Prop :=
  exists maxFeePerGas maxPriorityFeePerGas gas value,
    tx_fields tx !! "maxFeePerGas" = Some maxFeePerGas
    /\ tx_fields tx !! "maxPriorityFeePerGas" = Some maxPriorityFeePerGas
    /\ tx_fields tx !! "gas" = Some gas
    /\ tx_fields tx !! "value" = Some value
    /\ (let balance := get_balance w3 (default_account w3) in
        let maxFee := (maxFeePerGas + maxPriorityFeePerGas) * gas in
        let maxCost := maxFee + value in
        maxCost <= balance
        /\ (confirmPrompt = true ->
            cost_breakdown w3 maxFeePerGas maxPriorityFeePerGas gas value
              balance maxFee maxCost = ([EvPrint], Ok tt)
            /\ lower (stdin w3) = "yes"))
    /\ sign_transaction w3 tx privKey = Ok signedTx.

(** The transaction went through with the events [t] and the receipt
    [receipt]: the gas was resolved, the message was filled in and handed
    to the node's own account, or built, signed and sent raw, and the wait
    for the hash that came back returned the receipt, which was logged. *)
Definition went_through (w3 : Web3) (executable : Executable)
    (privKey : option string) (gas : option Z) (value : Z)
    (confirmPrompt : bool) (feeCalculator : Z -> Z -> Z * Z)
    (t : list Event) (receipt : TxReceipt) : Prop :=
  exists gas' txHash,
    gas_resolved executable gas value gas'
    /\ (let msg := _FillMessage w3 gas' value privKey feeCalculator in
        match privKey with
        | None =>
            transact executable msg = Ok txHash
            /\ t = (gas_events gas value
                    ++ [EvTransact msg; EvWaitReceipt txHash])%list
        | Some key =>
            exists tx signedTx,
              build_transaction executable msg = Ok tx
              /\ signed_for w3 tx key confirmPrompt signedTx
              /\ send_raw_transaction w3 (rawTransaction signedTx)
                   = Ok txHash
              /\ t = (gas_events gas value
                      ++ EvBuildTransaction msg
                         :: prompt_events confirmPrompt
                      ++ [EvSign tx key;
                          EvSendRaw (rawTransaction signedTx);
                          EvWaitReceipt txHash])%list
        end)
    /\ wait_for_transaction_receipt w3 txHash = Ok receipt
    /\ log_receipt w3 receipt = Ok tt.

(** How a transaction ends once its hash is there: as the wait for the
    receipt ends, and after a receipt as the closing report ends. *)
Definition wait_outcome (w3 : Web3) (txHash : string) : result TxReceipt :=
  match wait_for_transaction_receipt w3 txHash with
  | Ok receipt =>
      match log_receipt w3 receipt with
      | Ok _ => Ok receipt
      | Raise e => Raise e
      end
  | Raise e => Raise e
  end.

(** The submission of the message or of the raw transaction was accepted
    with the hash [txHash]. *)
Definition accepted_as (w3 : Web3) (executable : Executable) (ev : Event)
    (txHash : string) : Prop :=
  match ev with
  | EvTransact msg => transact executable msg = Ok txHash
  | EvSendRaw raw => send_raw_transaction w3 raw = Ok txHash
  | _ => False
  end.

(** ** Sample environments *)

Module Sample.

Definition receipt : TxReceipt :=
  {| transactionHash := "0xfeed"; status := 1; contractAddress := None |}.

(** An executable whose estimate is [estimate] and whose built
    transaction keeps the fields of the message, with [sender] as its
    'from'. *)
Definition executable_from (sender : option string) (estimate : Z)
  : Executable :=
  {| estimate_gas := fun _ => Ok estimate;
     transact := fun _ => Ok "0xfeed";
     build_transaction := fun msg =>
       Ok {| tx_fields := msg; tx_from := sender |};
     call := Ok "42" |}.

(** A bound function, whose built transaction has no 'from'. *)
Definition executable (estimate : Z) : Executable :=
  executable_from None estimate.

(** A conversion that accepts the amounts from 0 to 2^256 - 1. *)
Definition from_wei_in_range (number : Z) (_ : string) : result unit :=
  if (0 <=? number)%Z && (number <? 2 ^ 256)%Z then Ok tt
  else Raise (ExternalError "ValueError").

(** A signing primitive that refuses a transaction whose 'from' is not
    the address of the key. *)
Definition sign_as (address_of : string -> string) (tx : TxParams)
    (key : string) : result SignedTransaction :=
  match tx_from tx with
  | Some sender =>
      if String.eqb sender (address_of key) then
        Ok {| rawTransaction := "signed-with-" ++ key; hash := "0xfeed" |}
      else Raise (ExternalError "TypeError")
  | None =>
      Ok {| rawTransaction := "signed-with-" ++ key; hash := "0xfeed" |}
  end.

Definition address_of (key : string) : string :=
  if String.eqb key "key-of-alice" then "0xA11CE" else "0xB0B".

(** A node whose default account is Alice's, holding [balance] wei, and
    whose head is [head k] at the [k]-th read. *)
Definition w3 (balance : Z) (head : nat -> Z) : Web3 :=
  {| default_account := "0xA11CE";
     accounts := ["0xA11CE"; "0xB0B"];
     get_transaction_count := fun _ => 7;
     chain_id := 1337;
     gas_price := 1000;
     gas_price_again := 1000;
     max_priority_fee := 5;
     get_balance := fun _ => balance;
     from_key := address_of;
     from_wei := from_wei_in_range;
     sign_transaction := sign_as address_of;
     send_raw_transaction := fun _ => Ok "0xfeed";
     wait_for_transaction_receipt := fun _ => Ok receipt;
     log_receipt := fun _ => Ok tt;
     get_block := fun n => Ok {| number := n; timestamp := 12 * n |};
     block_number := head;
     stdin := "yes" |}.

(** The chain stands still at block 100, at 105, or grows by one block
    between any two reads of its head, starting from 100. *)
Definition stalled : Web3 := w3 0 (fun _ => 100).
Definition stalled_at_105 : Web3 := w3 0 (fun _ => 105).
Definition growing : Web3 := w3 0 (fun k => 100 + Z.of_nat k).

(** Alice's node with 1 gwei, and with exactly 21840005 wei. *)
Definition funded : Web3 := w3 1000000000 (fun _ => 100).
Definition exact : Web3 := w3 21840005 (fun _ => 100).

(** A node on which the gas price has become [price] by the time the
    prompt reads it. *)
Definition repriced (price : Z) (node : Web3) : Web3 :=
  {| default_account := default_account node;
     accounts := accounts node;
     get_transaction_count := get_transaction_count node;
     chain_id := chain_id node;
     gas_price := gas_price node;
     gas_price_again := price;
     max_priority_fee := max_priority_fee node;
     get_balance := get_balance node;
     from_key := from_key node;
     from_wei := from_wei node;
     sign_transaction := sign_transaction node;
     send_raw_transaction := send_raw_transaction node;
     wait_for_transaction_receipt := wait_for_transaction_receipt node;
     log_receipt := log_receipt node;
     get_block := get_block node;
     block_number := block_number node;
     stdin := stdin node |}.

(** A node whose wait for the receipt gives up. *)
Definition impatient (node : Web3) : Web3 :=
  {| default_account := default_account node;
     accounts := accounts node;
     get_transaction_count := get_transaction_count node;
     chain_id := chain_id node;
     gas_price := gas_price node;
     gas_price_again := gas_price_again node;
     max_priority_fee := max_priority_fee node;
     get_balance := get_balance node;
     from_key := from_key node;
     from_wei := from_wei node;
     sign_transaction := sign_transaction node;
     send_raw_transaction := send_raw_transaction node;
     wait_for_transaction_receipt := fun _ =>
       Raise (ExternalError "TimeExhausted");
     log_receipt := log_receipt node;
     get_block := get_block node;
     block_number := block_number node;
     stdin := stdin node |}.

(** A transaction of 21000 gas at 1020 + 20 wei per gas, sending 5 wei:
    its largest cost is 21840005 wei. *)
Definition tx : TxParams :=
  {| tx_fields :=
       <["maxFeePerGas" := 1020]>
         (<["maxPriorityFeePerGas" := 20]>
           (<["value" := 5]> (<["gas" := 21000]> ∅)));
     tx_from := None |}.

Definition entry (ty name mutability : string) : AbiEntry :=
  <["stateMutability" := mutability]>
    (<["name" := name]> (<["type" := ty]> ∅)).

(** A contract with a non-payable constructor, a view function, a pure
    function and a payable one.  The transaction built for its constructor
    has Alice's address as its 'from'; those built for its functions have
    none. *)
Definition contract : Contract :=
  {| abi := [ entry "constructor" "" "nonpayable";
              entry "function" "get" "view";
              entry "function" "add" "pure";
              entry "function" "pay" "payable" ];
     constructor := fun _ => Ok (executable_from (Some "0xA11CE") 100000);
     functions := fun _ _ => Ok (executable 100000) |}.

(** A key file that pairs Alice's address with Bob's key. *)
Definition keys : KeyJson :=
  {| addresses := ["0xA11CE"; "0xB0B"];
     private_keys := [("0xa11ce", "key-of-bob"); ("0xb0b", "key-of-bob")] |}.

(** An event that never has a log. *)
Definition silent : ContractEvent :=
  {| get_logs := fun _ _ => Ok [] |}.

(** An event whose only log is in block 103. *)
Definition at_103 : ContractEvent :=
  {| get_logs := fun a b =>
       if (a <=? 103)%Z && (103 <=? b)%Z
       then Ok [ {| blockNumber := 103; data := "hit" |} ]
       else Ok [] |}.

End Sample.

(** ** Loading a contract (EthContractHelper.py) *)

(** What the loader itself raises, and what the file system and the
    network raise underneath it. *)
Inductive LoadError : Type :=
  | FileNotFoundError (message : string)
  | ConfKeyError (key : string)        (* projConf[key] on a missing key *)
  | ConfTypeError                      (* projConf[key] on a tuple *)
  | FetchError (what : string).        (* urlopen, json.load, w3.eth.contract *)

Inductive loaded (A : Type) : Type :=
  | Loaded (a : A)
  | LoadFailed (e : LoadError).
Arguments Loaded {A} a.
Arguments LoadFailed {A} e.

(** [s.startswith('/')] and [s.endswith('/')]. *)
Definition starts_with_sep (s : string) : bool :=
  match s with
  | String c _ => Ascii.eqb c "/"
  | EmptyString => false
  end.

Fixpoint ends_with_sep (s : string) : bool :=
  match s with
  | EmptyString => false
  | String c EmptyString => Ascii.eqb c "/"
  | String _ s' => ends_with_sep s'
  end.

(** [os.path.join(a, *p)] on POSIX: a component that starts with the
    separator restarts the path; otherwise it is appended, after a
    separator unless the path so far is empty or ends with one. *)
Definition os_path_join (a : string) (p : list string) : string :=
  fold_left
    (fun path b =>
       if starts_with_sep b then b
       else if String.eqb path "" || ends_with_sep path then path ++ b
       else path ++ "/" ++ b)
    p a.

(** The project configuration as a dict, with the keys the loader reads,
    and as the loader accepts it: a pair of paths, a dict, or the path of a
    JSON file holding the dict. *)
Record ConfDict : Type := {
  releaseUrl : option string;
  buildDir : option string;
  contractModuleMap : option (gmap string string)
}.

Inductive BytesConf : Type :=
  | ConfPaths (pathAbi pathBin : string)
  | ConfMap (conf : ConfDict).

Inductive ProjConf : Type :=
  | ConfGiven (conf : BytesConf)
  | ConfFile (path : string).

(** Where the loader reads from and what it builds with: the regular files
    by path, the parsed configuration files, [str.format] on the release
    URL, [urllib.request.urlopen], and [w3.eth.contract]. *)
Record LoaderEnv : Type := {
  files : gmap string string;
  load_json : string -> loaded ConfDict;
  format_url : string -> string -> string -> string;
  urlopen : string -> loaded string;
  eth_contract : option string -> string -> option string -> loaded Contract
}.

(** [LoadBytesFromLocal(projConf, contract)]. *)
Definition LoadBytesFromLocal (env : LoaderEnv) (projConf : BytesConf)
    (contract : string) : loaded (string * string) :=
  match
    match projConf with
    | ConfPaths pathAbi pathBin => Loaded (pathAbi, pathBin)
    | ConfMap conf =>
        match contractModuleMap conf with
        | None => LoadFailed (ConfKeyError "contractModuleMap")
        | Some modules =>
            match modules !! contract with
            | None => LoadFailed (ConfKeyError contract)
            | Some module =>
                match buildDir conf with
                | None => LoadFailed (ConfKeyError "buildDir")
                | Some dir =>
                    Loaded (os_path_join dir [module; contract ++ ".abi"],
                            os_path_join dir [module; contract ++ ".bin"])
                end
            end
        end
    end
  with
  | LoadFailed e => LoadFailed e
  | Loaded (pathAbi, pathBin) =>
      match files env !! pathAbi with
      | None =>
          LoadFailed (FileNotFoundError
            ("Cannot find locally built contract ABI file at " ++ pathAbi
             ++ "; please build the contract first."))
      | Some abiBytes =>
          match files env !! pathBin with
          | None =>
              LoadFailed (FileNotFoundError
                ("Cannot find locally built contract BIN file at " ++ pathBin
                 ++ "; please build the contract first."))
          | Some binBytes => Loaded (abiBytes, binBytes)
          end
      end
  end.

(** [LoadBytesFromRelease(projConf, release, contract)]. *)
Definition LoadBytesFromRelease (env : LoaderEnv) (projConf : BytesConf)
    (release contract : string) : loaded (string * string) :=
  match projConf with
  | ConfPaths _ _ => LoadFailed ConfTypeError
  | ConfMap conf =>
      match releaseUrl conf with
      | None => LoadFailed (ConfKeyError "releaseUrl")
      | Some url =>
          match urlopen env (format_url env url release (contract ++ ".abi")) with
          | LoadFailed e => LoadFailed e
          | Loaded abiBytes =>
              match urlopen env
                      (format_url env url release (contract ++ ".bin")) with
              | LoadFailed e => LoadFailed e
              | Loaded binBytes => Loaded (abiBytes, binBytes)
              end
          end
      end
  end.

(** [LoadContract(w3, projConf, contractName, release, address)]. *)
Definition LoadContract (env : LoaderEnv) (projConf : ProjConf)
    (contractName : string) (release address : option string)
  : loaded Contract :=
  match
    match projConf with
    | ConfGiven conf => Loaded conf
    | ConfFile path =>
        match load_json env path with
        | Loaded conf => Loaded (ConfMap conf)
        | LoadFailed e => LoadFailed e
        end
    end
  with
  | LoadFailed e => LoadFailed e
  | Loaded projConf =>
      match
        match release with
        | None =>
            (* load from local build *)
            LoadBytesFromLocal env projConf contractName
        | Some release =>
            (* load from release *)
            LoadBytesFromRelease env projConf release contractName
        end
      with
      | LoadFailed e => LoadFailed e
      | Loaded (abiBytes, binBytes) =>
          match address with
          | None =>
              (* deploy new contract *)
              eth_contract env None abiBytes (Some binBytes)
          | Some address =>
              (* load existing contract *)
              eth_contract env (Some address) abiBytes None
          end
      end
  end.

(** ** The command line (__main__.py) *)

(** The sub-command with its own arguments. *)
Inductive Operation : Type :=
  | OpDeploy (args : list string)
  | OpCall (address function : string) (args : list string).

(** The parsed arguments; the key file is taken as read and parsed. *)
Record Args : Type := {
  arg_config : string;
  arg_key_json : option KeyJson;
  arg_account : Z;
  arg_release : option string;
  arg_contract : string;
  arg_gas : option Z;
  arg_value : Z;
  arg_value_unit : string;
  arg_no_confirm : bool;
  arg_operation : Operation
}.

Inductive MainError : Type :=
  | RuntimeError_NotConnected   (* 'Failed to connect to Ethereum node' *)
  | MainPy (e : PyError)
  | MainLoad (e : LoadError).

(** [ConvertValToWei(val, unit)].  [to_wei] answers for [Web3.to_wei],
    for the [Web3.from_wei] and the formatting of the warning, and for the
    closing [int]: its error is that of the first of them to raise. *)
Definition ConvertValToWei (to_wei : Z -> string -> result Z) (val : Z)
    (unit : string) : result Z :=
  to_wei val unit.

(** [main()], from the parsed arguments on: the events of the deployment
    or call, then nothing or the exception that ended the program. *)
Definition main (env : LoaderEnv) (to_wei : Z -> string -> result Z)
    (is_connected : bool) (w3 : Web3) (args : Args)
  : list Event * option MainError :=
  if negb is_connected then ([], Some RuntimeError_NotConnected)
  else
    match ConvertValToWei to_wei (arg_value args) (arg_value_unit args) with
    | Raise e => ([], Some (MainPy e))
    | Ok valueToSend =>
        match SetupSendingAccount w3 (arg_account args) (arg_key_json args) with
        | (_, Raise e) => ([], Some (MainPy e))
        | (w3, Ok privKey) =>
            let address :=
              match arg_operation args with
              | OpCall address _ _ => Some address
              | OpDeploy _ => None
              end in
            match LoadContract env (ConfFile (arg_config args))
                    (arg_contract args) (arg_release args) address with
            | LoadFailed e => ([], Some (MainLoad e))
            | Loaded contract =>
                (* deploy or call contract *)
                match arg_operation args with
                | OpDeploy arguments =>
                    match DeployContract w3 contract arguments privKey
                            (arg_gas args) valueToSend
                            (negb (arg_no_confirm args))
                            DefaultFeeCalculator with
                    | (t, Ok _) => (t, None)
                    | (t, Raise e) => (t, Some (MainPy e))
                    end
                | OpCall _ function arguments =>
                    match CallContractFunc w3 contract function arguments
                            privKey (arg_gas args) valueToSend
                            (negb (arg_no_confirm args))
                            DefaultFeeCalculator with
                    | (t, Ok _) => (t, None)
                    | (t, Raise e) => (t, Some (MainPy e))
                    end
                end
            end
        end
    end.

(** ** GanacheAccounts.py *)

(** The keys file of Ganache as parsed: the items of its 'addresses' and
    'private_keys' objects, in order. *)
Record GanacheKeys : Type := {
  ganache_addresses : list (string * string);
  ganache_private_keys : list (string * string)
}.

(** [d[k] = v] on a dict kept as its items in insertion order: a key that
    is there keeps its place and takes the new value, a new key goes to the
    end. *)
Fixpoint dict_set (d : list (string * string)) (k v : string)
  : list (string * string) :=
  match d with
  | [] => [(k, v)]
  | (k', v') :: d' =>
      if String.eqb k' k then (k', v) :: d'
      else (k', v') :: dict_set d' k v
  end.

(** [{to_checksum_address(k): to_checksum_address(v) for k, v in
    items}], from the dict built so far: key before value. *)
Fixpoint checksum_both (to_checksum_address : string -> result string)
    (items acc : list (string * string)) : result (list (string * string)) :=
  match items with
  | [] => Ok acc
  | (k, v) :: items =>
      match to_checksum_address k with
      | Raise e => Raise e
      | Ok k' =>
          match to_checksum_address v with
          | Raise e => Raise e
          | Ok v' =>
              checksum_both to_checksum_address items (dict_set acc k' v')
          end
      end
  end.

(** [{to_checksum_address(k): v for k, v in items}]. *)
Fixpoint checksum_keys (to_checksum_address : string -> result string)
    (items acc : list (string * string)) : result (list (string * string)) :=
  match items with
  | [] => Ok acc
  | (k, v) :: items =>
      match to_checksum_address k with
      | Raise e => Raise e
      | Ok k' => checksum_keys to_checksum_address items (dict_set acc k' v)
      end
  end.

(** [ChecksumGanacheKeysFile(dest, src)], from the parsed source to what
    is dumped into the destination. *)
Definition ChecksumGanacheKeysFile
    (to_checksum_address : string -> result string) (keysJson : GanacheKeys)
  : result GanacheKeys :=
  match checksum_both to_checksum_address (ganache_addresses keysJson) [] with
  | Raise e => Raise e
  | Ok addrs =>
      match checksum_keys to_checksum_address
              (ganache_private_keys keysJson) [] with
      | Raise e => Raise e
      | Ok privKeys =>
          Ok {| ganache_addresses := addrs;
                ganache_private_keys := privKeys |}
      end
  end.

(** What [_LoadAccountCredentials] reads of such a file: the keys of
    'addresses' and the items of 'private_keys'. *)
Definition credentials_of (keysJson : GanacheKeys) : KeyJson :=
  {| addresses := map fst (ganache_addresses keysJson);
     private_keys := ganache_private_keys keysJson |}.

(** ** GethNodeGuard.py *)

Inductive GuardError : Type :=
  | ValueError_NoAmount     (* 'either amountWei or amountEth must be specified' *)
  | ValueError_TwoAmounts   (* 'only one of amountWei or amountEth can be specified' *)
  | TypeError_Format        (* f'{None:.2f}' *)
  | AttributeError_NoneType (* self.w3 is None *)
  | RuntimeError_TransactionFailed (receipt : TxReceipt)
  | GuardPy (e : PyError).

(** The transaction [FillAccount] sends. *)
Record Transfer : Type := {
  transfer_chainId : Z;
  transfer_nonce : Z;
  transfer_from : string;
  transfer_to : string;
  transfer_value : Z;
  transfer_gas : Z
}.

Inductive GuardEvent : Type :=
  | EvSendTransaction (tx : Transfer)  (* self.w3.eth.send_transaction(tx) *)
  | EvWaitTransfer (txHash : string).  (* wait_for_transaction_receipt *)

(** A [GethDevNodeGuard]: its handle, [None] until [Start] and after
    [Stop], the account [Start] recorded, and what the handle answers
    beyond the [Web3] record; [log_balance] is the closing report, which
    reads the balance of the account, converts it with [from_wei] and
    formats it; [Amount] is the type of [amountEth]. *)
Record GethDevNodeGuard (Amount : Type) : Type := {
  guard_w3 : option Web3;
  devAccount : string;
  to_wei_ether : Amount -> result Z;
  send_transaction : Transfer -> result string;
  log_balance : string -> result unit
}.
Arguments guard_w3 {Amount} _.
Arguments devAccount {Amount} _.
Arguments to_wei_ether {Amount} _ _.
Arguments send_transaction {Amount} _ _.
Arguments log_balance {Amount} _ _.

(** [FillAccount(self, accAddr, amountWei, amountEth)].  The line that
    logs the transfer formats [amountEth] with two decimals, which a number
    accepts and [None] does not. *)
Definition FillAccount {Amount : Type} (self : GethDevNodeGuard Amount)
    (accAddr : string) (amountWei : option Z) (amountEth : option Amount)
  : list GuardEvent * option GuardError :=
  match amountWei, amountEth with
  | None, None => ([], Some ValueError_NoAmount)
  | Some _, Some _ => ([], Some ValueError_TwoAmounts)
  | _, _ =>
      match
        match amountWei with
        | Some amountWei => inr amountWei
        | None =>
            match guard_w3 self, amountEth with
            | Some _, Some amountEth =>
                match to_wei_ether self amountEth with
                | Ok wei => inr wei
                | Raise e => inl (GuardPy e)
                end
            | _, _ => inl AttributeError_NoneType
            end
        end
      with
      | inl e => ([], Some e)
      | inr amountWei =>
          match amountEth with
          | None => ([], Some TypeError_Format)
          | Some _ =>
              match guard_w3 self with
              | None => ([], Some AttributeError_NoneType)
              | Some w3 =>
                  let tx :=
                    {| transfer_chainId := chain_id w3;
                       transfer_nonce :=
                         get_transaction_count w3 (devAccount self);
                       transfer_from := devAccount self;
                       transfer_to := accAddr;
                       transfer_value := amountWei;
                       transfer_gas := 21000 |} in
                  match send_transaction self tx with
                  | Raise e => ([EvSendTransaction tx], Some (GuardPy e))
                  | Ok txHash =>
                      match wait_for_transaction_receipt w3 txHash with
                      | Raise e =>
                          ([EvSendTransaction tx; EvWaitTransfer txHash],
                           Some (GuardPy e))
                      | Ok receipt =>
                          if negb (status receipt =? 1)%Z then
                            ([EvSendTransaction tx; EvWaitTransfer txHash],
                             Some (RuntimeError_TransactionFailed receipt))
                          else
                            match log_balance self accAddr with
                            | Raise e =>
                                ([EvSendTransaction tx;
                                  EvWaitTransfer txHash], Some (GuardPy e))
                            | Ok _ =>
                                ([EvSendTransaction tx;
                                  EvWaitTransfer txHash], None)
                            end
                      end
                  end
              end
          end
      end
  end.

(** ** Predicates of the properties *)

(** What the events of a transaction say about the key and the prompt
    flag it was started with. *)
Definition key_events (privKey : option string) (confirmPrompt : bool)
    (ev : Event) : Prop :=
  match ev with
  | EvSign _ key => privKey = Some key
  | EvPrint | EvInput => confirmPrompt = true /\ privKey <> None
  | EvSendRaw _ | EvBuildTransaction _ => privKey <> None
  | EvTransact _ => privKey = None
  | _ => True
  end.

(** The address converts, to an address that differs from it in case
    only. *)
Definition converts (to_checksum_address : string -> result string)
    (checksum : string -> string) (a : string) : Prop :=
  to_checksum_address a = Ok (checksum a) /\ lower (checksum a) = lower a.

(** ** More sample environments *)

Module Fixture.

(** An executable whose gas estimate fails. *)
Definition reverting : Executable :=
  {| estimate_gas := fun _ => Raise (ExternalError "execution reverted");
     transact := fun _ => Ok "0xfeed";
     build_transaction := fun msg =>
       Ok {| tx_fields := msg; tx_from := None |};
     call := Ok "" |}.

(** A contract whose ABI lists no constructor. *)
Definition library_only : Contract :=
  {| abi := [ Sample.entry "function" "add" "pure" ];
     constructor := fun _ => Ok (Sample.executable 100000);
     functions := fun _ _ => Ok (Sample.executable 100000) |}.

(** A key file that pairs Alice's address with her own key. *)
Definition good_keys : KeyJson :=
  {| addresses := ["0xA11CE"];
     private_keys := [("0xa11ce", "key-of-alice")] |}.

(** A project whose contract Token is built under build/tokens, and one
    whose module path is absolute. *)
Definition conf : ConfDict :=
  {| releaseUrl := None;
     buildDir := Some "build";
     contractModuleMap := Some {[ "Token" := "tokens" ]} |}.


(** A file system with the ABI of Token and without its bytecode. *)
Definition env : LoaderEnv :=
  {| files := {[ "build/tokens/Token.abi" := "[]" ]};
     load_json := fun _ => Loaded conf;
     format_url := fun url _ _ => url;
     urlopen := fun _ => LoadFailed (FetchError "offline");
     eth_contract := fun _ _ _ => Loaded Sample.contract |}.

(** Deploying Token from the command line with the mismatched key file. *)
Definition args : Args :=
  {| arg_config := "project_conf.json";
     arg_key_json := Some Sample.keys;
     arg_account := 0;
     arg_release := None;
     arg_contract := "Token";
     arg_gas := None;
     arg_value := 0;
     arg_value_unit := "wei";
     arg_no_confirm := false;
     arg_operation := OpDeploy [] |}.

Definition to_wei (val : Z) (unit : string) : result Z := Ok val.

(** A Ganache keys file in lower case, and a conversion that puts the two
    addresses in upper case. *)
Definition ganache : GanacheKeys :=
  {| ganache_addresses := [("0xa11ce", "0xa11ce"); ("0xb0b", "0xb0b")];
     ganache_private_keys :=
       [("0xa11ce", "key-of-alice"); ("0xb0b", "key-of-bob")] |}.

Definition checksum (a : string) : string :=
  if String.eqb a "0xa11ce" then "0xA11CE"
  else if String.eqb a "0xb0b" then "0xB0B"
  else a.

End Fixture.

(** * Properties *)

(** ** Binary64 rounding *)

Section Float64_facts.

Import Float64.
Local Open Scope Z_scope.

Lemma iter_pos_nat {A : Type} (f : A -> A) (p : positive) (x : A) :
SpecFloat.iter_pos f p x = Nat.iter (Pos.to_nat p) f x.
Proof.
revert x; induction p as [p IH | p IH |]; intros x.
- rewrite Pos2Nat.inj_xI. cbn [SpecFloat.iter_pos]. rewrite !IH.
  replace (S (2 * Pos.to_nat p)) with (Pos.to_nat p + Pos.to_nat p + 1)%nat by lia.
  rewrite !Nat.iter_add. reflexivity.
- rewrite Pos2Nat.inj_xO. cbn [SpecFloat.iter_pos]. rewrite !IH.
  replace (2 * Pos.to_nat p)%nat with (Pos.to_nat p + Pos.to_nat p)%nat by lia.
  rewrite Nat.iter_add. reflexivity.
- reflexivity.
Qed.

Lemma shr_1_m (x : shr_record) :
0 <= shr_m x -> shr_m (shr_1 x) = shr_m x / 2.
Proof.
destruct x as [m r s]; simpl; intros Hm.
destruct m as [| [p | p |] | p]; simpl; try lia; try reflexivity.
- rewrite <- Z.div2_div. reflexivity.
- rewrite <- Z.div2_div. reflexivity.
Qed.

Lemma shr_iter_m (n : nat) (x : shr_record) :
0 <= shr_m x -> shr_m (Nat.iter n shr_1 x) = shr_m x / 2 ^ Z.of_nat n.
Proof.
intros Hm; induction n as [| n IH].
- simpl. now rewrite Z.div_1_r.
- rewrite Nat2Z.inj_succ, Z.pow_succ_r by lia.
  simpl. rewrite shr_1_m.
  + rewrite IH, Z.div_div by (try apply Z.pow_pos_nonneg; lia).
    f_equal. lia.
  + rewrite IH. apply Z.div_pos; [lia | apply Z.pow_pos_nonneg; lia].
Qed.

Lemma digits2_pos_bounds (p : positive) :
2 ^ (Z.pos (digits2_pos p) - 1) <= Z.pos p < 2 ^ Z.pos (digits2_pos p).
Proof.
induction p as [p IH | p IH |]; simpl digits2_pos.
- rewrite Pos2Z.inj_succ.
  replace (Z.succ (Z.pos (digits2_pos p)) - 1) with (Z.succ (Z.pos (digits2_pos p) - 1)) by lia.
  rewrite !Z.pow_succ_r by lia. lia.
- rewrite Pos2Z.inj_succ.
  replace (Z.succ (Z.pos (digits2_pos p)) - 1) with (Z.succ (Z.pos (digits2_pos p) - 1)) by lia.
  rewrite !Z.pow_succ_r by lia. lia.
- simpl. lia.
Qed.

Lemma Zdigits2_bounds (m : Z) :
0 < m -> 2 ^ (Zdigits2 m - 1) <= m < 2 ^ Zdigits2 m.
Proof.
destruct m as [| p | p]; try lia. intros _. apply digits2_pos_bounds.
Qed.

Lemma Zdigits2_unique (m d : Z) :
2 ^ (d - 1) <= m < 2 ^ d -> 0 < d -> Zdigits2 m = d.
Proof.
intros [Hlo Hhi] Hd.
assert (Hm : 0 < m) by (pose proof (Z.pow_pos_nonneg 2 (d - 1)); lia).
destruct (Zdigits2_bounds m Hm) as [Hlo' Hhi'].
assert (Hpos : 0 < Zdigits2 m) by (destruct m; simpl; lia).
destruct (Z.lt_trichotomy (Zdigits2 m) d) as [Hlt | [Heq | Hgt]]; [| exact Heq |].
- assert (2 ^ Zdigits2 m <= 2 ^ (d - 1)) by (apply Z.pow_le_mono_r; lia). lia.
- assert (2 ^ d <= 2 ^ (Zdigits2 m - 1)) by (apply Z.pow_le_mono_r; lia). lia.
Qed.

Lemma shr_record_of_loc_m (m : Z) (l : location) :
shr_m (shr_record_of_loc m l) = m.
Proof. destruct l as [| []]; reflexivity. Qed.

Lemma shr_fexp_m (m ex : Z) (l : location) :
0 < m -> 53 <= Zdigits2 m -> -1074 <= ex + (Zdigits2 m - 53) ->
exists mrs,
  shr_fexp prec emax m ex l = (mrs, ex + (Zdigits2 m - 53))
  /\ shr_m mrs = m / 2 ^ (Zdigits2 m - 53).
Proof.
intros Hm HD He. unfold shr_fexp, fexp, emin, prec, emax.
rewrite Z.max_l by lia.
replace (Zdigits2 m + ex - 53 - ex) with (Zdigits2 m - 53) by lia.
destruct (Zdigits2 m - 53) as [| k | k] eqn:Hk; try lia.
- eexists; split; [unfold shr; f_equal; lia |].
  rewrite shr_record_of_loc_m. simpl. now rewrite Z.div_1_r.
- eexists; split; [unfold shr; reflexivity |].
  rewrite iter_pos_nat, shr_iter_m by (rewrite shr_record_of_loc_m; lia).
  rewrite shr_record_of_loc_m, positive_nat_Z. reflexivity.
Qed.

Lemma round_nearest_even_bounds (m : Z) (l : location) :
m <= round_nearest_even m l <= m + 1.
Proof.
destruct l as [| []]; simpl; try lia. destruct (Z.even m); lia.
Qed.

Ltac leb_true :=
match goal with
| |- context [?a <=? ?b] =>
    rewrite (proj2 (Z.leb_le a b)) by (unfold emax, prec; lia)
end.

(** Rounding a positive product of at least 53 digits, in the normal
  range: the result is finite, and its value is the quotient by the
  dropped power of two, or one more. *)
Lemma binary_round_aux_bounds (mx : positive) (ex : Z) :
let k := Z.pos (digits2_pos mx) - 53 in
0 <= k -> -1074 <= ex + k -> ex + k + 1 <= 971 ->
exists (m : positive) (e q : Z),
  binary_round_aux prec emax false (Z.pos mx) ex loc_Exact
    = S754_finite false m e
  /\ Z.pos mx / 2 ^ k <= q <= Z.pos mx / 2 ^ k + 1
  /\ ex + k <= e <= ex + k + 1
  /\ Z.pos m * 2 ^ (e - (ex + k)) = q.
Proof.
intros k Hk Hlo Hhi. unfold binary_round_aux.
destruct (shr_fexp_m (Z.pos mx) ex loc_Exact) as (mrs & E1 & Hm1);
  [lia | simpl; lia | simpl; lia |].
change (Zdigits2 (Z.pos mx) - 53) with k in E1, Hm1. rewrite E1.
set (q := round_nearest_even (shr_m mrs) (loc_of_shr_record mrs)).
pose proof (round_nearest_even_bounds (shr_m mrs) (loc_of_shr_record mrs)) as Hq.
fold q in Hq. rewrite Hm1 in Hq.
pose proof (digits2_pos_bounds mx) as Hd.
assert (Hq1 : 2 ^ 52 <= Z.pos mx / 2 ^ k < 2 ^ 53).
{ assert (Hp : 0 < 2 ^ k) by (apply Z.pow_pos_nonneg; lia).
  replace (Z.pos (digits2_pos mx) - 1) with (52 + k) in Hd by lia.
  replace (Z.pos (digits2_pos mx)) with (53 + k) in Hd by lia.
  rewrite !Z.pow_add_r in Hd by lia. split.
  - apply Z.div_le_lower_bound; lia.
  - apply Z.div_lt_upper_bound; lia. }
assert (Hqpos : 0 < q) by lia.
destruct (Z.eq_dec q (2 ^ 53)) as [Htop | Hntop].
- (* the rounding carried into a 54th digit *)
  assert (HD : Zdigits2 q = 54).
  { apply Zdigits2_unique; [| lia]. rewrite Htop.
    replace (54 - 1) with 53 by lia. split; [lia |].
    apply Z.pow_lt_mono_r; lia. }
  destruct (shr_fexp_m q (ex + k) loc_Exact) as (mrs2 & E2 & Hm2); try lia.
  rewrite E2, Hm2, HD, Htop. simpl Z.div.
  change (2 ^ 53 / 2 ^ (54 - 53)) with (Z.pos (2 ^ 52)).
  cbv iota beta.
  leb_true.
  exists (2 ^ 52)%positive, (ex + k + (54 - 53)), q. repeat split; try lia.
  replace (ex + k + (54 - 53) - (ex + k)) with 1 by lia. rewrite Htop. reflexivity.
- assert (HD : Zdigits2 q = 53).
  { apply Zdigits2_unique; [| lia]. replace (53 - 1) with 52 by lia. lia. }
  destruct (shr_fexp_m q (ex + k) loc_Exact) as (mrs2 & E2 & Hm2); try lia.
  rewrite E2, Hm2, HD. simpl (53 - 53). rewrite Z.pow_0_r, Z.div_1_r.
  destruct q as [| qp | qp]; try lia.
  leb_true.
  exists qp, (ex + k + (53 - 53)), (Z.pos qp). repeat split; try lia.
  replace (ex + k + (53 - 53) - (ex + k)) with 0 by lia. lia.
Qed.

Lemma Pos_iter_xO_val (p d : positive) :
Z.pos (Pos.iter xO p d) = Z.pos p * 2 ^ Z.pos d.
Proof.
induction d as [| d IH] using Pos.peano_ind.
- simpl. lia.
- rewrite Pos.iter_succ, Pos2Z.inj_succ, Z.pow_succ_r by lia.
  rewrite Pos2Z.inj_xO, IH. lia.
Qed.

Lemma Pos_iter_xO_digits (p d : positive) :
digits2_pos (Pos.iter xO p d) = (digits2_pos p + d)%positive.
Proof.
induction d as [| d IH] using Pos.peano_ind.
- simpl. lia.
- rewrite Pos.iter_succ. simpl. rewrite IH. lia.
Qed.

Lemma shr_fexp_53 (mz : positive) (ez : Z) :
Z.pos (digits2_pos mz) = 53 -> -1074 <= ez ->
shr_fexp prec emax (Z.pos mz) ez loc_Exact
  = ({| shr_m := Z.pos mz; shr_r := false; shr_s := false |}, ez).
Proof.
intros HD He. unfold shr_fexp, fexp, emin, prec, emax.
cbn [Zdigits2]. rewrite HD, Z.max_l by lia.
replace (53 + ez - 53 - ez) with 0 by lia. reflexivity.
Qed.

Lemma binary_round_aux_53 (mz : positive) (ez : Z) :
Z.pos (digits2_pos mz) = 53 -> -1074 <= ez <= 971 ->
binary_round_aux prec emax false (Z.pos mz) ez loc_Exact
  = S754_finite false mz ez.
Proof.
intros HD He. unfold binary_round_aux.
rewrite shr_fexp_53 by (trivial; lia).
cbn [shr_m loc_of_shr_record round_nearest_even].
rewrite shr_fexp_53 by (trivial; lia).
cbn [shr_m]. leb_true. reflexivity.
Qed.

(** [float(n)] is exact for a positive int below 2^53: the mantissa is [n]
  shifted up to 53 digits. *)
Lemma of_int_exact (p : positive) :
Z.pos p < 2 ^ 53 ->
let d := 53 - Z.pos (digits2_pos p) in
exists mn : positive,
  of_int (Z.pos p) = Ok (S754_finite false mn (- d))
  /\ Z.pos mn = Z.pos p * 2 ^ d
  /\ Z.pos (digits2_pos mn) = 53
  /\ 0 <= d.
Proof.
intros Hp d. pose proof (digits2_pos_bounds p) as Hb.
assert (Hd : 0 <= d).
{ destruct (Z.le_gt_cases (Z.pos (digits2_pos p)) 53) as [H | H]; [lia |].
  assert (2 ^ 53 <= 2 ^ (Z.pos (digits2_pos p) - 1))
    by (apply Z.pow_le_mono_r; lia). lia. }
unfold of_int, binary_normalize, binary_round, shl_align, fexp, emin.
unfold prec, emax.
rewrite Z.max_l by lia.
replace (Z.pos (digits2_pos p) + 0 - 53 - 0) with (- d) by lia.
change (binary_round_aux 53 1024) with (binary_round_aux prec emax).
destruct d as [| dp | dp] eqn:Ed; try lia; unfold d in Ed.
- change (- 0) with 0. cbv beta iota. rewrite binary_round_aux_53 by lia.
  exists p. repeat split; try lia.
- change (- Z.pos dp) with (Z.neg dp). cbv beta iota.
  rewrite binary_round_aux_53.
  + exists (Pos.iter xO p dp). repeat split; try lia.
    * do 2 f_equal. lia.
    * apply Pos_iter_xO_val.
    * rewrite Pos_iter_xO_digits. lia.
  + rewrite Pos_iter_xO_digits. lia.
  + lia.
Qed.

Lemma digits2_pos_range (p : positive) (a b : Z) :
2 ^ a <= Z.pos p < 2 ^ b -> 0 <= a -> a + 1 <= Z.pos (digits2_pos p) <= b.
Proof.
intros [Hlo Hhi] Ha. pose proof (digits2_pos_bounds p) as [Hl Hh]. split.
- destruct (Z.le_gt_cases (a + 1) (Z.pos (digits2_pos p))) as [H | H]; [exact H |].
  assert (2 ^ Z.pos (digits2_pos p) <= 2 ^ a) by (apply Z.pow_le_mono_r; lia). lia.
- destruct (Z.le_gt_cases (Z.pos (digits2_pos p)) b) as [H | H]; [exact H |].
  assert (2 ^ b <= 2 ^ (Z.pos (digits2_pos p) - 1)) by (apply Z.pow_le_mono_r; lia). lia.
Qed.

Lemma div_squeeze (a b c : Z) :
0 < b -> c * b <= a < (c + 1) * b -> a / b = c.
Proof.
intros Hb [Hlo Hhi]. symmetry. apply (Z.div_unique a b c (a - c * b)); lia.
Qed.

(** [int(float(n) * 1.1)] for an int below 2^48. *)
Lemma inflate_small (n : Z) :
0 <= n < 2 ^ 48 ->
exists f, of_int n = Ok f /\ to_int (mul f lit_1_1) = Ok (n * 11 / 10).
Proof.
intros [Hn0 Hn]. destruct n as [| p | p]; try lia.
- exists (S754_zero false). split; reflexivity.
- destruct (of_int_exact p) as (mn & Hof & Hmn & Hdig & Hd).
  { assert (2 ^ 48 < 2 ^ 53) by (apply Z.pow_lt_mono_r; lia). lia. }
  set (d := 53 - Z.pos (digits2_pos p)) in *.
  assert (Hd5 : 5 <= d <= 52).
  { pose proof (digits2_pos_range p 0 48). unfold d. rewrite Z.pow_0_r in H. lia. }
  eexists; split; [exact Hof |].
  unfold mul, lit_1_1, SFmul. cbn [xorb].
  set (M := 4953959590107546%positive).
  pose proof (digits2_pos_bounds mn) as Hmnb. rewrite Hdig in Hmnb.
  replace (53 - 1) with 52 in Hmnb by lia.
  assert (HP : 2 ^ 104 <= Z.pos (mn * M) < 2 ^ 106).
  { rewrite Pos2Z.inj_mul.
    assert (2 ^ 52 <= Z.pos M < 2 ^ 53) by (unfold M; split; [apply Z.leb_le | apply Z.ltb_lt]; reflexivity).
    change (2 ^ 104) with (2 ^ 52 * 2 ^ 52). change (2 ^ 106) with (2 ^ 53 * 2 ^ 53).
    split; [apply Z.mul_le_mono_nonneg | apply Z.mul_lt_mono_nonneg]; lia. }
  pose proof (digits2_pos_range (mn * M) 104 106 HP ltac:(lia)) as HD.
  destruct (binary_round_aux_bounds (mn * M) (- d + -52)) as (m & e & q & Hr & Hq & He & Hme);
    try lia.
  set (k := Z.pos (digits2_pos (mn * M)) - 53) in *.
  rewrite Hr.
  assert (Hk : 52 <= k <= 53) by (unfold k; lia).
  destruct e as [| pe | pe]; try lia.
  unfold to_int, cond_Zopp. f_equal.
  set (j := Z.neg pe - (- d + -52 + k)) in *.
  set (t := d + 52 - k).
  assert (Ht : 0 < t) by (unfold t; lia).
  assert (Hj : 0 <= j <= 1) by (unfold j; lia).
  replace (Z.pos pe) with (t - j) by (unfold t, j; lia).
  assert (Hcancel : Z.pos m / 2 ^ (t - j) = q / 2 ^ t).
  { rewrite <- Hme. replace t with ((t - j) + j) at 2 by lia.
    rewrite Z.pow_add_r by lia.
    rewrite Z.div_mul_cancel_r; [reflexivity | | ];
      apply Z.pow_nonzero; lia. }
  rewrite Hcancel. clear Hcancel.
  set (F := Z.pos p * 11 / 10).
  assert (HF : 10 * F <= Z.pos p * 11 < 10 * F + 10).
  { unfold F. pose proof (Z.div_mod (Z.pos p * 11) 10 ltac:(lia)).
    pose proof (Z.mod_pos_bound (Z.pos p * 11) 10 ltac:(lia)). lia. }
  set (A := 2 ^ d). set (B := 2 ^ k). set (T := 2 ^ t).
  assert (HA : 0 < A) by (apply Z.pow_pos_nonneg; lia).
  assert (HB : 0 < B) by (apply Z.pow_pos_nonneg; lia).
  assert (HT : 0 < T) by (apply Z.pow_pos_nonneg; lia).
  assert (HTB : T * B = 2 ^ 52 * A).
  { unfold T, B, A. rewrite <- !Z.pow_add_r by lia. f_equal. unfold t. lia. }
  assert (HBA : B <= 2 ^ 48 * A).
  { unfold B, A. rewrite <- Z.pow_add_r by lia. apply Z.pow_le_mono_r; lia. }
  assert (HPval : Z.pos (mn * M) = Z.pos p * Z.pos M * A).
  { rewrite Pos2Z.inj_mul, Hmn. fold A. ring. }
  rewrite HPval in Hq. fold B in Hq.
  change (2 ^ 52) with 4503599627370496 in HTB.
  change (2 ^ 48) with 281474976710656 in HBA, Hn.
  assert (HM : Z.pos M = 4953959590107546) by reflexivity.
  apply div_squeeze; [exact HT |]. fold T. split.
  + apply Z.le_trans with (Z.pos p * Z.pos M * A / B); [| lia].
    apply Z.div_le_lower_bound; [exact HB |].
    replace (B * (F * T)) with (F * (T * B)) by ring. rewrite HTB, HM.
    replace (F * (4503599627370496 * A)) with ((F * 4503599627370496) * A) by ring.
    apply Z.mul_le_mono_nonneg_r; lia.
  + apply Z.le_lt_trans with (Z.pos p * Z.pos M * A / B + 1); [lia |].
    cut (Z.pos p * Z.pos M * A / B < (F + 1) * T - 1); [lia |].
    apply Z.div_lt_upper_bound; [exact HB |].
    replace (B * ((F + 1) * T - 1)) with ((F + 1) * (T * B) - B) by ring.
    rewrite HTB, HM.
    cut ((Z.pos p * 4953959590107546 + 281474976710656) * A
         < ((F + 1) * 4503599627370496) * A); [lia |].
    apply Z.mul_lt_mono_pos_r; lia.
Qed.

End Float64_facts.

(** ** The fee calculator *)

(** C1.  For a non-negative gas price and a non-negative priority-fee
    floor, [DefaultFeeCalculator] returns the pair (priorityFee, maxFee)
    with priorityFee = max(floor(baseGasPrice * 2 / 100),
    nodeMinPriorityFee) and maxFee = baseGasPrice + priorityFee; so
    priorityFee is at least the floor and at least 2% of the gas price.
    The function is total: it returns a pair on every input. *)
Theorem DefaultFeeCalculator_fees (baseGasPrice nodeMinPriorityFee : Z) :
  0 <= baseGasPrice -> 0 <= nodeMinPriorityFee ->
  exists priorityFee maxFee : Z,
    DefaultFeeCalculator baseGasPrice nodeMinPriorityFee = (priorityFee, maxFee)
    /\ priorityFee = Z.max (baseGasPrice * 2 / 100) nodeMinPriorityFee
    /\ maxFee = baseGasPrice + priorityFee
    /\ nodeMinPriorityFee <= priorityFee
    /\ baseGasPrice * 2 / 100 <= priorityFee.
Proof.
  intros _ _. unfold DefaultFeeCalculator.
  exists (Z.max (baseGasPrice * 2 / 100) nodeMinPriorityFee),
         (baseGasPrice + Z.max (baseGasPrice * 2 / 100) nodeMinPriorityFee).
  repeat split; lia.
Qed.

Lemma DefaultFeeCalculator_fees_witness :
  0 <= 1000 /\ 0 <= 5 /\
  exists priorityFee maxFee : Z,
    DefaultFeeCalculator 1000 5 = (priorityFee, maxFee)
    /\ priorityFee = Z.max (1000 * 2 / 100) 5
    /\ maxFee = 1000 + priorityFee
    /\ 5 <= priorityFee
    /\ 1000 * 2 / 100 <= priorityFee.
Proof.
  split; [lia | split; [lia |]].
  apply (DefaultFeeCalculator_fees 1000 5); lia.
Defined.

Example DefaultFeeCalculator_zero : DefaultFeeCalculator 0 0 = (0, 0).
Proof. reflexivity. Qed.

Example DefaultFeeCalculator_floor_wins :
  DefaultFeeCalculator 1000 50 = (50, 1050).
Proof. reflexivity. Qed.

(** ** Gas resolution *)

Example lit_1_1_is_nearest :
  SFdiv Float64.prec Float64.emax
    (S754_finite false 11 0) (S754_finite false 10 0) = Float64.lit_1_1.
Proof. vm_compute. reflexivity. Qed.

(** C2, as the code has it.  With no gas limit from the caller, and an
    estimate from 0 up to (not including) 2^48, gas resolution asks the
    estimator once and returns the floor of the estimate times 11/10.
    [int(gas * 1.1)] is computed in binary64, and beyond that range its
    rounding can reach the next integer. *)
Theorem DetermineGas_inflates (executable : Executable) (value estimate : Z) :
  estimate_gas executable value = Ok estimate ->
  0 <= estimate < 2 ^ 48 ->
  _DetermineGas executable None value
    = ([EvEstimateGas value], Ok (estimate * 11 / 10)).
Proof.
  intros Hest Hrange.
  destruct (inflate_small estimate Hrange) as (f & Hof & Hint).
  unfold _DetermineGas, _EstimateGas, bind, emit, lift, ret.
  rewrite Hest, Hof, Hint. reflexivity.
Qed.

Lemma DetermineGas_inflates_witness :
  estimate_gas (Sample.executable 100000) 0 = Ok 100000
  /\ 0 <= 100000 < 2 ^ 48
  /\ _DetermineGas (Sample.executable 100000) None 0
       = ([EvEstimateGas 0], Ok 110000).
Proof.
  split; [reflexivity | split; [lia |]].
  apply (DetermineGas_inflates (Sample.executable 100000) 0 100000);
    [reflexivity | lia].
Defined.

(** C2, as stated, fails: an estimate of 520000000000009 resolves to
    572000000000010, one more than the floor of 1.1 times the estimate. *)
Lemma DetermineGas_large_estimate_rounds_up :
  outcome (_DetermineGas (Sample.executable 520000000000009) None 0)
    = Ok 572000000000010
  /\ 520000000000009 * 11 / 10 = 572000000000009.
Proof. split; vm_compute; reflexivity. Qed.

(** A gas limit from the caller is returned as it is, and the estimator is
    not asked. *)
Lemma DetermineGas_explicit (executable : Executable) (gas value : Z) :
  _DetermineGas executable (Some gas) value = ([], Ok gas).
Proof. reflexivity. Qed.

(** ** Traces of composed computations *)

Section Traces.

Context {A B : Type}.
Variable P : Event -> Prop.

Lemma bind_ret_r (m : M A) : bind m ret = m.
Proof.
  destruct m as [t [a | e]]; cbn; [| reflexivity].
  now rewrite app_nil_r.
Qed.

Lemma Forall_trace_bind (m : M A) (f : A -> M B) :
  Forall P (trace m) ->
  (forall a, outcome m = Ok a -> Forall P (trace (f a))) ->
  Forall P (trace (bind m f)).
Proof.
  destruct m as [t [a | e]]; cbn; intros Ht Hf; [| exact Ht].
  specialize (Hf a eq_refl). destruct (f a) as [t' r]; cbn in *.
  apply Forall_app. split; assumption.
Qed.

Lemma bind_lift_Ok (a : A) (f : A -> M B) : bind (lift (Ok a)) f = f a.
Proof. unfold bind, lift. now destruct (f a). Qed.

Lemma bind_ext (m : M A) (f g : A -> M B) :
  (forall a, f a = g a) -> bind m f = bind m g.
Proof. intros H. destruct m as [t [a | e]]; cbn; now rewrite ?H. Qed.

Lemma bind_Ok (m : M A) (f : A -> M B) (b : B) :
  outcome (bind m f) = Ok b ->
  exists a, outcome m = Ok a /\ outcome (f a) = Ok b
            /\ trace (bind m f) = (trace m ++ trace (f a))%list.
Proof.
  destruct m as [t [a | e]]; cbn; [| discriminate].
  intros H. exists a. destruct (f a) as [t' r]; cbn in *. auto.
Qed.

Lemma Forall_trace_lift (r : result A) : Forall P (trace (lift r)).
Proof. constructor. Qed.

Lemma Forall_trace_ret (a : A) : Forall P (trace (ret a)).
Proof. constructor. Qed.

Lemma Forall_trace_raise (e : PyError) : Forall P (trace (@raise A e)).
Proof. constructor. Qed.

Lemma Forall_trace_emit (ev : Event) : P ev -> Forall P (trace (emit ev)).
Proof. intros H. repeat constructor. exact H. Qed.

End Traces.

(** Every event of a composed computation satisfies a property that each
    emitted event satisfies. *)
Ltac trace_forall leaf :=
  repeat match goal with
    | |- Forall _ (trace (lift _)) => apply Forall_trace_lift
    | |- Forall _ (trace (ret _)) => apply Forall_trace_ret
    | |- Forall _ (trace (raise _)) => apply Forall_trace_raise
    | |- Forall _ (trace (emit _)) => apply Forall_trace_emit; leaf
    | |- Forall _ (trace (bind _ _)) =>
        apply Forall_trace_bind; [| intros ? _]
    | |- Forall _ (trace (if ?b then _ else _)) => destruct b
    | |- Forall _ (trace (match ?x with _ => _ end)) => destruct x
    end.

(** ** The signing guard *)

Lemma getitem_Some (d : Dict) (key : string) (v : Z) :
  d !! key = Some v -> getitem d key = Ok v.
Proof. intros H. unfold getitem. now rewrite H. Qed.

Lemma Zgtb_le (a b : Z) : a <= b -> (a >? b) = false.
Proof. intros H. rewrite Z.gtb_ltb. apply Z.ltb_ge. exact H. Qed.

Lemma Zgtb_gt (a b : Z) : a > b -> (a >? b) = true.
Proof. intros H. rewrite Z.gtb_ltb. apply Z.ltb_lt. lia. Qed.

(** The cost breakdown is printed once every conversion has returned;
    otherwise the call ends with what a conversion raised, and nothing is
    printed. *)
Lemma cost_breakdown_cases (w3 : Web3)
    (maxBaseFee maxPriorityFee gas value balance maxFee maxCost : Z) :
  let shown := cost_breakdown w3 maxBaseFee maxPriorityFee gas value balance
                 maxFee maxCost in
  shown = ([EvPrint], Ok tt)
  \/ exists e number unit,
       from_wei w3 number unit = Raise e /\ shown = ([], Raise e).
Proof.
  cbv zeta. unfold cost_breakdown.
  repeat match goal with
    | |- context [lift (from_wei w3 ?n ?u)] =>
        let E := fresh "E" in
        destruct (from_wei w3 n u) as [[] | e] eqn:E;
        [rewrite bind_lift_Ok
        | right; exists e, n, u; split; [exact E | reflexivity]]
    end.
  left. reflexivity.
Qed.

(** [_SignTx] on a transaction that has its four fields: the guard, then
    the prompt when it is asked for, then the signing primitive. *)
Lemma SignTx_eval (w3 : Web3) (tx : TxParams) (privKey : string)
    (confirmPrompt : bool) (maxFeePerGas maxPriorityFeePerGas gas value : Z) :
  tx_fields tx !! "maxFeePerGas" = Some maxFeePerGas ->
  tx_fields tx !! "maxPriorityFeePerGas" = Some maxPriorityFeePerGas ->
  tx_fields tx !! "gas" = Some gas ->
  tx_fields tx !! "value" = Some value ->
  let balance := get_balance w3 (default_account w3) in
  let maxFee := (maxFeePerGas + maxPriorityFeePerGas) * gas in
  let maxCost := maxFee + value in
  _SignTx w3 tx privKey confirmPrompt
  = if maxCost >? balance then
      ([], Raise (RuntimeError_InsufficientBalance balance maxCost))
    else
      ((if confirmPrompt then
          cost_breakdown w3 maxFeePerGas maxPriorityFeePerGas gas value
            balance maxFee maxCost ;;;
          emit EvInput ;;;
          if String.eqb (lower (stdin w3)) "yes" then ret tt
          else raise RuntimeError_Cancelled
        else ret tt) ;;;
       emit (EvSign tx privKey) ;;;
       lift (sign_transaction w3 tx privKey)).
Proof.
  intros Hf Hp Hg Hv balance maxFee maxCost. unfold _SignTx.
  rewrite (getitem_Some _ _ _ Hf), (getitem_Some _ _ _ Hp),
    (getitem_Some _ _ _ Hg), (getitem_Some _ _ _ Hv), !bind_lift_Ok.
  fold balance. fold maxFee. fold maxCost.
  destruct (maxCost >? balance); [reflexivity |].
  apply bind_ext. intros _. apply bind_ext. intros _. apply bind_ret_r.
Qed.

(** Past the guard and without the prompt, [_SignTx] is the call of the
    signing primitive. *)
Lemma SignTx_unprompted (w3 : Web3) (tx : TxParams) (privKey : string)
    (maxFeePerGas maxPriorityFeePerGas gas value : Z) :
  tx_fields tx !! "maxFeePerGas" = Some maxFeePerGas ->
  tx_fields tx !! "maxPriorityFeePerGas" = Some maxPriorityFeePerGas ->
  tx_fields tx !! "gas" = Some gas ->
  tx_fields tx !! "value" = Some value ->
  (maxFeePerGas + maxPriorityFeePerGas) * gas + value
    <= get_balance w3 (default_account w3) ->
  _SignTx w3 tx privKey false
  = ([EvSign tx privKey], sign_transaction w3 tx privKey).
Proof.
  intros Hf Hp Hg Hv Hle.
  rewrite (SignTx_eval _ _ _ _ _ _ _ _ Hf Hp Hg Hv). cbv zeta.
  rewrite (Zgtb_le _ _ Hle). cbn [fst snd].
  unfold bind, ret, emit, lift. cbn.
  reflexivity.
Qed.

(** Past the guard: what [_SignTx] does, and where an error comes from. *)
Lemma SignTx_past_guard (w3 : Web3) (tx : TxParams) (privKey : string)
    (confirmPrompt : bool) (maxFeePerGas maxPriorityFeePerGas gas value : Z) :
  tx_fields tx !! "maxFeePerGas" = Some maxFeePerGas ->
  tx_fields tx !! "maxPriorityFeePerGas" = Some maxPriorityFeePerGas ->
  tx_fields tx !! "gas" = Some gas ->
  tx_fields tx !! "value" = Some value ->
  let accountBalance := get_balance w3 (default_account w3) in
  let maxFee := (maxFeePerGas + maxPriorityFeePerGas) * gas in
  let maxCost := maxFee + value in
  let run := _SignTx w3 tx privKey confirmPrompt in
  let shown := cost_breakdown w3 maxFeePerGas maxPriorityFeePerGas gas value
                 accountBalance maxFee maxCost in
  maxCost <= accountBalance ->
  (confirmPrompt = false ->
   run = ([EvSign tx privKey], sign_transaction w3 tx privKey))
  /\ (confirmPrompt = true ->
      (forall e, shown = ([], Raise e) -> run = ([], Raise e))
      /\ (shown = ([EvPrint], Ok tt) ->
          run = if String.eqb (lower (stdin w3)) "yes"
                then ([EvPrint; EvInput; EvSign tx privKey],
                      sign_transaction w3 tx privKey)
                else ([EvPrint; EvInput], Raise RuntimeError_Cancelled)))
  /\ (forall e, outcome run = Raise e ->
        e = RuntimeError_Cancelled
        \/ (exists number unit, from_wei w3 number unit = Raise e)
        \/ sign_transaction w3 tx privKey = Raise e).
Proof.
  intros Hf Hp Hg Hv accountBalance maxFee maxCost run shown Hle.
  unfold run.
  rewrite (SignTx_eval w3 tx privKey confirmPrompt _ _ _ _ Hf Hp Hg Hv).
  cbv zeta. fold accountBalance. fold maxFee. fold maxCost.
  rewrite (Zgtb_le _ _ Hle).
  destruct confirmPrompt.
  - destruct (cost_breakdown_cases w3 maxFeePerGas maxPriorityFeePerGas gas
                value accountBalance maxFee maxCost)
      as [Hshown | (e0 & number & unit & Hconv & Hshown)];
      fold shown in Hshown |- *; rewrite Hshown.
    + split; [discriminate |]. split.
      * intros _. split; [discriminate |]. intros _.
        destruct (String.eqb (lower (stdin w3)) "yes"); reflexivity.
      * intros e. destruct (String.eqb (lower (stdin w3)) "yes"); cbn.
        -- intros He. right. right. exact He.
        -- intros [= <-]. left. reflexivity.
    + split; [discriminate |]. split.
      * intros _. split; [| discriminate].
        intros e [= <-]. reflexivity.
      * intros e. cbn. intros [= <-]. right. left. eauto.
  - split; [intros _; reflexivity |]. split; [discriminate |].
    intros e. cbn. intros He. right. right. exact He.
Qed.

(** C3.  With maxCost = (maxFeePerGas + maxPriorityFeePerGas) * gas +
    value, [_SignTx] raises the insufficient-balance error when
    maxCost > accountBalance, before anything is converted, printed or
    signed.  When maxCost <= accountBalance, the boundary
    maxCost = accountBalance included, the guard lets the transaction
    through: without the prompt the call is the call of the signing
    primitive, and with the prompt it is the cost breakdown, the question
    and, on the answer yes, the call of the signing primitive.  An error
    past the guard is the cancellation or comes from a conversion or from
    the signing primitive; so, unless one of those library calls raises
    the insufficient-balance error itself, that error is raised exactly
    when maxCost > accountBalance. *)
Theorem SignTx_balance_guard (w3 : Web3) (tx : TxParams) (privKey : string)
    (confirmPrompt : bool) (maxFeePerGas maxPriorityFeePerGas gas value : Z) :
  tx_fields tx !! "maxFeePerGas" = Some maxFeePerGas ->
  tx_fields tx !! "maxPriorityFeePerGas" = Some maxPriorityFeePerGas ->
  tx_fields tx !! "gas" = Some gas ->
  tx_fields tx !! "value" = Some value ->
  let accountBalance := get_balance w3 (default_account w3) in
  let maxFee := (maxFeePerGas + maxPriorityFeePerGas) * gas in
  let maxCost := maxFee + value in
  let run := _SignTx w3 tx privKey confirmPrompt in
  let shown := cost_breakdown w3 maxFeePerGas maxPriorityFeePerGas gas value
                 accountBalance maxFee maxCost in
  (maxCost > accountBalance ->
   run = ([], Raise (RuntimeError_InsufficientBalance accountBalance maxCost)))
  /\ (maxCost <= accountBalance ->
      (confirmPrompt = false ->
       run = ([EvSign tx privKey], sign_transaction w3 tx privKey))
      /\ (confirmPrompt = true ->
          (forall e, shown = ([], Raise e) -> run = ([], Raise e))
          /\ (shown = ([EvPrint], Ok tt) ->
              run = if String.eqb (lower (stdin w3)) "yes"
                    then ([EvPrint; EvInput; EvSign tx privKey],
                          sign_transaction w3 tx privKey)
                    else ([EvPrint; EvInput], Raise RuntimeError_Cancelled)))
      /\ (forall e, outcome run = Raise e ->
            e = RuntimeError_Cancelled
            \/ (exists number unit, from_wei w3 number unit = Raise e)
            \/ sign_transaction w3 tx privKey = Raise e))
  /\ ((forall number unit b c,
         from_wei w3 number unit <> Raise (RuntimeError_InsufficientBalance b c))
      -> (forall b c,
            sign_transaction w3 tx privKey
              <> Raise (RuntimeError_InsufficientBalance b c))
      -> ((exists b c,
             outcome run = Raise (RuntimeError_InsufficientBalance b c))
          <-> maxCost > accountBalance)).
Proof.
  intros Hf Hp Hg Hv accountBalance maxFee maxCost run shown.
  assert (Hrun : run =
    if maxCost >? accountBalance then
      ([], Raise (RuntimeError_InsufficientBalance accountBalance maxCost))
    else
      ((if confirmPrompt then
          shown ;;;
          emit EvInput ;;;
          if String.eqb (lower (stdin w3)) "yes" then ret tt
          else raise RuntimeError_Cancelled
        else ret tt) ;;;
       emit (EvSign tx privKey) ;;;
       lift (sign_transaction w3 tx privKey)))
    by exact (SignTx_eval w3 tx privKey confirmPrompt _ _ _ _ Hf Hp Hg Hv).
  pose proof (SignTx_past_guard w3 tx privKey confirmPrompt _ _ _ _
                Hf Hp Hg Hv) as Hpast.
  cbv zeta in Hpast. fold accountBalance maxFee maxCost run shown in Hpast.
  split; [| split; [exact Hpast |]].
  - intros Hgt. rewrite Hrun, (Zgtb_gt _ _ Hgt). reflexivity.
  - intros Hconv Hsign. split.
    + intros (b & c & Hout).
      destruct (Z_le_gt_dec maxCost accountBalance) as [Hle | Hgt];
        [| exact Hgt].
      destruct (Hpast Hle) as (_ & _ & Herr).
      destruct (Herr _ Hout) as [[=] | [(number & unit & H) | H]].
      * destruct (Hconv _ _ _ _ H).
      * destruct (Hsign _ _ H).
    + intros Hgt. exists accountBalance, maxCost.
      rewrite Hrun, (Zgtb_gt _ _ Hgt). reflexivity.
Qed.

Lemma SignTx_balance_guard_witness :
  tx_fields Sample.tx !! "maxFeePerGas" = Some 1020
  /\ tx_fields Sample.tx !! "maxPriorityFeePerGas" = Some 20
  /\ tx_fields Sample.tx !! "gas" = Some 21000
  /\ tx_fields Sample.tx !! "value" = Some 5
  /\ (1020 + 20) * 21000 + 5
       = get_balance Sample.exact (default_account Sample.exact)
  /\ _SignTx Sample.exact Sample.tx "key-of-alice" false
       = ([EvSign Sample.tx "key-of-alice"],
          Ok {| rawTransaction := "signed-with-key-of-alice";
                hash := "0xfeed" |}).
Proof.
  pose proof (SignTx_balance_guard Sample.exact Sample.tx "key-of-alice" false
                1020 20 21000 5 eq_refl eq_refl eq_refl eq_refl) as H.
  destruct H as (_ & Hpast & _).
  assert (Hle : (1020 + 20) * 21000 + 5
                <= get_balance Sample.exact (default_account Sample.exact))
    by (cbn; lia).
  do 5 (split; [reflexivity |]).
  exact (proj1 (Hpast Hle) eq_refl).
Defined.

Example SignTx_one_wei_short :
  _SignTx (Sample.w3 21840004 (fun _ => 100)) Sample.tx "key-of-alice" false
  = ([], Raise (RuntimeError_InsufficientBalance 21840004 21840005)).
Proof. vm_compute. reflexivity. Qed.

(** At the boundary and with the prompt, the transaction is signed on the
    answer yes. *)
Example SignTx_boundary_prompted :
  _SignTx Sample.exact Sample.tx "key-of-alice" true
  = ([EvPrint; EvInput; EvSign Sample.tx "key-of-alice"],
     Ok {| rawTransaction := "signed-with-key-of-alice"; hash := "0xfeed" |}).
Proof. vm_compute. reflexivity. Qed.

(** A transaction that the guard lets through is not yet signed: when the
    gas price has doubled by the time of the prompt, the balance left
    after the expected cost is negative, its conversion raises, and
    [_SignTx] ends before the breakdown is printed. *)
Example SignTx_breakdown_fails :
  _SignTx (Sample.repriced 2000 Sample.exact) Sample.tx "key-of-alice" true
  = ([], Raise (ExternalError "ValueError")).
Proof. vm_compute. reflexivity. Qed.

(** ** The key and the sender *)

(** Where an error of [_SignTx] comes from: a field the transaction
    lacks, the guard, the cancellation, a conversion of the breakdown, or
    the signing primitive. *)
Lemma SignTx_raises (w3 : Web3) (tx : TxParams) (privKey : string)
    (confirmPrompt : bool) (e : PyError) :
  outcome (_SignTx w3 tx privKey confirmPrompt) = Raise e ->
  (exists key, e = KeyError key)
  \/ (exists b c, e = RuntimeError_InsufficientBalance b c)
  \/ e = RuntimeError_Cancelled
  \/ (exists number unit, from_wei w3 number unit = Raise e)
  \/ sign_transaction w3 tx privKey = Raise e.
Proof.
  destruct (tx_fields tx !! "maxFeePerGas") as [mf |] eqn:Hf;
    [| unfold _SignTx, getitem; rewrite Hf; cbn; intros [= <-]; eauto].
  destruct (tx_fields tx !! "maxPriorityFeePerGas") as [mp |] eqn:Hp;
    [| unfold _SignTx, getitem; rewrite Hf, Hp; cbn; intros [= <-]; eauto].
  destruct (tx_fields tx !! "gas") as [g |] eqn:Hg;
    [| unfold _SignTx, getitem; rewrite Hf, Hp, Hg; cbn; intros [= <-];
       eauto].
  destruct (tx_fields tx !! "value") as [v |] eqn:Hv;
    [| unfold _SignTx, getitem; rewrite Hf, Hp, Hg, Hv; cbn; intros [= <-];
       eauto].
  destruct (Z_le_gt_dec ((mf + mp) * g + v)
              (get_balance w3 (default_account w3))) as [Hle | Hgt].
  - intros Hout.
    destruct (SignTx_past_guard w3 tx privKey confirmPrompt mf mp g v
                Hf Hp Hg Hv Hle) as (_ & _ & Herr).
    destruct (Herr e Hout) as [-> | [H | H]]; auto.
  - rewrite (SignTx_eval w3 tx privKey confirmPrompt mf mp g v Hf Hp Hg Hv).
    cbv zeta. rewrite (Zgtb_gt _ _ Hgt). cbn. intros [= <-]. eauto.
Qed.

(** C4, as stated, fails: with Alice's account as the sender, a key whose
    address is Bob's, and a transaction that names no 'from', as the one
    built for a function call, [_SignTx] signs, and [_DoTransaction] on
    its signed path sends the signed transaction and returns the
    receipt. *)
Lemma SignTx_signs_with_foreign_key :
  from_key Sample.funded "key-of-bob" <> default_account Sample.funded
  /\ _SignTx Sample.funded Sample.tx "key-of-bob" false
       = ([EvSign Sample.tx "key-of-bob"],
          Ok {| rawTransaction := "signed-with-key-of-bob";
                hash := "0xfeed" |})
  /\ (exists msg tx,
        trace (_DoTransaction Sample.funded (Sample.executable 100000)
                 (Some "key-of-bob") None 0 false DefaultFeeCalculator)
        = [EvEstimateGas 0; EvBuildTransaction msg; EvSign tx "key-of-bob";
           EvSendRaw "signed-with-key-of-bob"; EvWaitReceipt "0xfeed"])
  /\ outcome (_DoTransaction Sample.funded (Sample.executable 100000)
                (Some "key-of-bob") None 0 false DefaultFeeCalculator)
       = Ok Sample.receipt.
Proof.
  split; [discriminate |]. split; [vm_compute; reflexivity |].
  split; [| vm_compute; reflexivity].
  eexists. eexists. vm_compute. reflexivity.
Qed.

(** When the built transaction names the sender as its 'from', as the
    one built for a constructor, the foreign key is refused, by the
    signing primitive and with its error. *)
Example SignTx_foreign_key_refused_by_primitive :
  _SignTx Sample.funded
    {| tx_fields := tx_fields Sample.tx; tx_from := Some "0xA11CE" |}
    "key-of-bob" false
  = ([EvSign {| tx_fields := tx_fields Sample.tx;
                tx_from := Some "0xA11CE" |} "key-of-bob"],
     Raise (ExternalError "TypeError")).
Proof. vm_compute. reflexivity. Qed.

(** C4, as the code has it.  The comparison is made when the sending
    account is set up from a key file: the address read from the file
    becomes the default account, and if the address derived from the
    private key differs from it, [SetupSendingAccount] raises the
    key-mismatch error and hands back no key; if they agree it returns the
    key.  The signing step compares no addresses itself: the key-mismatch
    error is among its outcomes only if a library call raises it, and past
    the guard and without the prompt it ends as the signing primitive
    ends, whatever the key. *)
Theorem SetupSendingAccount_key_check (w3 : Web3) (account : Z)
    (keyJson : KeyJson) (addr privKey : string) :
  _LoadAccountCredentials keyJson account = Ok (addr, privKey) ->
  let setup := SetupSendingAccount w3 account (Some keyJson) in
  default_account (fst setup) = addr
  /\ (from_key w3 privKey <> addr -> snd setup = Raise ValueError_KeyMismatch)
  /\ (from_key w3 privKey = addr -> snd setup = Ok (Some privKey))
  /\ (forall tx key confirmPrompt,
        outcome (_SignTx (fst setup) tx key confirmPrompt)
          = Raise ValueError_KeyMismatch ->
        (exists number unit,
           from_wei (fst setup) number unit = Raise ValueError_KeyMismatch)
        \/ sign_transaction (fst setup) tx key = Raise ValueError_KeyMismatch)
  /\ (forall tx key maxFeePerGas maxPriorityFeePerGas gas value,
        tx_fields tx !! "maxFeePerGas" = Some maxFeePerGas ->
        tx_fields tx !! "maxPriorityFeePerGas" = Some maxPriorityFeePerGas ->
        tx_fields tx !! "gas" = Some gas ->
        tx_fields tx !! "value" = Some value ->
        (maxFeePerGas + maxPriorityFeePerGas) * gas + value
          <= get_balance (fst setup) (default_account (fst setup)) ->
        _SignTx (fst setup) tx key false
        = ([EvSign tx key], sign_transaction (fst setup) tx key)).
Proof.
  intros Hload setup.
  assert (Hno : forall tx key confirmPrompt,
            outcome (_SignTx (fst setup) tx key confirmPrompt)
              = Raise ValueError_KeyMismatch ->
            (exists number unit,
               from_wei (fst setup) number unit = Raise ValueError_KeyMismatch)
            \/ sign_transaction (fst setup) tx key
               = Raise ValueError_KeyMismatch).
  { intros tx key c Hout.
    destruct (SignTx_raises _ _ _ _ _ Hout)
      as [(k & [=]) | [(b & c' & [=]) | [[=] | [H | H]]]]; auto. }
  assert (Hsign : forall tx key maxFeePerGas maxPriorityFeePerGas gas value,
            tx_fields tx !! "maxFeePerGas" = Some maxFeePerGas ->
            tx_fields tx !! "maxPriorityFeePerGas"
              = Some maxPriorityFeePerGas ->
            tx_fields tx !! "gas" = Some gas ->
            tx_fields tx !! "value" = Some value ->
            (maxFeePerGas + maxPriorityFeePerGas) * gas + value
              <= get_balance (fst setup) (default_account (fst setup)) ->
            _SignTx (fst setup) tx key false
            = ([EvSign tx key], sign_transaction (fst setup) tx key)).
  { intros tx key mf mp g v. apply SignTx_unprompted. }
  split; [| split; [| split; [| split; [exact Hno | exact Hsign]]]];
    clear Hno Hsign; unfold setup, SetupSendingAccount; rewrite Hload;
    cbn [set_default_account default_account from_key];
    destruct (String.eqb (from_key w3 privKey) addr) eqn:E;
    cbn [negb fst snd default_account set_default_account];
    first [apply String.eqb_eq in E | apply String.eqb_neq in E];
    first [reflexivity | tauto].
Qed.

Lemma SetupSendingAccount_key_check_witness :
  _LoadAccountCredentials Sample.keys 0 = Ok ("0xA11CE", "key-of-bob")
  /\ from_key Sample.funded "key-of-bob" <> "0xA11CE"
  /\ snd (SetupSendingAccount Sample.funded 0 (Some Sample.keys))
       = Raise ValueError_KeyMismatch.
Proof.
  assert (Hload : _LoadAccountCredentials Sample.keys 0
                    = Ok ("0xA11CE", "key-of-bob")) by reflexivity.
  assert (Hne : from_key Sample.funded "key-of-bob" <> "0xA11CE")
    by discriminate.
  split; [exact Hload | split; [exact Hne |]].
  exact (proj1 (proj2 (SetupSendingAccount_key_check Sample.funded 0
                         Sample.keys "0xA11CE" "key-of-bob" Hload)) Hne).
Defined.
(** ** The message *)

(** The message carries the value it was filled with. *)
Lemma FillMessage_lookup_value (w3 : Web3) (gas value : Z)
    (privKey : option string) (feeCalculator : Z -> Z -> Z * Z) :
  _FillMessage w3 gas value privKey feeCalculator !! "value" = Some value.
Proof.
  unfold _FillMessage. destruct privKey as [k |].
  - destruct (feeCalculator (gas_price w3) (max_priority_fee w3)).
    now simplify_map_eq.
  - now simplify_map_eq.
Qed.

(** C7.  The message of [_FillMessage] always has nonce, chainId, gas and
    value; it has maxPriorityFeePerGas and maxFeePerGas exactly when a
    private key is supplied, and then they are the pair the fee calculator
    returns on the node's gas price and priority-fee floor. *)
Theorem FillMessage_fields (w3 : Web3) (gas value : Z)
    (privKey : option string) (feeCalculator : Z -> Z -> Z * Z) :
  let msg := _FillMessage w3 gas value privKey feeCalculator in
  let fees := feeCalculator (gas_price w3) (max_priority_fee w3) in
  msg !! "nonce" = Some (get_transaction_count w3 (default_account w3))
  /\ msg !! "chainId" = Some (chain_id w3)
  /\ msg !! "gas" = Some gas
  /\ msg !! "value" = Some value
  /\ (is_Some (msg !! "maxPriorityFeePerGas") <-> privKey <> None)
  /\ (is_Some (msg !! "maxFeePerGas") <-> privKey <> None)
  /\ match privKey with
     | Some _ =>
         msg !! "maxPriorityFeePerGas" = Some (fst fees)
         /\ msg !! "maxFeePerGas" = Some (snd fees)
     | None =>
         msg !! "maxPriorityFeePerGas" = None
         /\ msg !! "maxFeePerGas" = None
     end.
Proof.
  intros msg fees. unfold msg, fees, _FillMessage.
  destruct privKey as [k |].
  - destruct (feeCalculator (gas_price w3) (max_priority_fee w3))
      as [maxPrioriyFee maxFee].
    cbn [fst snd]. repeat split; intros; simplify_map_eq; eauto; congruence.
  - repeat split; intros; simplify_map_eq; eauto;
      try congruence; try (by destruct H as [? ?]).
Qed.

Example FillMessage_with_key :
  let msg := _FillMessage Sample.funded 110000 5
               (Some "key-of-alice") DefaultFeeCalculator in
  (msg !! "nonce", msg !! "chainId", msg !! "gas", msg !! "value",
   msg !! "maxPriorityFeePerGas", msg !! "maxFeePerGas")
  = (Some 7, Some 1337, Some 110000, Some 5, Some 20, Some 1020).
Proof. vm_compute. reflexivity. Qed.

Example FillMessage_without_key :
  let msg := _FillMessage Sample.funded 110000 5
               None DefaultFeeCalculator in
  (msg !! "nonce", msg !! "chainId", msg !! "gas", msg !! "value",
   msg !! "maxPriorityFeePerGas", msg !! "maxFeePerGas")
  = (Some 7, Some 1337, Some 110000, Some 5, None, None).
Proof. vm_compute. reflexivity. Qed.

(** ** Transactions *)

Section Transaction_traces.

Variables (w3 : Web3) (executable : Executable).
Variables (privKey : option string) (gas : option Z) (value : Z).
Variables (confirmPrompt : bool) (feeCalculator : Z -> Z -> Z * Z).

Local Abbreviation run :=
  (_DoTransaction w3 executable privKey gas value confirmPrompt
     feeCalculator).

(** Every gas estimate and every message of a transaction is for the
    value the transaction was started with. *)
Lemma DoTransaction_carries_value : Forall (carries_value value) (trace run).
Proof.
  unfold _DoTransaction, _DetermineGas, _EstimateGas, _SignTx,
    cost_breakdown.
  trace_forall ltac:(unfold carries_value; first [reflexivity | exact I
    | apply FillMessage_lookup_value]).
Qed.

(** A transaction makes no read-only call. *)
Lemma DoTransaction_no_call : Forall (fun ev => ev <> EvCall) (trace run).
Proof.
  unfold _DoTransaction, _DetermineGas, _EstimateGas, _SignTx,
    cost_breakdown.
  trace_forall ltac:(discriminate).
Qed.

End Transaction_traces.

(** Gas resolution: its events, and its result when it has one. *)
Lemma DetermineGas_Ok (executable : Executable) (gas : option Z)
    (value gas' : Z) :
  outcome (_DetermineGas executable gas value) = Ok gas'
  <-> gas_resolved executable gas value gas'.
Proof.
  unfold gas_resolved, _DetermineGas, _EstimateGas. destruct gas as [g |].
  - cbn. split; [intros [= <-] | intros ->]; reflexivity.
  - cbn.
    destruct (estimate_gas executable value) as [estimate | e] eqn:Ee; cbn;
      [| split; [discriminate | intros (? & ? & [=] & _)]].
    destruct (Float64.of_int estimate) as [f | e] eqn:Ef; cbn;
      [| split; [discriminate
                | intros (? & ? & [= <-] & Hf & _); congruence]].
    destruct (Float64.to_int (Float64.mul f Float64.lit_1_1)) as [g | e]
      eqn:Eg; cbn.
    + split.
      * intros [= <-]. exists estimate, f. auto.
      * intros (? & f' & [= <-] & Hf & Hg).
        rewrite Ef in Hf. injection Hf as <-. congruence.
    + split; [discriminate |].
      intros (? & f' & [= <-] & Hf & Hg).
      rewrite Ef in Hf. injection Hf as <-. congruence.
Qed.

Lemma DetermineGas_trace (executable : Executable) (gas : option Z)
    (value : Z) :
  trace (_DetermineGas executable gas value) = gas_events gas value.
Proof.
  unfold _DetermineGas, _EstimateGas, gas_events. destruct gas as [g |];
    [reflexivity |].
  cbn. destruct (estimate_gas executable value) as [estimate | e]; cbn;
    [| reflexivity].
  destruct (Float64.of_int estimate) as [f | e]; cbn; [| reflexivity].
  destruct (Float64.to_int (Float64.mul f Float64.lit_1_1)); reflexivity.
Qed.

(** [_SignTx] returns a signed transaction only under the conditions of
    [signed_for], after the events of the prompt and the call of the
    signing primitive; and under those conditions it does. *)
Lemma SignTx_signed_for (w3 : Web3) (tx : TxParams) (privKey : string)
    (confirmPrompt : bool) (signedTx : SignedTransaction) :
  outcome (_SignTx w3 tx privKey confirmPrompt) = Ok signedTx ->
  signed_for w3 tx privKey confirmPrompt signedTx
  /\ trace (_SignTx w3 tx privKey confirmPrompt)
     = (prompt_events confirmPrompt ++ [EvSign tx privKey])%list.
Proof.
  destruct (tx_fields tx !! "maxFeePerGas") as [mf |] eqn:Hf;
    [| unfold _SignTx, getitem; rewrite Hf; discriminate].
  destruct (tx_fields tx !! "maxPriorityFeePerGas") as [mp |] eqn:Hp;
    [| unfold _SignTx, getitem; rewrite Hf, Hp; discriminate].
  destruct (tx_fields tx !! "gas") as [g |] eqn:Hg;
    [| unfold _SignTx, getitem; rewrite Hf, Hp, Hg; discriminate].
  destruct (tx_fields tx !! "value") as [v |] eqn:Hv;
    [| unfold _SignTx, getitem; rewrite Hf, Hp, Hg, Hv; discriminate].
  destruct (Z_le_gt_dec ((mf + mp) * g + v)
              (get_balance w3 (default_account w3))) as [Hle | Hgt];
    [| rewrite (SignTx_eval w3 tx privKey confirmPrompt mf mp g v
                  Hf Hp Hg Hv); cbv zeta; rewrite (Zgtb_gt _ _ Hgt);
       discriminate].
  destruct (SignTx_past_guard w3 tx privKey confirmPrompt mf mp g v
              Hf Hp Hg Hv Hle) as (Hoff & Hon & _).
  destruct confirmPrompt.
  - destruct (Hon eq_refl) as (Hfail & Hshown). clear Hoff Hon.
    destruct (cost_breakdown_cases w3 mf mp g v
                (get_balance w3 (default_account w3)) ((mf + mp) * g)
                ((mf + mp) * g + v))
      as [Hs | (e & number & unit & _ & Hs)].
    + rewrite (Hshown Hs).
      destruct (String.eqb (lower (stdin w3)) "yes") eqn:Hyes;
        [| discriminate].
      cbn. intros Hsign. split; [| reflexivity].
      exists mf, mp, g, v. repeat (split; [assumption |]).
      split; [| exact Hsign]. split; [exact Hle |].
      intros _. split; [exact Hs | now apply String.eqb_eq].
    + rewrite (Hfail e Hs). discriminate.
  - rewrite (Hoff eq_refl). cbn. intros Hsign. split; [| reflexivity].
    exists mf, mp, g, v. repeat (split; [assumption |]).
    split; [| exact Hsign]. split; [exact Hle | discriminate].
Qed.

Lemma signed_for_SignTx (w3 : Web3) (tx : TxParams) (privKey : string)
    (confirmPrompt : bool) (signedTx : SignedTransaction) :
  signed_for w3 tx privKey confirmPrompt signedTx ->
  _SignTx w3 tx privKey confirmPrompt
  = ((prompt_events confirmPrompt ++ [EvSign tx privKey])%list,
     Ok signedTx).
Proof.
  intros (mf & mp & g & v & Hf & Hp & Hg & Hv & (Hle & Hprompt) & Hsign).
  destruct (SignTx_past_guard w3 tx privKey confirmPrompt mf mp g v
              Hf Hp Hg Hv Hle) as (Hoff & Hon & _).
  destruct confirmPrompt.
  - destruct (Hprompt eq_refl) as (Hs & Hyes).
    rewrite (proj2 (Hon eq_refl) Hs), Hyes, Hsign. reflexivity.
  - rewrite (Hoff eq_refl), Hsign. reflexivity.
Qed.

(** A transaction returns a receipt exactly when it went through, with
    the events of [went_through]. *)
Lemma DoTransaction_went_through (w3 : Web3) (executable : Executable)
    (privKey : option string) (gas : option Z) (value : Z)
    (confirmPrompt : bool) (feeCalculator : Z -> Z -> Z * Z)
    (t : list Event) (receipt : TxReceipt) :
  _DoTransaction w3 executable privKey gas value confirmPrompt feeCalculator
    = (t, Ok receipt)
  <-> went_through w3 executable privKey gas value confirmPrompt
        feeCalculator t receipt.
Proof.
  unfold went_through. split.
  - intros Hrun.
    assert (Hout : outcome (_DoTransaction w3 executable privKey gas value
                              confirmPrompt feeCalculator) = Ok receipt)
      by now rewrite Hrun.
    assert (Htr : trace (_DoTransaction w3 executable privKey gas value
                           confirmPrompt feeCalculator) = t)
      by now rewrite Hrun.
    clear Hrun. unfold _DoTransaction in Hout, Htr.
    apply bind_Ok in Hout as (gas' & Hgas & Hout & Ht1).
    rewrite Ht1 in Htr. clear Ht1.
    rewrite DetermineGas_trace in Htr.
    apply DetermineGas_Ok in Hgas.
    apply bind_Ok in Hout as (txHash & Hsub & Hout & Ht2).
    rewrite Ht2 in Htr. clear Ht2.
    apply bind_Ok in Hout as ([] & _ & Hout & Ht3).
    rewrite Ht3 in Htr. clear Ht3.
    apply bind_Ok in Hout as (r & Hwait & Hout & Ht4).
    rewrite Ht4 in Htr. clear Ht4.
    apply bind_Ok in Hout as ([] & Hlog & Hret & Ht5).
    rewrite Ht5 in Htr. clear Ht5.
    cbn in Hwait, Hlog, Hret. injection Hret as ->.
    exists gas', txHash. split; [exact Hgas |].
    split; [| split; [exact Hwait | exact Hlog]].
    cbv zeta. destruct privKey as [key |]; cbv iota beta in Hsub, Htr.
    + apply bind_Ok in Hsub as ([] & _ & Hsub & Hs1).
      rewrite Hs1 in Htr. clear Hs1.
      apply bind_Ok in Hsub as (tx & Hbuild & Hsub & Hs2).
      rewrite Hs2 in Htr. clear Hs2.
      apply bind_Ok in Hsub as (signedTx & Hsigned & Hsub & Hs3).
      rewrite Hs3 in Htr. clear Hs3.
      apply bind_Ok in Hsub as ([] & _ & Hsend & Hs4).
      rewrite Hs4 in Htr. clear Hs4.
      apply SignTx_signed_for in Hsigned as (Hfor & Hstr).
      rewrite Hstr in Htr. cbn in Hbuild, Hsend.
      exists tx, signedTx. repeat (split; [assumption |]).
      rewrite <- Htr. cbn [trace fst emit lift ret].
      rewrite <- ?app_assoc, ?app_nil_r. cbn [app].
      rewrite <- ?app_assoc. reflexivity.
    + apply bind_Ok in Hsub as ([] & _ & Hsub & Hs1).
      rewrite Hs1 in Htr. cbn in Hsub.
      split; [exact Hsub |]. rewrite <- Htr. cbn [trace fst emit lift ret].
      rewrite <- ?app_assoc, ?app_nil_r. reflexivity.
  - intros (gas' & txHash & Hgas & Hsub & Hwait & Hlog).
    apply DetermineGas_Ok in Hgas.
    pose proof (DetermineGas_trace executable gas value) as Hgt.
    unfold _DoTransaction.
    destruct (_DetermineGas executable gas value) as [tg rg].
    cbn in Hgas, Hgt. subst tg rg. cbv zeta in Hsub.
    destruct privKey as [key |].
    + destruct Hsub as (tx & signedTx & Hbuild & Hfor & Hsend & ->).
      apply signed_for_SignTx in Hfor.
      unfold bind, emit, lift, ret. rewrite Hbuild. cbn [app].
      rewrite Hfor. cbn [app]. rewrite Hsend, Hwait, Hlog. cbn [app].
      rewrite <- ?app_assoc, ?app_nil_r. cbn [app].
      rewrite <- ?app_assoc. reflexivity.
    + destruct Hsub as (Htransact & ->).
      unfold bind, emit, lift, ret. rewrite Htransact, Hwait, Hlog.
      cbn [app]. rewrite <- ?app_assoc, ?app_nil_r. reflexivity.
Qed.

(** The events of [_SignTx] are the breakdown, the question and the call
    of the signing primitive for the transaction and key it was given. *)
Lemma SignTx_trace_events (w3 : Web3) (tx : TxParams) (privKey : string)
    (confirmPrompt : bool) :
  Forall (fun ev => ev = EvPrint \/ ev = EvInput \/ ev = EvSign tx privKey)
         (trace (_SignTx w3 tx privKey confirmPrompt)).
Proof.
  unfold _SignTx, cost_breakdown. trace_forall ltac:(tauto).
Qed.

Lemma In_gas_events (gas : option Z) (value : Z) (ev : Event) :
  In ev (gas_events gas value) -> ev = EvEstimateGas value.
Proof. destruct gas; cbn; [tauto | intros [<- | []]; reflexivity]. Qed.

(** The shape of every run of [_DoTransaction]: events without a wait and
    without an accepted submission, then an error; or events without a
    wait, the last of them an accepted submission, then the wait for its
    hash, which decides the outcome. *)
Lemma DoTransaction_shape (w3 : Web3) (executable : Executable)
    (privKey : option string) (gas : option Z) (value : Z)
    (confirmPrompt : bool) (feeCalculator : Z -> Z -> Z * Z) :
  let run := _DoTransaction w3 executable privKey gas value confirmPrompt
               feeCalculator in
  (exists pre e,
     run = (pre, Raise e)
     /\ Forall (fun ev => (forall h, ev <> EvWaitReceipt h)
                          /\ (forall h, ~ accepted_as w3 executable ev h))
               pre)
  \/ (exists pre submission txHash,
        run = ((pre ++ [submission; EvWaitReceipt txHash])%list,
               wait_outcome w3 txHash)
        /\ accepted_as w3 executable submission txHash
        /\ Forall (fun ev => (forall h, ev <> EvWaitReceipt h)
                             /\ (forall h, ~ accepted_as w3 executable ev h))
                  pre).
Proof.
  cbv zeta. unfold _DoTransaction, bind, emit, lift, ret, wait_outcome.
  pose proof (DetermineGas_trace executable gas value) as Hgt.
  assert (Hgas : Forall (fun ev => (forall h, ev <> EvWaitReceipt h)
                           /\ (forall h, ~ accepted_as w3 executable ev h))
                        (gas_events gas value)).
  { apply List.Forall_forall. intros ev Hin.
    apply In_gas_events in Hin as ->. split; [discriminate | tauto]. }
  destruct (_DetermineGas executable gas value) as [tg [gas' | e]];
    cbn [trace fst] in Hgt; subst tg; cbv beta iota zeta.
  2: { left. exists (gas_events gas value), e. split; [reflexivity |].
       exact Hgas. }
  remember (_FillMessage w3 gas' value privKey feeCalculator) as msg
    eqn:Hmsg.
  clear Hmsg. destruct privKey as [key |]; cbv beta iota.
  - destruct (build_transaction executable msg) as [tx | e] eqn:Hbuild;
      cbv beta iota.
    2: { left. exists (gas_events gas value ++ [EvBuildTransaction msg])%list,
           e.
         split; [reflexivity |].
         apply Forall_app. split; [exact Hgas |].
         repeat constructor; [discriminate | tauto]. }
    pose proof (SignTx_trace_events w3 tx key confirmPrompt) as Hts.
    assert (Hquiet : Forall (fun ev => (forall h, ev <> EvWaitReceipt h)
                               /\ (forall h, ~ accepted_as w3 executable ev h))
                       (gas_events gas value ++ EvBuildTransaction msg
                        :: trace (_SignTx w3 tx key confirmPrompt))).
    { apply Forall_app. split; [exact Hgas |]. constructor.
      - split; [discriminate | tauto].
      - eapply List.Forall_impl; [| exact Hts].
        intros ev [-> | [-> | ->]]; (split; [discriminate | tauto]). }
    destruct (_SignTx w3 tx key confirmPrompt) as [ts [signedTx | e]];
      cbn [trace fst] in Hquiet; cbv beta iota.
    2: { left. exists (gas_events gas value ++ EvBuildTransaction msg :: ts)%list,
           e.
         split; [reflexivity | exact Hquiet]. }
    destruct (send_raw_transaction w3 (rawTransaction signedTx))
      as [txHash | e] eqn:Hsend; cbv beta iota.
    + right. exists (gas_events gas value ++ EvBuildTransaction msg :: ts)%list,
        (EvSendRaw (rawTransaction signedTx)), txHash.
      split; [| split; [exact Hsend | exact Hquiet]].
      destruct (wait_for_transaction_receipt w3 txHash) as [receipt | e];
        [destruct (log_receipt w3 receipt) as [[] | e] |];
        cbn [app]; rewrite <- ?app_assoc, ?app_nil_r; cbn [app];
        rewrite <- ?app_assoc; reflexivity.
    + left. exists (gas_events gas value ++ EvBuildTransaction msg :: ts
                    ++ [EvSendRaw (rawTransaction signedTx)])%list, e.
      split; [reflexivity |].
      apply Forall_app in Hquiet as (Hq1 & Hq2).
      apply Forall_app. split; [exact Hq1 |].
      inversion Hq2 as [| ? ? Hb Hq3]; subst. constructor; [exact Hb |].
      apply Forall_app. split; [exact Hq3 |].
      repeat constructor; [discriminate |].
      intros h. cbn. rewrite Hsend. discriminate.
  - destruct (transact executable msg) as [txHash | e] eqn:Htransact;
      cbv beta iota.
    + right. exists (gas_events gas value), (EvTransact msg), txHash.
      split; [| split; [exact Htransact | exact Hgas]].
      destruct (wait_for_transaction_receipt w3 txHash) as [receipt | e];
        [destruct (log_receipt w3 receipt) as [[] | e] |];
        cbn [app]; rewrite <- ?app_assoc, ?app_nil_r; reflexivity.
    + left. exists (gas_events gas value ++ [EvTransact msg])%list, e.
      split; [reflexivity |].
      apply Forall_app. split; [exact Hgas |].
      repeat constructor; [discriminate |].
      intros h. cbn. rewrite Htransact. discriminate.
Qed.
(** ** Waiting for the receipt *)

(** C9, as stated, fails: the wait for the receipt is a call of the
    library with the hash as its only argument, so it may end without a
    receipt, as when the library's own timeout expires; the transaction
    has been submitted, and [_DoTransaction] ends with that error and no
    receipt. *)
Lemma DoTransaction_wait_gives_up :
  exists msg,
    transact (Sample.executable 100000) msg = Ok "0xfeed"
    /\ _DoTransaction (Sample.impatient Sample.funded)
         (Sample.executable 100000) None None 0 false DefaultFeeCalculator
       = ([EvEstimateGas 0; EvTransact msg; EvWaitReceipt "0xfeed"],
          Raise (ExternalError "TimeExhausted")).
Proof.
  eexists. split; [reflexivity |]. vm_compute. reflexivity.
Qed.

(** C9, as the code has it.  [_DoTransaction] adds nothing of its own to
    the wait: no timeout, no retry, no other way out.  Every submission
    that the node accepts is followed by the wait for the hash it
    returned; that wait is the last event, there is one wait at most, and
    the call then ends as the wait ends: with the exception of the wait,
    or with the receipt it returned, or else with the exception of the
    report that logs that receipt.  A receipt is returned only from the
    wait. *)
Theorem DoTransaction_ends_as_wait (w3 : Web3) (executable : Executable)
    (privKey : option string) (gas : option Z) (value : Z)
    (confirmPrompt : bool) (feeCalculator : Z -> Z -> Z * Z) :
  let run := _DoTransaction w3 executable privKey gas value confirmPrompt
               feeCalculator in
  (forall submission txHash,
     In submission (trace run) ->
     accepted_as w3 executable submission txHash ->
     exists before,
       trace run = (before ++ [submission; EvWaitReceipt txHash])%list
       /\ Forall (fun ev => forall h, ev <> EvWaitReceipt h) before
       /\ outcome run = wait_outcome w3 txHash)
  /\ (forall txHash,
        In (EvWaitReceipt txHash) (trace run) ->
        exists before submission,
          trace run = (before ++ [submission; EvWaitReceipt txHash])%list
          /\ accepted_as w3 executable submission txHash
          /\ Forall (fun ev => forall h, ev <> EvWaitReceipt h) before
          /\ outcome run = wait_outcome w3 txHash)
  /\ (forall receipt,
        outcome run = Ok receipt ->
        exists txHash,
          In (EvWaitReceipt txHash) (trace run)
          /\ wait_for_transaction_receipt w3 txHash = Ok receipt).
Proof.
  cbv zeta.
  destruct (DoTransaction_shape w3 executable privKey gas value confirmPrompt
              feeCalculator)
    as [(pre & e & -> & Hpre) | (pre & sub & h & -> & Hacc & Hpre)];
    cbn [trace outcome fst snd].
  - split; [| split].
    + intros submission txHash Hin Ha.
      apply (proj1 (List.Forall_forall _ _) Hpre) in Hin as (_ & Hno).
      destruct (Hno txHash Ha).
    + intros txHash Hin.
      apply (proj1 (List.Forall_forall _ _) Hpre) in Hin as (Hno & _).
      destruct (Hno txHash eq_refl).
    + discriminate.
  - assert (Hquiet : Forall (fun ev => forall h0, ev <> EvWaitReceipt h0) pre).
    { eapply List.Forall_impl; [| exact Hpre]. intros ev [H _]. exact H. }
    assert (Hsub : forall h0, sub <> EvWaitReceipt h0).
    { intros h0 ->. exact Hacc. }
    split; [| split].
    + intros submission txHash Hin Ha.
      apply in_app_iff in Hin as [Hin | [<- | [<- | []]]].
      * apply (proj1 (List.Forall_forall _ _) Hpre) in Hin as (_ & Hno).
        destruct (Hno txHash Ha).
      * assert (txHash = h) as ->.
        { destruct sub; cbn in Ha, Hacc; try tauto; congruence. }
        exists pre. auto.
      * destruct Ha.
    + intros txHash Hin.
      apply in_app_iff in Hin as [Hin | [Heq | [[= <-] | []]]].
      * apply (proj1 (List.Forall_forall _ _) Hpre) in Hin as (Hno & _).
        destruct (Hno txHash eq_refl).
      * destruct (Hsub txHash Heq).
      * exists pre, sub. auto.
    + intros receipt Hout. exists h. split.
      * apply in_app_iff. right. cbn. tauto.
      * unfold wait_outcome in Hout.
        destruct (wait_for_transaction_receipt w3 h) as [r | e];
          [| discriminate].
        destruct (log_receipt w3 r); [| discriminate]. congruence.
Qed.

(** ** Deploying *)

(** C8.  [DeployContract] runs the transaction of the constructor with
    value 0 whenever the constructor's stateMutability is anything but
    'payable', whatever value the caller supplied, and with the supplied
    value when it is 'payable'.  Every gas estimate and every message
    handed over for submission carries that value; and the deployment
    returns a receipt exactly when the constructor is bound and its
    transaction, for that value, went through: the gas resolved, the
    message with that value handed to the node or built, signed and sent
    raw, the receipt waited for and logged. *)
Theorem DeployContract_value (w3 : Web3) (contract : Contract)
    (arguments : list string) (privKey : option string) (gas : option Z)
    (value : Z) (confirmPrompt : bool) (feeCalculator : Z -> Z -> Z * Z)
    (constrAbi : AbiEntry) (mutability : string) :
  _FindConstructorAbi (abi contract) = Ok constrAbi ->
  constrAbi !! "stateMutability" = Some mutability ->
  let run := DeployContract w3 contract arguments privKey gas value
               confirmPrompt feeCalculator in
  let sent := if String.eqb mutability "payable" then value else 0 in
  (mutability <> "payable" -> sent = 0)
  /\ (mutability = "payable" -> sent = value)
  /\ run = (executable <- lift (constructor contract arguments) ;;
            _DoTransaction w3 executable privKey gas sent confirmPrompt
              feeCalculator)
  /\ Forall (carries_value sent) (trace run)
  /\ (forall t receipt,
        run = (t, Ok receipt)
        <-> exists executable,
              constructor contract arguments = Ok executable
              /\ went_through w3 executable privKey gas sent confirmPrompt
                   feeCalculator t receipt).
Proof.
  intros Hfind Hmut run sent.
  assert (Hrun : run =
    (executable <- lift (constructor contract arguments) ;;
     _DoTransaction w3 executable privKey gas sent confirmPrompt
       feeCalculator)).
  { unfold run, DeployContract. rewrite Hfind, bind_lift_Ok.
    unfold abi_getitem. rewrite Hmut, bind_lift_Ok. fold sent.
    apply bind_ext. intros executable. apply bind_ret_r. }
  split; [| split; [| split; [exact Hrun | split]]].
  - intros Hne. unfold sent. apply String.eqb_neq in Hne. now rewrite Hne.
  - intros ->. reflexivity.
  - rewrite Hrun. apply Forall_trace_bind; [apply Forall_trace_lift |].
    intros executable _. apply DoTransaction_carries_value.
  - intros t receipt. rewrite Hrun.
    destruct (constructor contract arguments) as [executable | e].
    + rewrite bind_lift_Ok, DoTransaction_went_through. split.
      * intros H. exists executable. auto.
      * intros (executable' & [= <-] & H). exact H.
    + split; [discriminate | intros (? & [=] & _)].
Qed.

Lemma DeployContract_value_witness :
  _FindConstructorAbi (abi Sample.contract)
    = Ok (Sample.entry "constructor" "" "nonpayable")
  /\ Sample.entry "constructor" "" "nonpayable" !! "stateMutability"
       = Some "nonpayable"
  /\ exists executable,
       constructor Sample.contract [] = Ok executable
       /\ went_through Sample.funded executable None None 0 true
            DefaultFeeCalculator
            [EvEstimateGas 0;
             EvTransact (_FillMessage Sample.funded 110000 0 None
                           DefaultFeeCalculator);
             EvWaitReceipt "0xfeed"]
            Sample.receipt.
Proof.
  split; [reflexivity | split; [reflexivity |]].
  refine (proj1 (proj2 (proj2 (proj2 (proj2
            (DeployContract_value Sample.funded Sample.contract []
               None None 5 true DefaultFeeCalculator
               (Sample.entry "constructor" "" "nonpayable")
               "nonpayable" eq_refl eq_refl)))) _ _) _).
  vm_compute. reflexivity.
Defined.

Example DeployContract_nonpayable_5_wei :
  let run := DeployContract Sample.funded Sample.contract []
               None None 5 true DefaultFeeCalculator in
  outcome run = Ok Sample.receipt
  /\ exists msg,
       trace run = [EvEstimateGas 0; EvTransact msg; EvWaitReceipt "0xfeed"]
       /\ msg !! "value" = Some 0.
Proof.
  cbv zeta. split; [vm_compute; reflexivity |].
  eexists. split; [vm_compute; reflexivity | vm_compute; reflexivity].
Qed.

(** A deployment signed with the sender's key: the transaction built for
    the constructor names the sender as its 'from'. *)
Example DeployContract_signed :
  let run := DeployContract Sample.funded Sample.contract []
               (Some "key-of-alice") None 5 false DefaultFeeCalculator in
  outcome run = Ok Sample.receipt
  /\ exists msg tx,
       trace run = [EvEstimateGas 0; EvBuildTransaction msg;
                    EvSign tx "key-of-alice";
                    EvSendRaw "signed-with-key-of-alice";
                    EvWaitReceipt "0xfeed"]
       /\ msg !! "value" = Some 0
       /\ tx_from tx = Some "0xA11CE".
Proof.
  cbv zeta. split; [vm_compute; reflexivity |].
  eexists. eexists.
  split; [vm_compute; reflexivity | split; vm_compute; reflexivity].
Qed.

(** A deployment with a key that is not the sender's: the transaction
    built for the constructor names the sender, the signing primitive
    refuses the key, and nothing is sent. *)
Example DeployContract_foreign_key :
  exists msg tx,
    DeployContract Sample.funded Sample.contract []
      (Some "key-of-bob") None 5 false DefaultFeeCalculator
    = ([EvEstimateGas 0; EvBuildTransaction msg; EvSign tx "key-of-bob"],
       Raise (ExternalError "TypeError"))
    /\ tx_from tx = Some "0xA11CE".
Proof.
  eexists. eexists. split; vm_compute; reflexivity.
Qed.

(** ** Calling *)

(** C10.  For a function whose stateMutability is 'pure',
    [CallContractFunc] makes no read-only call: only 'view' selects the
    call, so the function goes through [_DoTransaction] with value 0
    whatever value was supplied, and what comes back is a receipt, never a
    decoded return value.  It returns exactly when the function is bound
    and its transaction, for the value 0, went through: the gas resolved,
    the message handed to the node or built, signed and sent raw, the
    receipt waited for and logged. *)
Theorem CallContractFunc_pure (w3 : Web3) (contract : Contract)
    (funcName : string) (arguments : list string) (privKey : option string)
    (gas : option Z) (value : Z) (confirmPrompt : bool)
    (feeCalculator : Z -> Z -> Z * Z) (funcAbi : AbiEntry) :
  _FindFuncAbi (abi contract) funcName = Ok funcAbi ->
  funcAbi !! "stateMutability" = Some "pure" ->
  let run := CallContractFunc w3 contract funcName arguments privKey gas
               value confirmPrompt feeCalculator in
  run = (executable <- lift (functions contract funcName arguments) ;;
         receipt <- _DoTransaction w3 executable privKey gas 0 confirmPrompt
                      feeCalculator ;;
         ret (Receipt receipt))
  /\ Forall (fun ev => ev <> EvCall) (trace run)
  /\ Forall (carries_value 0) (trace run)
  /\ (forall v, outcome run <> Ok (ReturnValue v))
  /\ (forall t r,
        run = (t, Ok r)
        <-> exists executable receipt,
              functions contract funcName arguments = Ok executable
              /\ r = Receipt receipt
              /\ went_through w3 executable privKey gas 0 confirmPrompt
                   feeCalculator t receipt).
Proof.
  intros Hfind Hmut run.
  assert (Hrun : run =
    (executable <- lift (functions contract funcName arguments) ;;
     receipt <- _DoTransaction w3 executable privKey gas 0 confirmPrompt
                  feeCalculator ;;
     ret (Receipt receipt))).
  { unfold run, CallContractFunc. rewrite Hfind, bind_lift_Ok.
    unfold abi_getitem. rewrite Hmut, bind_lift_Ok. reflexivity. }
  assert (Hres : forall t r,
            run = (t, Ok r)
            <-> exists executable receipt,
                  functions contract funcName arguments = Ok executable
                  /\ r = Receipt receipt
                  /\ went_through w3 executable privKey gas 0 confirmPrompt
                       feeCalculator t receipt).
  { intros t r. rewrite Hrun.
    destruct (functions contract funcName arguments) as [executable | e];
      [| split; [discriminate | intros (? & ? & [=] & _)]].
    rewrite bind_lift_Ok. split.
    - intros H. exists executable.
      destruct (_DoTransaction w3 executable privKey gas 0 confirmPrompt
                  feeCalculator) as [t' [receipt | e]] eqn:Hdo;
        [| discriminate].
      cbn in H. rewrite app_nil_r in H. injection H as <- <-.
      exists receipt. split; [reflexivity | split; [reflexivity |]].
      now apply DoTransaction_went_through.
    - intros (executable' & receipt & [= <-] & -> & H).
      apply DoTransaction_went_through in H. rewrite H. cbn.
      now rewrite app_nil_r. }
  split; [exact Hrun |]. split; [| split; [| split; [| exact Hres]]].
  - rewrite Hrun. trace_forall ltac:(discriminate).
    apply DoTransaction_no_call.
  - rewrite Hrun. trace_forall ltac:(exact I).
    apply DoTransaction_carries_value.
  - intros v H.
    destruct (proj1 (Hres (trace run) (ReturnValue v)))
      as (? & ? & _ & [=] & _).
    rewrite <- H. unfold trace, outcome. now destruct run.
Qed.

Lemma CallContractFunc_pure_witness :
  _FindFuncAbi (abi Sample.contract) "add"
    = Ok (Sample.entry "function" "add" "pure")
  /\ Sample.entry "function" "add" "pure" !! "stateMutability" = Some "pure"
  /\ exists executable receipt,
       functions Sample.contract "add" [] = Ok executable
       /\ Receipt Sample.receipt = Receipt receipt
       /\ went_through Sample.funded executable None None 0 true
            DefaultFeeCalculator
            [EvEstimateGas 0;
             EvTransact (_FillMessage Sample.funded 110000 0 None
                           DefaultFeeCalculator);
             EvWaitReceipt "0xfeed"]
            receipt.
Proof.
  split; [reflexivity | split; [reflexivity |]].
  refine (proj1 (proj2 (proj2 (proj2 (proj2
            (CallContractFunc_pure Sample.funded Sample.contract "add" []
               None None 5 true DefaultFeeCalculator
               (Sample.entry "function" "add" "pure") eq_refl eq_refl))))
            _ _) _).
  vm_compute. reflexivity.
Defined.

Example CallContractFunc_pure_add :
  let run := CallContractFunc Sample.funded Sample.contract
               "add" [] None None 5 true DefaultFeeCalculator in
  outcome run = Ok (Receipt Sample.receipt)
  /\ exists msg,
       trace run = [EvEstimateGas 0; EvTransact msg; EvWaitReceipt "0xfeed"]
       /\ msg !! "value" = Some 0.
Proof.
  cbv zeta. split; [vm_compute; reflexivity |].
  eexists. split; [vm_compute; reflexivity | vm_compute; reflexivity].
Qed.

Example CallContractFunc_view_get :
  CallContractFunc Sample.funded Sample.contract "get" []
    None None 5 true DefaultFeeCalculator
  = ([EvCall], Ok (ReturnValue "42")).
Proof. vm_compute. reflexivity. Qed.
(** ** The event poller *)

Section Poller.

Local Open Scope Z_scope.

Variables (w3 : Web3) (event : ContractEvent).
Variables (fromBlock timeoutByBlkNum blkPeriod : Z).

Local Abbreviation loop fuel q c r :=
  (WaitForEvent_loop fuel w3 event fromBlock timeoutByBlkNum blkPeriod q c r).

(** One iteration with nothing new to inspect: sleep, read the head. *)
Lemma loop_sleep (fuel : nat) (q c : Z) (r : nat) :
  c <= q -> 0 <= blkPeriod ->
  loop (S fuel) q c r
    = poll_cons (EvSleep blkPeriod) (loop fuel q (block_number w3 r) (S r)).
Proof.
  intros Hqc Hp. cbn [WaitForEvent_loop].
  rewrite (proj2 (Z.geb_le q c)) by lia.
  now rewrite (proj2 (Z.ltb_ge blkPeriod 0)) by lia.
Qed.

(** One iteration on an empty block before the deadline. *)
Lemma loop_empty (fuel : nat) (q c : Z) (r : nat) :
  q < c -> get_logs event (q + 1) (q + 1) = Ok [] ->
  timeoutByBlkNum <= 0 \/ q + 1 < fromBlock + timeoutByBlkNum ->
  loop (S fuel) q c r
    = poll_cons (EvGetLogs (q + 1) (q + 1)) (loop fuel (q + 1) c r).
Proof.
  intros Hqc Hlogs Ht. cbn [WaitForEvent_loop].
  destruct (Z.geb_spec q c); [lia |]. rewrite Hlogs. cbn [length Nat.ltb Nat.leb].
  destruct (Z.gtb_spec timeoutByBlkNum 0); cbn [andb]; [| reflexivity].
  destruct (Z.geb_spec (q + 1) (fromBlock + timeoutByBlkNum)); [lia |].
  reflexivity.
Qed.

(** One iteration on a block with logs. *)
Lemma loop_found (fuel : nat) (q c : Z) (r : nat) (logs : list LogEntry) :
  q < c -> get_logs event (q + 1) (q + 1) = Ok logs -> logs <> [] ->
  loop (S fuel) q c r = ([EvGetLogs (q + 1) (q + 1)], Some (Ok logs)).
Proof.
  intros Hqc Hlogs Hne. cbn [WaitForEvent_loop].
  destruct (Z.geb_spec q c); [lia |]. rewrite Hlogs.
  destruct logs; [congruence | reflexivity].
Qed.

(** One iteration on an empty block at or after the deadline. *)
Lemma loop_deadline (fuel : nat) (q c : Z) (r : nat) :
  q < c -> get_logs event (q + 1) (q + 1) = Ok [] ->
  0 < timeoutByBlkNum -> fromBlock + timeoutByBlkNum <= q + 1 ->
  loop (S fuel) q c r = ([EvGetLogs (q + 1) (q + 1)], Some (Ok [])).
Proof.
  intros Hqc Hlogs Ht Hd. cbn [WaitForEvent_loop].
  destruct (Z.geb_spec q c); [lia |]. rewrite Hlogs. cbn [length Nat.ltb Nat.leb].
  destruct (Z.gtb_spec timeoutByBlkNum 0); [| lia].
  destruct (Z.geb_spec (q + 1) (fromBlock + timeoutByBlkNum)); [| lia].
  reflexivity.
Qed.

Variables (lo stop : Z) (res : list LogEntry) (K : nat).
Hypothesis Hkeep : keeps_polling event fromBlock timeoutByBlkNum lo stop.
Hypothesis Hend : ends_poll event fromBlock timeoutByBlkNum stop res.
Hypothesis Hhead : stop <= block_number w3 K.

(** From any state short of [stop], with the head already at [stop] or
    reaching it at the [K]-th read, the loop queries the blocks up to
    [stop] one by one and returns [res] there; with the head already at
    [stop] it does so without sleeping. *)
Lemma loop_reaches (fuel : nat) :
  forall (q c : Z) (r : nat),
    lo - 1 <= q < stop ->
    stop <= c \/ (r <= K)%nat /\ 0 <= blkPeriod ->
    (Z.to_nat (stop - q) + (if (stop <=? c)%Z then 0 else K + 1 - r) <= fuel)%nat ->
    snd (loop fuel q c r) = Some (Ok res)
    /\ queries (fst (loop fuel q c r))
         = single_block_queries (q + 1) (Z.to_nat (stop - q))
    /\ (stop <= c ->
        fst (loop fuel q c r)
          = map (fun ab => EvGetLogs (fst ab) (snd ab))
                (single_block_queries (q + 1) (Z.to_nat (stop - q)))).
Proof.
  induction fuel as [| fuel IH]; intros q c r Hq Hc Hfuel; [lia |].
  destruct (Z.le_gt_cases c q) as [Hcq | Hqc].
  - (* nothing new: sleep and read the head again *)
    destruct Hc as [Hc | [Hr Hp]]; [lia |].
    destruct (Z.leb_spec stop c) as [? | _]; [lia |].
    rewrite loop_sleep by assumption. cbn [poll_cons fst snd queries].
    assert (Hnext : stop <= block_number w3 r
                    \/ (S r <= K)%nat /\ 0 <= blkPeriod).
    { destruct (Z.le_gt_cases stop (block_number w3 r)) as [H | H];
        [left; exact H | right; split; [| exact Hp]].
      destruct (Nat.eq_dec r K) as [-> | Hne]; lia. }
    destruct (IH q (block_number w3 r) (S r) Hq Hnext) as (Hres & Hqs & _).
    { destruct (Z.leb_spec stop (block_number w3 r)); lia. }
    split; [exact Hres | split; [exact Hqs | lia]].
  - (* a block to inspect *)
    replace (Z.to_nat (stop - q)) with (S (Z.to_nat (stop - (q + 1))))
      in * by lia.
    cbn [single_block_queries map fst snd].
    destruct (Z.eq_dec (q + 1) stop) as [Hstop | Hnot].
    + (* it is the block that ends the poll *)
      replace (Z.to_nat (stop - (q + 1))) with O by lia.
      cbn [single_block_queries map].
      destruct Hend as [[Hlogs Hne] | (Hlogs & -> & Ht & Hd)];
        rewrite <- Hstop in Hlogs.
      * rewrite (loop_found _ _ _ _ _ Hqc Hlogs Hne). auto.
      * rewrite loop_deadline by (assumption || lia). auto.
    + destruct (Hkeep (q + 1)) as [Hlogs Ht]; [lia |].
      rewrite loop_empty by assumption. cbn [poll_cons fst snd queries].
      destruct (IH (q + 1) c r) as (Hres & Hqs & Hpure); [lia | | lia |].
      { destruct Hc as [Hc | Hc]; [left | right]; assumption. }
      split; [exact Hres | split; [now rewrite Hqs |]].
      intros Hsc. now rewrite (Hpure Hsc).
Qed.

(** Whatever the head does, the log queries from a state short of [stop]
    are single-block queries for consecutive blocks that go no further than
    [stop]; and if they get as far as [stop], the loop has returned [res]. *)
Lemma loop_prefix (fuel : nat) :
  forall (q c : Z) (r : nat),
    q < stop ->
    exists n : nat,
      (n <= Z.to_nat (stop - q))%nat
      /\ queries (fst (loop fuel q c r)) = single_block_queries (q + 1) n
      /\ (n = Z.to_nat (stop - q) -> snd (loop fuel q c r) = Some (Ok res)).
Proof.
  induction fuel as [| fuel IH]; intros q c r Hq.
  { exists O. cbn. repeat split; lia. }
  cbn [WaitForEvent_loop]. destruct (Z.geb_spec q c) as [Hcq | Hqc].
  - destruct (Z.ltb_spec blkPeriod 0) as [Hneg | Hpos].
    + exists O. cbn. repeat split; lia.
    + destruct (IH q (block_number w3 r) (S r) Hq) as (n & Hn & Hqs & Hres).
      exists n. cbn [poll_cons fst snd queries]. auto.
  - destruct (Z.eq_dec (q + 1) stop) as [Hstop | Hnot].
    + assert (Hone : Z.to_nat (stop - q) = 1%nat) by lia.
      set (done := ([EvGetLogs (q + 1) (q + 1)], Some (Ok res)) : Poll).
      assert (Hret : exists n : nat,
                (n <= Z.to_nat (stop - q))%nat
                /\ queries (fst done) = single_block_queries (q + 1) n
                /\ (n = Z.to_nat (stop - q) -> snd done = Some (Ok res))).
      { exists 1%nat. rewrite Hone. cbn. auto. }
      destruct Hend as [[Hlogs Hne] | (Hlogs & -> & Ht & Hd)];
        rewrite <- Hstop in Hlogs; rewrite Hlogs.
      * destruct res as [| l ls]; [congruence |].
        cbn [length Nat.ltb Nat.leb]. exact Hret.
      * cbn [length Nat.ltb Nat.leb].
        destruct (Z.gtb_spec timeoutByBlkNum 0); [| lia].
        destruct (Z.geb_spec (q + 1) (fromBlock + timeoutByBlkNum)); [| lia].
        cbn [andb]. exact Hret.
    + assert (Hearly : forall o : option (result (list LogEntry)),
              exists n : nat,
                (n <= Z.to_nat (stop - q))%nat
                /\ queries (fst ([EvGetLogs (q + 1) (q + 1)], o))
                     = single_block_queries (q + 1) n
                /\ (n = Z.to_nat (stop - q) ->
                    snd ([EvGetLogs (q + 1) (q + 1)], o) = Some (Ok res))).
      { intros o. exists 1%nat. cbn. repeat split; lia. }
      destruct (get_logs event (q + 1) (q + 1)) as [logs | e];
        [| apply Hearly].
      destruct logs as [| l ls]; cbn [length Nat.ltb Nat.leb];
        [| apply Hearly].
      destruct ((timeoutByBlkNum >? 0)
                && (q + 1 >=? fromBlock + timeoutByBlkNum));
        [apply Hearly |].
      destruct (IH (q + 1) c r) as (n & Hn & Hqs & Hres); [lia |].
      exists (S n). cbn [poll_cons fst snd queries single_block_queries].
      rewrite Hqs. repeat split; [lia |].
      intros Hfull. apply Hres. lia.
Qed.

End Poller.

(** C6, as the code has it.  Started at block 100, with blocks 100 to 102
    holding no log of the event and block 103 holding some: the log
    queries of
    [WaitForEvent] are single-block queries for 100, 101, ... in order and
    go no further than 103, so block 104 and later blocks are never
    queried; and once block 103 has been queried the poller has returned
    exactly its logs.  With the default timeout (or any timeout that is
    not positive, or is at least 3 blocks) and a head of the chain that
    reaches 103 at some read, the poller does get there: it returns the
    logs of block 103 after the four queries for 100 to 103. *)
Theorem WaitForEvent_found_at_103 (w3 : Web3) (event : ContractEvent)
    (timeoutByBlkNum : Z) (logs : list LogEntry) :
  (forall b, 100 <= b < 103 -> get_logs event b b = Ok []) ->
  get_logs event 103 103 = Ok logs ->
  logs <> [] ->
  (forall fuel : nat, exists n : nat,
     (n <= 4)%nat
     /\ queries (fst (WaitForEvent fuel w3 event 100 timeoutByBlkNum))
          = single_block_queries 100 n
     /\ (n = 4%nat ->
         snd (WaitForEvent fuel w3 event 100 timeoutByBlkNum)
           = Some (Ok logs)))
  /\ (forall (blkPeriod : Z) (K : nat),
        GetBlockPeriod w3 100 = Ok blkPeriod ->
        0 <= blkPeriod ->
        timeoutByBlkNum <= 0 \/ 3 <= timeoutByBlkNum ->
        103 <= block_number w3 K ->
        exists fuel0 : nat, forall fuel : nat, (fuel0 <= fuel)%nat ->
          snd (WaitForEvent fuel w3 event 100 timeoutByBlkNum)
            = Some (Ok logs)
          /\ queries (fst (WaitForEvent fuel w3 event 100 timeoutByBlkNum))
               = [(100, 100); (101, 101); (102, 102); (103, 103)]).
Proof.
  intros Hempty Hlogs Hne.
  assert (Hend : ends_poll event 100 timeoutByBlkNum 103 logs)
    by (left; split; assumption).
  split.
  - intros fuel. unfold WaitForEvent.
    destruct (GetBlockPeriod w3 100) as [blkPeriod | e].
    + cbv zeta.
      exact (loop_prefix w3 event 100 timeoutByBlkNum blkPeriod 103 logs Hend
               fuel (100 - 1) (block_number w3 0) 1%nat ltac:(lia)).
    + exists O. cbn. repeat split; lia.
  - intros blkPeriod K Hperiod Hp Ht Hhead.
    exists (4 + K)%nat. intros fuel Hfuel.
    unfold WaitForEvent. rewrite Hperiod. cbv zeta.
    destruct (loop_reaches w3 event 100 timeoutByBlkNum blkPeriod 100 103
                logs K)
      with (fuel := fuel) (q := 100 - 1) (c := block_number w3 0) (r := 1%nat)
      as (Hres & Hqs & _).
    + intros b Hb. split; [apply Hempty; exact Hb | lia].
    + exact Hend.
    + exact Hhead.
    + lia.
    + destruct K as [| K']; [left; exact Hhead | right; split; [lia | exact Hp]].
    + change (Z.to_nat (103 - (100 - 1))) with 4%nat.
      destruct (103 <=? block_number w3 0)%Z; lia.
    + split; [exact Hres | exact Hqs].
Qed.

Lemma WaitForEvent_found_at_103_witness :
  (forall b, 100 <= b < 103 -> get_logs Sample.at_103 b b = Ok [])
  /\ get_logs Sample.at_103 103 103
       = Ok [ {| blockNumber := 103; data := "hit" |} ]
  /\ GetBlockPeriod Sample.growing 100 = Ok 12
  /\ 103 <= block_number Sample.growing 3
  /\ exists fuel0 : nat, forall fuel : nat, (fuel0 <= fuel)%nat ->
       snd (WaitForEvent fuel Sample.growing Sample.at_103 100 (-1))
         = Some (Ok [ {| blockNumber := 103; data := "hit" |} ])
       /\ queries (fst (WaitForEvent fuel Sample.growing Sample.at_103 100 (-1)))
            = [(100, 100); (101, 101); (102, 102); (103, 103)].
Proof.
  assert (Hempty : forall b, 100 <= b < 103 ->
                     get_logs Sample.at_103 b b = Ok []).
  { intros b Hb. cbn. rewrite (proj2 (Z.leb_gt 103 b)) by lia.
    now rewrite andb_false_r. }
  assert (Hhead : 103 <= block_number Sample.growing 3) by (cbn; lia).
  split; [exact Hempty | split; [reflexivity | split; [reflexivity |]]].
  split; [exact Hhead |].
  refine (proj2 (WaitForEvent_found_at_103 Sample.growing Sample.at_103 (-1)
                   [ {| blockNumber := 103; data := "hit" |} ]
                   Hempty eq_refl _) 12 3%nat eq_refl _ _ Hhead).
  - discriminate.
  - lia.
  - left. lia.
Defined.

Example WaitForEvent_growing_chain :
  WaitForEvent 7 Sample.growing Sample.at_103 100 (-1)
  = ([EvGetLogs 100 100; EvSleep 12; EvGetLogs 101 101; EvSleep 12;
      EvGetLogs 102 102; EvSleep 12; EvGetLogs 103 103],
     Some (Ok [ {| blockNumber := 103; data := "hit" |} ])).
Proof. vm_compute. reflexivity. Qed.

(** C6, as stated, fails: block 103 is the first block with a log and
    the chain reaches it, but with a timeout of two blocks the poller
    gives up at block 102 and returns the empty list; however long it
    runs, it never returns the logs of block 103. *)
Lemma WaitForEvent_short_timeout :
  (forall b, 100 <= b < 103 -> get_logs Sample.at_103 b b = Ok [])
  /\ get_logs Sample.at_103 103 103
       = Ok [ {| blockNumber := 103; data := "hit" |} ]
  /\ 103 <= block_number Sample.growing 3
  /\ WaitForEvent 7 Sample.growing Sample.at_103 100 2
       = ([EvGetLogs 100 100; EvSleep 12; EvGetLogs 101 101; EvSleep 12;
           EvGetLogs 102 102],
          Some (Ok []))
  /\ forall fuel,
       snd (WaitForEvent fuel Sample.growing Sample.at_103 100 2)
         <> Some (Ok [ {| blockNumber := 103; data := "hit" |} ]).
Proof.
  split.
  { intros b Hb. cbn. rewrite (proj2 (Z.leb_gt 103 b)) by lia.
    now rewrite andb_false_r. }
  split; [reflexivity |]. split; [cbn; lia |].
  split; [vm_compute; reflexivity |].
  intros fuel.
  do 5 (destruct fuel as [| fuel]; [vm_compute; discriminate |]).
  vm_compute. discriminate.
Qed.

(** C5, as the code has it.  Started at block 100 with a timeout of 5
    blocks and no log of the event in blocks 100 to 105: the log queries
    of [WaitForEvent] are single-block queries for 100, 101, ... in order
    and go no further than 105, so block 106 is never queried; and once
    block 105 has been queried the poller has returned the empty list.
    On a chain whose head stands at 105 or beyond it gets there without
    sleeping: it makes the six queries for 100 to 105 and returns the
    empty list. *)
Theorem WaitForEvent_times_out_at_105 (w3 : Web3) (event : ContractEvent) :
  (forall b, 100 <= b <= 105 -> get_logs event b b = Ok []) ->
  (forall fuel : nat, exists n : nat,
     (n <= 6)%nat
     /\ queries (fst (WaitForEvent fuel w3 event 100 5))
          = single_block_queries 100 n
     /\ (n = 6%nat -> snd (WaitForEvent fuel w3 event 100 5) = Some (Ok [])))
  /\ (forall (blkPeriod head : Z) (fuel : nat),
        GetBlockPeriod w3 100 = Ok blkPeriod ->
        (forall k, block_number w3 k = head) ->
        105 <= head ->
        (6 <= fuel)%nat ->
        WaitForEvent fuel w3 event 100 5
        = ([EvGetLogs 100 100; EvGetLogs 101 101; EvGetLogs 102 102;
            EvGetLogs 103 103; EvGetLogs 104 104; EvGetLogs 105 105],
           Some (Ok []))).
Proof.
  intros Hempty.
  assert (Hend : ends_poll event 100 5 105 []).
  { right. repeat split; try lia. apply Hempty. lia. }
  split.
  - intros fuel. unfold WaitForEvent.
    destruct (GetBlockPeriod w3 100) as [blkPeriod | e].
    + cbv zeta.
      exact (loop_prefix w3 event 100 5 blkPeriod 105 [] Hend
               fuel (100 - 1) (block_number w3 0) 1%nat ltac:(lia)).
    + exists O. cbn. repeat split; lia.
  - intros blkPeriod head fuel Hperiod Hconst Hhead Hfuel.
    unfold WaitForEvent. rewrite Hperiod. cbv zeta.
    destruct (loop_reaches w3 event 100 5 blkPeriod 100 105 [] 0)
      with (fuel := fuel) (q := 100 - 1) (c := block_number w3 0) (r := 1%nat)
      as (Hres & _ & Hpure).
    + intros b Hb. split; [apply Hempty | ]; lia.
    + exact Hend.
    + rewrite Hconst. exact Hhead.
    + lia.
    + left. rewrite Hconst. exact Hhead.
    + change (Z.to_nat (105 - (100 - 1))) with 6%nat.
      destruct (105 <=? block_number w3 0)%Z; lia.
    + assert (Hc : 105 <= block_number w3 0) by (rewrite Hconst; exact Hhead).
      specialize (Hpure Hc).
      destruct (WaitForEvent_loop fuel w3 event 100 5 blkPeriod (100 - 1)
                  (block_number w3 0) 1) as [t o].
      cbn [fst snd] in Hres, Hpure. subst t o. reflexivity.
Qed.

Lemma WaitForEvent_times_out_at_105_witness :
  (forall b, 100 <= b <= 105 -> get_logs Sample.silent b b = Ok [])
  /\ GetBlockPeriod Sample.stalled_at_105 100 = Ok 12
  /\ (forall k, block_number Sample.stalled_at_105 k = 105)
  /\ WaitForEvent 6 Sample.stalled_at_105 Sample.silent 100 5
     = ([EvGetLogs 100 100; EvGetLogs 101 101; EvGetLogs 102 102;
         EvGetLogs 103 103; EvGetLogs 104 104; EvGetLogs 105 105],
        Some (Ok [])).
Proof.
  split; [reflexivity | split; [reflexivity | split; [reflexivity |]]].
  refine (proj2 (WaitForEvent_times_out_at_105 Sample.stalled_at_105
                   Sample.silent _) 12 105 6%nat eq_refl _ _ _).
  - reflexivity.
  - reflexivity.
  - lia.
  - lia.
Defined.

(** On a chain that stands still at block 100 the loop, once it has
    queried block 100, only sleeps. *)
Lemma loop_stalled (fuel : nat) (r : nat) :
  WaitForEvent_loop fuel Sample.stalled Sample.silent 100 5 12 100 100 r
  = (repeat (EvSleep 12) fuel, None).
Proof.
  revert r. induction fuel as [| fuel IH]; intros r; [reflexivity |].
  rewrite loop_sleep by lia.
  change (block_number Sample.stalled r) with 100. rewrite IH. reflexivity.
Qed.

(** C5, as stated, fails: when no new block is ever produced after block
    100, the poller queries block 100 and then sleeps for ever; it never
    reaches block 105 and never returns, however long it runs. *)
Lemma WaitForEvent_stalled_never_returns :
  (forall fuel, snd (WaitForEvent fuel Sample.stalled Sample.silent 100 5) = None)
  /\ (forall fuel,
        queries (fst (WaitForEvent (S fuel) Sample.stalled Sample.silent 100 5))
          = [(100, 100)]).
Proof.
  assert (Hrun : forall fuel,
            WaitForEvent (S fuel) Sample.stalled Sample.silent 100 5
            = (EvGetLogs 100 100 :: repeat (EvSleep 12) fuel, None)).
  { intros fuel. unfold WaitForEvent.
    change (GetBlockPeriod Sample.stalled 100) with (@Ok Z 12).
    cbv beta iota zeta. change (block_number Sample.stalled 0) with 100.
    rewrite (loop_empty Sample.stalled Sample.silent 100 5 12 fuel (100 - 1)
               100 1); [| lia | reflexivity | right; lia].
    change (100 - 1 + 1) with 100. rewrite loop_stalled. reflexivity. }
  split; intros fuel.
  - destruct fuel as [| fuel]; [reflexivity | now rewrite Hrun].
  - rewrite Hrun. cbn [fst queries]. induction fuel as [| fuel IH];
      [reflexivity | exact IH].
Qed.

(** ** Looking entries up in the ABI *)

(** [_FindConstructorAbi] returns the first entry of type 'constructor',
    having read the 'type' of every entry before it; it raises the
    ValueError only when every entry has a 'type' and none is a
    constructor, and a KeyError at the first entry without a 'type' that
    comes before any constructor. *)
Theorem FindConstructorAbi_first (abiList : list AbiEntry) :
  match _FindConstructorAbi abiList with
  | Ok found =>
      exists before after,
        abiList = (before ++ found :: after)%list
        /\ found !! "type" = Some "constructor"
        /\ Forall (fun abi => exists ty, abi !! "type" = Some ty
                                         /\ ty <> "constructor") before
  | Raise e =>
      (e = ValueError_NoConstructor
       /\ Forall (fun abi => exists ty, abi !! "type" = Some ty
                                        /\ ty <> "constructor") abiList)
      \/ (e = KeyError "type"
          /\ exists before broken after,
               abiList = (before ++ broken :: after)%list
               /\ broken !! "type" = None
               /\ Forall (fun abi => exists ty, abi !! "type" = Some ty
                                                /\ ty <> "constructor") before)
  end.
Proof.
  induction abiList as [| abi rest IH]; cbn [_FindConstructorAbi].
  - left. split; [reflexivity | constructor].
  - unfold abi_getitem. destruct (abi !! "type") as [ty |] eqn:Hty.
    + destruct (String.eqb_spec ty "constructor") as [-> | Hne].
      * exists [], rest. repeat split; [exact Hty | constructor].
      * assert (Hhead : exists ty, abi !! "type" = Some ty /\ ty <> "constructor")
          by (exists ty; split; [exact Hty | exact Hne]).
        destruct (_FindConstructorAbi rest) as [found | e].
        -- destruct IH as (before & after & -> & Hf & Hb).
           exists (abi :: before), after. repeat split; [exact Hf |].
           constructor; assumption.
        -- destruct IH as [[-> Hall] | (-> & before & broken & after & -> & Hb & Hall)].
           ++ left. split; [reflexivity | constructor; assumption].
           ++ right. split; [reflexivity |].
              exists (abi :: before), broken, after.
              repeat split; [exact Hb | constructor; assumption].
    + right. split; [reflexivity |]. exists [], abi, rest.
      repeat split; [exact Hty | constructor].
Qed.

(** [_FindFuncAbi] returns the first entry of type 'function' whose name
    is the one asked for, so of several overloads only the first is seen:
    every entry before it has been read and passed over.  It raises the
    ValueError only when it has passed over every entry, and otherwise the
    KeyError of the first entry it cannot read: one without a 'type', or a
    function without a 'name'. *)
Theorem FindFuncAbi_first (abiList : list AbiEntry) (funcName : string) :
  match _FindFuncAbi abiList funcName with
  | Ok found =>
      exists before after,
        abiList = (before ++ found :: after)%list
        /\ found !! "type" = Some "function"
        /\ found !! "name" = Some funcName
        /\ Forall (passed_over funcName) before
  | Raise e =>
      (e = ValueError_FuncNotFound funcName
       /\ Forall (passed_over funcName) abiList)
      \/ (exists before broken after,
            abiList = (before ++ broken :: after)%list
            /\ Forall (passed_over funcName) before
            /\ ((e = KeyError "type" /\ broken !! "type" = None)
                \/ (e = KeyError "name"
                    /\ broken !! "type" = Some "function"
                    /\ broken !! "name" = None)))
  end.
Proof.
  induction abiList as [| abi rest IH]; cbn [_FindFuncAbi].
  - left. split; [reflexivity | constructor].
  - unfold abi_getitem. destruct (abi !! "type") as [ty |] eqn:Hty.
    2: { right. exists [], abi, rest.
         split; [reflexivity | split; [constructor | left; auto]]. }
    assert (Hskip : passed_over funcName abi ->
              match _FindFuncAbi rest funcName with
              | Ok found =>
                  exists before after,
                    (abi :: rest) = (before ++ found :: after)%list
                    /\ found !! "type" = Some "function"
                    /\ found !! "name" = Some funcName
                    /\ Forall (passed_over funcName) before
              | Raise e =>
                  (e = ValueError_FuncNotFound funcName
                   /\ Forall (passed_over funcName) (abi :: rest))
                  \/ (exists before broken after,
                        (abi :: rest) = (before ++ broken :: after)%list
                        /\ Forall (passed_over funcName) before
                        /\ ((e = KeyError "type" /\ broken !! "type" = None)
                            \/ (e = KeyError "name"
                                /\ broken !! "type" = Some "function"
                                /\ broken !! "name" = None)))
              end).
    { intros Hover. destruct (_FindFuncAbi rest funcName) as [found | e].
      - destruct IH as (before & after & -> & Hf & Hn & Hb).
        exists (abi :: before), after. repeat split; try assumption.
        constructor; assumption.
      - destruct IH as [[-> Hall]
                       | (before & broken & after & -> & Hb & Hkey)].
        + left. split; [reflexivity | constructor; assumption].
        + right. exists (abi :: before), broken, after.
          split; [reflexivity | split; [constructor; assumption |]].
          exact Hkey. }
    destruct (String.eqb_spec ty "function") as [-> | Hne].
    + destruct (abi !! "name") as [name |] eqn:Hname.
      2: { right. exists [], abi, rest.
           split; [reflexivity | split; [constructor | right; auto]]. }
      destruct (String.eqb_spec name funcName) as [-> | Hnn].
      * exists [], rest. repeat split; [exact Hty | exact Hname | constructor].
      * apply Hskip. exists "function". split; [exact Hty |].
        intros _. exists name. auto.
    + apply Hskip. exists ty. split; [exact Hty |]. intros ->. congruence.
Qed.

(** ** Calls that are not transactions, and transactions that carry value *)

(** For a function whose stateMutability is 'view', [CallContractFunc]
    makes the read-only call and nothing else: no gas estimate, no message,
    no signature, no submission.  The key, the gas limit, the value, the
    prompt flag and the fee calculator play no part, and a result is the
    decoded return value, never a receipt. *)
Theorem CallContractFunc_view (w3 : Web3) (contract : Contract)
    (funcName : string) (arguments : list string) (privKey : option string)
    (gas : option Z) (value : Z) (confirmPrompt : bool)
    (feeCalculator : Z -> Z -> Z * Z) (funcAbi : AbiEntry) :
  _FindFuncAbi (abi contract) funcName = Ok funcAbi ->
  funcAbi !! "stateMutability" = Some "view" ->
  let run := CallContractFunc w3 contract funcName arguments privKey gas
               value confirmPrompt feeCalculator in
  run = (executable <- lift (functions contract funcName arguments) ;;
         emit EvCall ;;;
         result <- lift (call executable) ;;
         ret (ReturnValue result))
  /\ Forall (fun ev => ev = EvCall) (trace run)
  /\ (forall r, outcome run = Ok r ->
        exists executable v,
          functions contract funcName arguments = Ok executable
          /\ call executable = Ok v /\ r = ReturnValue v).
Proof.
  intros Hfind Hmut run.
  assert (Hrun : run =
    (executable <- lift (functions contract funcName arguments) ;;
     emit EvCall ;;;
     result <- lift (call executable) ;;
     ret (ReturnValue result))).
  { unfold run, CallContractFunc. rewrite Hfind, bind_lift_Ok.
    unfold abi_getitem. rewrite Hmut, bind_lift_Ok. reflexivity. }
  split; [exact Hrun |]. rewrite Hrun. split.
  - trace_forall ltac:(reflexivity).
  - intros r H.
    apply bind_Ok in H as (executable & Hexe & H & _).
    apply bind_Ok in H as ([] & _ & H & _).
    apply bind_Ok in H as (v & Hcall & Hret & _).
    cbn in Hexe, Hcall, Hret. injection Hret as <-. eauto.
Qed.

(** For a function whose stateMutability is anything but 'view',
    [CallContractFunc] is the transaction of that function, carrying the
    caller's value when the function is 'payable' and 0 otherwise; it makes
    no read-only call and its result is a receipt. *)
Theorem CallContractFunc_transaction (w3 : Web3) (contract : Contract)
    (funcName : string) (arguments : list string) (privKey : option string)
    (gas : option Z) (value : Z) (confirmPrompt : bool)
    (feeCalculator : Z -> Z -> Z * Z) (funcAbi : AbiEntry)
    (mutability : string) :
  _FindFuncAbi (abi contract) funcName = Ok funcAbi ->
  funcAbi !! "stateMutability" = Some mutability ->
  mutability <> "view" ->
  let run := CallContractFunc w3 contract funcName arguments privKey gas
               value confirmPrompt feeCalculator in
  let sent := if String.eqb mutability "payable" then value else 0 in
  run = (executable <- lift (functions contract funcName arguments) ;;
         receipt <- _DoTransaction w3 executable privKey gas sent
                      confirmPrompt feeCalculator ;;
         ret (Receipt receipt))
  /\ Forall (carries_value sent) (trace run)
  /\ Forall (fun ev => ev <> EvCall) (trace run)
  /\ (forall v, outcome run <> Ok (ReturnValue v)).
Proof.
  intros Hfind Hmut Hview run sent.
  assert (Hrun : run =
    (executable <- lift (functions contract funcName arguments) ;;
     receipt <- _DoTransaction w3 executable privKey gas sent confirmPrompt
                  feeCalculator ;;
     ret (Receipt receipt))).
  { unfold run, CallContractFunc. rewrite Hfind, bind_lift_Ok.
    unfold abi_getitem. rewrite Hmut, bind_lift_Ok.
    apply String.eqb_neq in Hview. rewrite Hview. reflexivity. }
  split; [exact Hrun |]. rewrite Hrun. repeat split.
  - trace_forall ltac:(exact I). apply DoTransaction_carries_value.
  - trace_forall ltac:(discriminate). apply DoTransaction_no_call.
  - intros v H.
    apply bind_Ok in H as (executable & _ & H & _).
    apply bind_Ok in H as (receipt & _ & Hret & _).
    cbn in Hret. discriminate.
Qed.

(** A function that the ABI does not list is refused before anything is
    asked of the node: when every entry of the ABI has its 'type', every
    function entry its 'name', and no function entry bears the name,
    [CallContractFunc] raises the not-found ValueError with an empty
    trace. *)
Theorem CallContractFunc_unknown_function (w3 : Web3) (contract : Contract)
    (funcName : string) (arguments : list string) (privKey : option string)
    (gas : option Z) (value : Z) (confirmPrompt : bool)
    (feeCalculator : Z -> Z -> Z * Z) :
  Forall (fun abi => exists ty, abi !! "type" = Some ty
                     /\ (ty = "function" ->
                         exists name, abi !! "name" = Some name
                                      /\ name <> funcName))
         (abi contract) ->
  CallContractFunc w3 contract funcName arguments privKey gas value
    confirmPrompt feeCalculator
  = ([], Raise (ValueError_FuncNotFound funcName)).
Proof.
  intros Hall.
  assert (Hfind : _FindFuncAbi (abi contract) funcName
                  = Raise (ValueError_FuncNotFound funcName)).
  { induction Hall as [| abi rest (ty & Hty & Hfun) _ IH]; [reflexivity |].
    cbn [_FindFuncAbi]. unfold abi_getitem. rewrite Hty.
    destruct (String.eqb_spec ty "function") as [Heq | _]; [| exact IH].
    destruct (Hfun Heq) as (name & Hname & Hne). rewrite Hname.
    apply String.eqb_neq in Hne. rewrite Hne. exact IH. }
  unfold CallContractFunc. rewrite Hfind. reflexivity.
Qed.

(** ** What a transaction does and does not do *)

(** [_SignTx] returns a signed transaction only for a transaction that has
    its four fields, whose largest cost the balance covers, and that the
    user has agreed to when asked; what it returns is then what the
    signing primitive returned for that transaction and the given key.
    When it raises, nothing has been signed: either the signing primitive
    was not called, or it was called and raised that error. *)
Theorem SignTx_signs_only_if (w3 : Web3) (tx : TxParams) (privKey : string)
    (confirmPrompt : bool) :
  let run := _SignTx w3 tx privKey confirmPrompt in
  (forall signedTx, outcome run = Ok signedTx ->
     sign_transaction w3 tx privKey = Ok signedTx
     /\ In (EvSign tx privKey) (trace run)
     /\ exists maxFeePerGas maxPriorityFeePerGas gas value,
          tx_fields tx !! "maxFeePerGas" = Some maxFeePerGas
          /\ tx_fields tx !! "maxPriorityFeePerGas"
               = Some maxPriorityFeePerGas
          /\ tx_fields tx !! "gas" = Some gas
          /\ tx_fields tx !! "value" = Some value
          /\ (maxFeePerGas + maxPriorityFeePerGas) * gas + value
               <= get_balance w3 (default_account w3)
          /\ (confirmPrompt = true -> lower (stdin w3) = "yes"))
  /\ (forall e, outcome run = Raise e ->
        Forall (fun ev => ev = EvPrint \/ ev = EvInput) (trace run)
        \/ (sign_transaction w3 tx privKey = Raise e
            /\ trace run
               = (prompt_events confirmPrompt ++ [EvSign tx privKey])%list)).
Proof.
  cbv zeta. split.
  - intros s Hs. destruct (SignTx_signed_for _ _ _ _ _ Hs)
      as ((a & b & g & v & Ha & Hb & Hg & Hv & (Hle & Hyes) & Hsign) & Htr).
    split; [exact Hsign |]. split.
    + rewrite Htr. apply in_app_iff. right. left. reflexivity.
    + exists a, b, g, v. repeat (split; [assumption |]).
      intros Hc. exact (proj2 (Hyes Hc)).
  - intros e.
    destruct (tx_fields tx !! "maxFeePerGas") as [a |] eqn:Ha;
      [| unfold _SignTx, getitem; rewrite Ha; left; constructor].
    destruct (tx_fields tx !! "maxPriorityFeePerGas") as [b |] eqn:Hb;
      [| unfold _SignTx, getitem; rewrite Ha, Hb; left; constructor].
    destruct (tx_fields tx !! "gas") as [g |] eqn:Hg;
      [| unfold _SignTx, getitem; rewrite Ha, Hb, Hg; left; constructor].
    destruct (tx_fields tx !! "value") as [v |] eqn:Hv;
      [| unfold _SignTx, getitem; rewrite Ha, Hb, Hg, Hv; left;
         constructor].
    destruct (Z_le_gt_dec ((a + b) * g + v)
                (get_balance w3 (default_account w3))) as [Hle | Hgt].
    + destruct (SignTx_past_guard w3 tx privKey confirmPrompt a b g v
                  Ha Hb Hg Hv Hle) as (Hoff & Hon & _).
      destruct confirmPrompt.
      * destruct (Hon eq_refl) as (Hfail & Hshown).
        destruct (cost_breakdown_cases w3 a b g v
                    (get_balance w3 (default_account w3)) ((a + b) * g)
                    ((a + b) * g + v))
          as [Hs | (e0 & number & unit & _ & Hs)].
        -- rewrite (Hshown Hs).
           destruct (String.eqb (lower (stdin w3)) "yes").
           ++ cbn. intros Hout. right. split; [exact Hout | reflexivity].
           ++ intros _. left. cbn. repeat constructor; tauto.
        -- rewrite (Hfail e0 Hs). intros _. left. constructor.
      * rewrite (Hoff eq_refl). cbn. intros Hout. right.
        split; [exact Hout | reflexivity].
    + rewrite (SignTx_eval w3 tx privKey confirmPrompt a b g v Ha Hb Hg Hv).
      cbv zeta. rewrite (Zgtb_gt _ _ Hgt). intros _. left. constructor.
Qed.

(** Without a key, [_DoTransaction] hands the message to the node's own
    account: apart from the gas estimate and the wait for the receipt its
    only event is that hand-over, the message has no fee fields, and there
    is no prompt and no balance check, whatever the prompt flag says. *)
Theorem DoTransaction_unsigned (w3 : Web3) (executable : Executable)
    (gas : option Z) (value : Z) (confirmPrompt : bool)
    (feeCalculator : Z -> Z -> Z * Z) :
  let run := _DoTransaction w3 executable None gas value confirmPrompt
               feeCalculator in
  Forall (fun ev =>
            match ev with
            | EvEstimateGas _ | EvWaitReceipt _ => True
            | EvTransact msg =>
                msg !! "maxFeePerGas" = None
                /\ msg !! "maxPriorityFeePerGas" = None
                /\ msg !! "value" = Some value
            | _ => False
            end) (trace run)
  /\ run = _DoTransaction w3 executable None gas value (negb confirmPrompt)
             feeCalculator.
Proof.
  cbv zeta. split; [| reflexivity].
  unfold _DoTransaction, _DetermineGas, _EstimateGas.
  trace_forall ltac:(first [exact I | cbn; now simplify_map_eq]).
Qed.

(** With a key, [_DoTransaction] never hands the message to the node's own
    account, calls the signing primitive with no other key, and sends a
    raw transaction only if it is what the signing primitive returned, for
    that key, on the transaction built from the message, the balance
    covers the largest cost of that transaction, and the user has agreed
    when asked. *)
Theorem DoTransaction_signed (w3 : Web3) (executable : Executable)
    (privKey : string) (gas : option Z) (value : Z) (confirmPrompt : bool)
    (feeCalculator : Z -> Z -> Z * Z) :
  Forall (fun ev =>
            match ev with
            | EvTransact _ => False
            | EvSign _ key => key = privKey
            | EvSendRaw raw =>
                exists gas' tx signedTx maxFeePerGas maxPriorityFeePerGas
                       txGas txValue,
                  build_transaction executable
                    (_FillMessage w3 gas' value (Some privKey) feeCalculator)
                    = Ok tx
                  /\ sign_transaction w3 tx privKey = Ok signedTx
                  /\ raw = rawTransaction signedTx
                  /\ tx_fields tx !! "maxFeePerGas" = Some maxFeePerGas
                  /\ tx_fields tx !! "maxPriorityFeePerGas"
                       = Some maxPriorityFeePerGas
                  /\ tx_fields tx !! "gas" = Some txGas
                  /\ tx_fields tx !! "value" = Some txValue
                  /\ (maxFeePerGas + maxPriorityFeePerGas) * txGas + txValue
                       <= get_balance w3 (default_account w3)
                  /\ (confirmPrompt = true -> lower (stdin w3) = "yes")
            | _ => True
            end)
         (trace (_DoTransaction w3 executable (Some privKey) gas value
                   confirmPrompt feeCalculator)).
Proof.
  unfold _DoTransaction.
  apply Forall_trace_bind.
  { unfold _DetermineGas, _EstimateGas. trace_forall ltac:(exact I). }
  intros gas' _. apply Forall_trace_bind; [| intros; trace_forall ltac:(exact I)].
  apply Forall_trace_bind; [trace_forall ltac:(exact I) |]. intros _ _.
  apply Forall_trace_bind; [trace_forall ltac:(exact I) |]. intros tx Htx.
  apply Forall_trace_bind.
  { eapply Forall_impl; [apply SignTx_trace_events |].
    intros ev [-> | [-> | ->]]; cbn; auto. }
  intros signedTx Hsigned.
  apply Forall_trace_bind; [| intros; trace_forall ltac:(exact I)].
  apply Forall_trace_emit.
  destruct (SignTx_signed_for w3 tx privKey confirmPrompt signedTx Hsigned)
    as ((a & b & g & v & Ha & Hb & Hg & Hv & (Hle & Hyes) & Hsign) & _).
  exists gas', tx, signedTx, a, b, g, v. cbn in Htx.
  repeat (split; [first [assumption | reflexivity] |]).
  intros Hc. exact (proj2 (Hyes Hc)).
Qed.

(** The message of the default fee calculator. *)
Lemma FillMessage_default_fees (w3 : Web3) (gas value : Z) (privKey : string) :
  let msg := _FillMessage w3 gas value (Some privKey) DefaultFeeCalculator in
  let priorityFee := Z.max (gas_price w3 * 2 / 100) (max_priority_fee w3) in
  msg !! "maxFeePerGas" = Some (gas_price w3 + priorityFee)
  /\ msg !! "maxPriorityFeePerGas" = Some priorityFee
  /\ msg !! "gas" = Some gas
  /\ msg !! "value" = Some value.
Proof.
  cbv zeta. unfold _FillMessage, DefaultFeeCalculator.
  repeat split; now simplify_map_eq.
Qed.

(** How the fee calculator and the guard compose.  With the default fee
    calculator and a built transaction that keeps the fee, gas and value
    fields of the message, a transaction of [gas] units is refused by the
    guard when (gas_price + 2 * priorityFee) * gas + value exceeds the
    balance, where priorityFee = max(gas_price * 2 / 100,
    max_priority_fee): the guard adds the priority fee to a maxFeePerGas
    that already contains it.  A refused transaction is neither signed nor
    sent.  One whose cost is within the balance goes on: without the
    prompt the signing primitive is called; and when the breakdown is
    printed and the answer is yes, if the prompt is asked for, and the
    signing primitive returns, the raw transaction it returned is sent. *)
Theorem DoTransaction_default_fee_guard (w3 : Web3) (executable : Executable)
    (privKey : string) (gas value : Z) (confirmPrompt : bool)
    (tx : TxParams) :
  let msg := _FillMessage w3 gas value (Some privKey) DefaultFeeCalculator in
  build_transaction executable msg = Ok tx ->
  tx_fields tx !! "maxFeePerGas" = msg !! "maxFeePerGas" ->
  tx_fields tx !! "maxPriorityFeePerGas" = msg !! "maxPriorityFeePerGas" ->
  tx_fields tx !! "gas" = msg !! "gas" ->
  tx_fields tx !! "value" = msg !! "value" ->
  let priorityFee := Z.max (gas_price w3 * 2 / 100) (max_priority_fee w3) in
  let maxFee := (gas_price w3 + 2 * priorityFee) * gas in
  let maxCost := maxFee + value in
  let balance := get_balance w3 (default_account w3) in
  let run := _DoTransaction w3 executable (Some privKey) (Some gas) value
               confirmPrompt DefaultFeeCalculator in
  (maxCost > balance ->
   run = ([EvBuildTransaction msg],
          Raise (RuntimeError_InsufficientBalance balance maxCost)))
  /\ (maxCost <= balance ->
      (confirmPrompt = false ->
       exists rest,
         trace run = EvBuildTransaction msg :: EvSign tx privKey :: rest)
      /\ ((confirmPrompt = true ->
           cost_breakdown w3 (gas_price w3 + priorityFee) priorityFee gas
             value balance maxFee maxCost = ([EvPrint], Ok tt)
           /\ lower (stdin w3) = "yes") ->
          forall signedTx,
            sign_transaction w3 tx privKey = Ok signedTx ->
            exists rest,
              trace run
              = (EvBuildTransaction msg :: prompt_events confirmPrompt
                 ++ EvSign tx privKey :: EvSendRaw (rawTransaction signedTx)
                 :: rest)%list)).
Proof.
  intros msg Hbuild Hf Hp Hg Hv priorityFee maxFee maxCost balance run.
  destruct (FillMessage_default_fees w3 gas value privKey)
    as (Hmf & Hmp & Hmg & Hmv).
  fold msg in Hmf, Hmp, Hmg, Hmv. fold priorityFee in Hmf, Hmp.
  rewrite Hmf in Hf. rewrite Hmp in Hp. rewrite Hmg in Hg. rewrite Hmv in Hv.
  assert (Hfee : (gas_price w3 + priorityFee + priorityFee) * gas = maxFee)
    by (unfold maxFee; ring).
  assert (Hrun : run =
    match _SignTx w3 tx privKey confirmPrompt with
    | (t, Raise e) => (EvBuildTransaction msg :: t, Raise e)
    | (t, Ok signedTx) =>
        match send_raw_transaction w3 (rawTransaction signedTx) with
        | Raise e =>
            (EvBuildTransaction msg :: t
               ++ [EvSendRaw (rawTransaction signedTx)], Raise e)
        | Ok txHash =>
            (EvBuildTransaction msg :: t
               ++ [EvSendRaw (rawTransaction signedTx);
                   EvWaitReceipt txHash],
             wait_outcome w3 txHash)
        end
    end%list).
  { unfold run, _DoTransaction, _DetermineGas.
    change (ret gas) with (lift (Ok gas)). rewrite bind_lift_Ok. cbv zeta.
    fold msg. unfold emit, lift, ret, bind, wait_outcome. rewrite Hbuild.
    destruct (_SignTx w3 tx privKey confirmPrompt) as [t [s | e]];
      [| reflexivity].
    destruct (send_raw_transaction w3 (rawTransaction s)) as [h | e].
    - destruct (wait_for_transaction_receipt w3 h) as [r | e];
        [destruct (log_receipt w3 r) as [[] | e] |];
        cbn [app]; rewrite <- ?app_assoc, ?app_nil_r; reflexivity.
    - cbn [app]. rewrite <- ?app_assoc, ?app_nil_r. reflexivity. }
  rewrite Hrun. clear Hrun. split.
  - intros Hgt.
    rewrite (SignTx_eval w3 tx privKey confirmPrompt _ _ _ _ Hf Hp Hg Hv).
    cbv zeta. rewrite Hfee. fold maxCost. fold balance.
    rewrite (Zgtb_gt _ _ Hgt). reflexivity.
  - intros Hle. split.
    { intros ->.
      assert (Hle' : (gas_price w3 + priorityFee + priorityFee) * gas + value
                     <= get_balance w3 (default_account w3))
        by (rewrite Hfee; exact Hle).
      rewrite (SignTx_unprompted w3 tx privKey _ _ _ _ Hf Hp Hg Hv Hle').
      destruct (sign_transaction w3 tx privKey) as [s | e];
        [destruct (send_raw_transaction w3 (rawTransaction s)) |];
        eexists; reflexivity. }
    intros Hprompt signedTx Hsign.
    assert (Hfor : signed_for w3 tx privKey confirmPrompt signedTx).
    { exists (gas_price w3 + priorityFee), priorityFee, gas, value.
      repeat (split; [assumption |]). split; [| exact Hsign].
      cbv zeta. rewrite Hfee. fold maxCost. fold balance.
      split; [exact Hle | exact Hprompt]. }
    rewrite (signed_for_SignTx _ _ _ _ _ Hfor).
    destruct (send_raw_transaction w3 (rawTransaction signedTx));
      eexists; cbn [trace fst]; rewrite <- ?app_assoc; cbn [app];
      reflexivity.
Qed.

(** ** The prompt *)

Lemma lower_ascii_inv (c : ascii) (l u : ascii) :
  (nat_of_ascii l - 32 = nat_of_ascii u)%nat ->
  (97 <= nat_of_ascii l <= 122)%nat ->
  lower_ascii c = l -> c = l \/ c = u.
Proof.
  intros Hlu Hrange H. unfold lower_ascii in H.
  destruct ((65 <=? nat_of_ascii c)%nat && (nat_of_ascii c <=? 90)%nat) eqn:E.
  - right. apply andb_true_iff in E as [E1 E2].
    apply Nat.leb_le in E1, E2.
    rewrite <- (ascii_nat_embedding c), <- (ascii_nat_embedding u).
    f_equal. apply (f_equal nat_of_ascii) in H.
    rewrite nat_ascii_embedding in H by lia. lia.
  - left. exact H.
Qed.

(** With the prompt on, a balance that covers the largest cost and a
    breakdown whose conversions all return, [_SignTx] goes on to the
    signing primitive exactly when the answer typed is 'yes' in some mix
    of upper and lower case, with nothing before or after it, and ends as
    the primitive ends; on any other answer it raises the cancellation
    error after the question, and the signing primitive is not called. *)
Theorem SignTx_prompt (w3 : Web3) (tx : TxParams) (privKey : string)
    (maxFeePerGas maxPriorityFeePerGas gas value : Z) :
  tx_fields tx !! "maxFeePerGas" = Some maxFeePerGas ->
  tx_fields tx !! "maxPriorityFeePerGas" = Some maxPriorityFeePerGas ->
  tx_fields tx !! "gas" = Some gas ->
  tx_fields tx !! "value" = Some value ->
  (maxFeePerGas + maxPriorityFeePerGas) * gas + value
    <= get_balance w3 (default_account w3) ->
  cost_breakdown w3 maxFeePerGas maxPriorityFeePerGas gas value
    (get_balance w3 (default_account w3))
    ((maxFeePerGas + maxPriorityFeePerGas) * gas)
    ((maxFeePerGas + maxPriorityFeePerGas) * gas + value)
    = ([EvPrint], Ok tt) ->
  let run := _SignTx w3 tx privKey true in
  let agreed :=
    In (stdin w3) ["yes"; "yeS"; "yEs"; "yES"; "Yes"; "YeS"; "YEs"; "YES"] in
  (agreed ->
   run = ([EvPrint; EvInput; EvSign tx privKey],
          sign_transaction w3 tx privKey))
  /\ (~ agreed -> run = ([EvPrint; EvInput], Raise RuntimeError_Cancelled)).
Proof.
  intros Hf Hp Hg Hv Hle Hshown run agreed. unfold run.
  destruct (SignTx_past_guard w3 tx privKey true _ _ _ _ Hf Hp Hg Hv Hle)
    as (_ & Hon & _).
  rewrite (proj2 (Hon eq_refl) Hshown). clear Hon.
  assert (Hiff : lower (stdin w3) = "yes" <-> agreed).
  { unfold agreed. split.
    - destruct (stdin w3) as [| c1 [| c2 [| c3 [| c4 s]]]]; cbn [lower];
        try discriminate.
      intros [= H1 H2 H3].
      apply (lower_ascii_inv c1 "y" "Y") in H1; [| reflexivity | vm_compute; lia].
      apply (lower_ascii_inv c2 "e" "E") in H2; [| reflexivity | vm_compute; lia].
      apply (lower_ascii_inv c3 "s" "S") in H3; [| reflexivity | vm_compute; lia].
      destruct H1 as [-> | ->], H2 as [-> | ->], H3 as [-> | ->];
        cbn; tauto.
    - intros Hin. cbn in Hin.
      repeat (destruct Hin as [<- | Hin]; [reflexivity |]). contradiction. }
  destruct (String.eqb_spec (lower (stdin w3)) "yes") as [Hyes | Hno].
  - split; [reflexivity |]. intros Hn. exfalso. apply Hn, Hiff, Hyes.
  - split; [| reflexivity]. intros Ha. exfalso. apply Hno, Hiff, Ha.
Qed.

(** ** Gas *)

(** When the estimate fails, [_DoTransaction] fails with the estimator's
    error right after asking: no message is filled in, nothing is signed
    and nothing is submitted. *)
Theorem DoTransaction_estimate_fails (w3 : Web3) (executable : Executable)
    (privKey : option string) (value : Z) (confirmPrompt : bool)
    (feeCalculator : Z -> Z -> Z * Z) (e : PyError) :
  estimate_gas executable value = Raise e ->
  _DoTransaction w3 executable privKey None value confirmPrompt feeCalculator
  = ([EvEstimateGas value], Raise e).
Proof.
  intros H. unfold _DoTransaction, _DetermineGas, _EstimateGas.
  unfold bind, emit, lift. rewrite H. reflexivity.
Qed.

(** With a gas limit from the caller, [_DoTransaction] never asks for an
    estimate, and every message it hands over for submission carries that
    limit unchanged. *)
Theorem DoTransaction_explicit_gas (w3 : Web3) (executable : Executable)
    (privKey : option string) (gas value : Z) (confirmPrompt : bool)
    (feeCalculator : Z -> Z -> Z * Z) :
  Forall (fun ev =>
            match ev with
            | EvEstimateGas _ => False
            | EvTransact msg | EvBuildTransaction msg =>
                msg !! "gas" = Some gas
            | _ => True
            end)
         (trace (_DoTransaction w3 executable privKey (Some gas) value
                   confirmPrompt feeCalculator)).
Proof.
  unfold _DoTransaction, _DetermineGas.
  change (ret gas) with (lift (Ok gas)). rewrite bind_lift_Ok. cbv zeta.
  assert (Hgas : _FillMessage w3 gas value privKey feeCalculator !! "gas"
                 = Some gas).
  { unfold _FillMessage. destruct privKey as [k |].
    - destruct (feeCalculator _ _). now simplify_map_eq.
    - now simplify_map_eq. }
  apply Forall_trace_bind; [| intros; trace_forall ltac:(exact I)].
  destruct privKey as [k |].
  - apply Forall_trace_bind; [apply Forall_trace_emit; exact Hgas |].
    intros _ _. apply Forall_trace_bind; [apply Forall_trace_lift |].
    intros tx _. apply Forall_trace_bind.
    + eapply Forall_impl; [apply SignTx_trace_events |].
      intros ev [-> | [-> | ->]]; exact I.
    + intros; trace_forall ltac:(exact I).
  - trace_forall ltac:(exact Hgas).
Qed.

(** ** The sending account *)

(** [_LoadAccountCredentials] raises IndexError exactly when the index is
    negative or not below the number of addresses.  Otherwise the address
    is the one at that position, and the key is that of the first
    private-key entry whose address equals it when case is ignored; if
    there is no such entry the KeyError names the address. *)
Theorem LoadAccountCredentials_spec (keyJson : KeyJson) (index : Z) :
  let n := Z.of_nat (length (addresses keyJson)) in
  (index < 0 \/ n <= index ->
   _LoadAccountCredentials keyJson index = Raise IndexError)
  /\ (0 <= index < n ->
      exists address,
        addresses keyJson !! Z.to_nat index = Some address
        /\ match _LoadAccountCredentials keyJson index with
           | Ok (found, priv) =>
               found = address
               /\ exists before addr after,
                    private_keys keyJson
                      = (before ++ (addr, priv) :: after)%list
                    /\ lower addr = lower address
                    /\ Forall (fun item => lower (fst item) <> lower address)
                              before
           | Raise e =>
               e = KeyError address
               /\ Forall (fun item => lower (fst item) <> lower address)
                         (private_keys keyJson)
           end).
Proof.
  cbv zeta. unfold _LoadAccountCredentials. split.
  - intros [Hneg | Hbig].
    + destruct (Z.geb_spec index (Z.of_nat (length (addresses keyJson))));
        [reflexivity |].
      destruct (Z.ltb_spec index 0); [reflexivity | lia].
    + destruct (Z.geb_spec index (Z.of_nat (length (addresses keyJson))));
        [reflexivity | lia].
  - intros [Hlo Hhi].
    destruct (Z.geb_spec index (Z.of_nat (length (addresses keyJson))));
      [lia |].
    destruct (Z.ltb_spec index 0); [lia |].
    destruct (lookup_lt_is_Some_2 (addresses keyJson) (Z.to_nat index))
      as [address Haddr]; [lia |].
    exists address. split; [exact Haddr |]. rewrite Haddr.
    induction (private_keys keyJson) as [| [addr priv] rest IH];
      cbn [List.find fst].
    + split; [reflexivity | constructor].
    + destruct (String.eqb_spec (lower addr) (lower address)) as [Heq | Hne].
      * split; [reflexivity |]. exists [], addr, rest.
        repeat split; [exact Heq | constructor].
      * destruct (List.find _ rest) as [[addr' priv'] |].
        -- destruct IH as (_ & before & a & after & -> & Ha & Hb).
           split; [reflexivity |].
           exists ((addr, priv) :: before), a, after.
           repeat split; [exact Ha | constructor; [exact Hne | exact Hb]].
        -- destruct IH as (_ & Hall). split; [reflexivity |].
           constructor; [exact Hne | exact Hall].
Qed.

(** Whatever [SetupSendingAccount] is given, a key it hands back belongs
    to the account it has made the sender: the address derived from the
    key is the default account of the handle it returns. *)
Theorem SetupSendingAccount_key_matches (w3 : Web3) (account : Z)
    (keyJson : option KeyJson) (privKey : string) :
  let setup := SetupSendingAccount w3 account keyJson in
  snd setup = Ok (Some privKey) ->
  from_key (fst setup) privKey = default_account (fst setup)
  /\ exists file, keyJson = Some file
       /\ In (default_account (fst setup)) (addresses file).
Proof.
  cbv zeta. unfold SetupSendingAccount.
  destruct keyJson as [file |].
  - destruct (_LoadAccountCredentials file account) as [[addr priv] | e] eqn:Hload;
      [| discriminate].
    cbn [set_default_account default_account from_key].
    destruct (String.eqb_spec (from_key w3 priv) addr) as [Heq | Hne];
      cbn [negb fst snd]; [| discriminate].
    intros [= <-]. split; [exact Heq |].
    exists file. split; [reflexivity |].
    unfold _LoadAccountCredentials in Hload.
    destruct (account >=? Z.of_nat (length (addresses file)))%Z;
      [discriminate |].
    destruct (account <? 0)%Z; [discriminate |].
    destruct (addresses file !! Z.to_nat account) as [a |] eqn:Hl;
      [| discriminate].
    destruct (List.find _ _) as [[? ?] |]; [| discriminate].
    injection Hload as <- _.
    apply list_elem_of_In. eapply list_elem_of_lookup_2. exact Hl.
  - destruct (accounts w3); discriminate.
Qed.

(** ** The poller in general *)

Section Poller_general.

Local Open Scope Z_scope.

Variables (w3 : Web3) (event : ContractEvent).
Variables (fromBlock timeoutByBlkNum blkPeriod : Z).

Local Abbreviation loop' fuel q c r :=
  (WaitForEvent_loop fuel w3 event fromBlock timeoutByBlkNum blkPeriod q c r).

(** When the loop returns, it has queried the blocks after [q] one by one
    up to some block [b]; all before [b] were empty, and [b] either has the
    logs returned or is empty and is the deadline block. *)
Lemma loop_returns (fuel : nat) :
  forall (q c : Z) (r : nat) (res : list LogEntry),
    timeoutByBlkNum <= 0 \/ q < fromBlock + timeoutByBlkNum ->
    snd (loop' fuel q c r) = Some (Ok res) ->
    exists b,
      q < b
      /\ queries (fst (loop' fuel q c r))
           = single_block_queries (q + 1) (Z.to_nat (b - q))
      /\ (forall b', q < b' < b -> get_logs event b' b' = Ok [])
      /\ ((res <> [] /\ get_logs event b b = Ok res)
          \/ (res = [] /\ get_logs event b b = Ok []
              /\ 0 < timeoutByBlkNum /\ b = fromBlock + timeoutByBlkNum)).
Proof.
  induction fuel as [| fuel IH]; intros q c r res Hinv; [discriminate |].
  cbn [WaitForEvent_loop]. destruct (Z.geb_spec q c) as [Hcq | Hqc].
  - destruct (Z.ltb_spec blkPeriod 0); [discriminate |].
    cbn [poll_cons fst snd queries]. apply IH. exact Hinv.
  - destruct (get_logs event (q + 1) (q + 1)) as [logs |] eqn:Hlogs;
      [| discriminate].
    destruct logs as [| l ls]; cbn [length Nat.ltb Nat.leb].
    + destruct (Z.gtb_spec timeoutByBlkNum 0) as [Ht | Ht]; cbn [andb].
      * destruct (Z.geb_spec (q + 1) (fromBlock + timeoutByBlkNum))
          as [Hd | Hd].
        -- intros [= <-]. exists (q + 1).
           replace (Z.to_nat (q + 1 - q)) with 1%nat by lia.
           repeat split; [lia | | right; repeat split; try assumption; lia].
           intros b' Hb'. lia.
        -- cbn [poll_cons fst snd queries]. intros Hres.
           destruct (IH (q + 1) c r res) as (b & Hb & Hqs & Hempty & Hend);
             [right; lia | exact Hres |].
           exists b. split; [lia |]. split; [| split; [| exact Hend]].
           ++ rewrite Hqs.
              replace (Z.to_nat (b - q)) with (S (Z.to_nat (b - (q + 1))))
                by lia.
              reflexivity.
           ++ intros b' Hb'. destruct (Z.eq_dec b' (q + 1)) as [-> | Hne];
                [exact Hlogs | apply Hempty; lia].
      * cbn [poll_cons fst snd queries]. intros Hres.
        destruct (IH (q + 1) c r res) as (b & Hb & Hqs & Hempty & Hend);
          [left; lia | exact Hres |].
        exists b. split; [lia |]. split; [| split; [| exact Hend]].
        -- rewrite Hqs.
           replace (Z.to_nat (b - q)) with (S (Z.to_nat (b - (q + 1))))
             by lia.
           reflexivity.
        -- intros b' Hb'. destruct (Z.eq_dec b' (q + 1)) as [-> | Hne];
             [exact Hlogs | apply Hempty; lia].
    + intros [= <-]. exists (q + 1).
      replace (Z.to_nat (q + 1 - q)) with 1%nat by lia.
      repeat split; [lia | | left; split; [discriminate | exact Hlogs]].
      intros b' Hb'. lia.
Qed.

(** The log queries of the loop are single-block queries for the blocks
    after [q], one by one, and the last of them is for a block no higher
    than some head the node has reported. *)
Lemma loop_queries (fuel : nat) :
  forall (q c : Z) (r : nat),
    (exists k, c = block_number w3 k) ->
    exists n : nat,
      queries (fst (loop' fuel q c r)) = single_block_queries (q + 1) n
      /\ (n = O \/ exists k, q + Z.of_nat n <= block_number w3 k).
Proof.
  induction fuel as [| fuel IH]; intros q c r Hc.
  { exists O. split; [reflexivity | left; reflexivity]. }
  cbn [WaitForEvent_loop]. destruct (Z.geb_spec q c) as [Hcq | Hqc].
  - destruct (Z.ltb_spec blkPeriod 0).
    + exists O. split; [reflexivity | left; reflexivity].
    + cbn [poll_cons fst snd queries]. apply IH. eauto.
  - assert (Hone : forall o : option (result (list LogEntry)),
              exists n : nat,
                queries (fst ([EvGetLogs (q + 1) (q + 1)], o))
                  = single_block_queries (q + 1) n
                /\ (n = O \/ exists k, q + Z.of_nat n <= block_number w3 k)).
    { intros o. exists 1%nat. split; [reflexivity |]. right.
      destruct Hc as [k ->]. exists k. lia. }
    destruct (get_logs event (q + 1) (q + 1)) as [logs |]; [| apply Hone].
    destruct logs as [| l ls]; cbn [length Nat.ltb Nat.leb]; [| apply Hone].
    destruct ((timeoutByBlkNum >? 0)
              && (q + 1 >=? fromBlock + timeoutByBlkNum)); [apply Hone |].
    destruct (IH (q + 1) c r Hc) as (n & Hqs & Hn).
    exists (S n). cbn [poll_cons fst snd queries single_block_queries].
    rewrite Hqs. split; [reflexivity |]. right.
    destruct Hn as [-> | [k Hk]].
    + destruct Hc as [k ->]. exists k. lia.
    + exists k. lia.
Qed.

(** While the head stays at or below a block [top] whose logs, like those
    of the blocks between, are empty and which is short of the deadline,
    the loop does not return. *)
Lemma loop_waits (top : Z) (fuel : nat) :
  0 <= blkPeriod ->
  (forall k, block_number w3 k <= top) ->
  (forall b, fromBlock <= b <= top -> get_logs event b b = Ok []) ->
  timeoutByBlkNum <= 0 \/ top < fromBlock + timeoutByBlkNum ->
  forall (q c : Z) (r : nat),
    fromBlock - 1 <= q -> c <= top ->
    snd (loop' fuel q c r) = None.
Proof.
  intros Hp Hhead Hempty Ht.
  induction fuel as [| fuel IH]; intros q c r Hq Hc; [reflexivity |].
  destruct (Z.le_gt_cases c q) as [Hcq | Hqc].
  - rewrite loop_sleep by assumption. cbn [poll_cons snd].
    apply IH; [exact Hq | apply Hhead].
  - rewrite loop_empty; [| exact Hqc | apply Hempty; lia | lia].
    cbn [poll_cons snd]. apply IH; lia.
Qed.

End Poller_general.

(** Whenever [WaitForEvent] returns a list, it has queried the blocks from
    [fromBlock] up to some block one by one, each alone; every block before
    the last was empty; and either the list is not empty and is the logs of
    the last block, or the list is empty, the timeout is positive and the
    last block is exactly [fromBlock + timeoutByBlkNum], itself empty.  In
    particular, without a positive timeout the empty list is never
    returned. *)
Theorem WaitForEvent_returns_first (fuel : nat) (w3 : Web3)
    (event : ContractEvent) (fromBlock timeoutByBlkNum : Z)
    (res : list LogEntry) :
  snd (WaitForEvent fuel w3 event fromBlock timeoutByBlkNum) = Some (Ok res) ->
  exists last,
    fromBlock <= last
    /\ queries (fst (WaitForEvent fuel w3 event fromBlock timeoutByBlkNum))
         = single_block_queries fromBlock (Z.to_nat (last - fromBlock + 1))
    /\ (forall b, fromBlock <= b < last -> get_logs event b b = Ok [])
    /\ ((res <> [] /\ get_logs event last last = Ok res)
        \/ (res = [] /\ get_logs event last last = Ok []
            /\ 0 < timeoutByBlkNum
            /\ last = fromBlock + timeoutByBlkNum)).
Proof.
  unfold WaitForEvent.
  destruct (GetBlockPeriod w3 fromBlock) as [blkPeriod | e]; [| discriminate].
  cbv zeta. intros Hres.
  destruct (loop_returns w3 event fromBlock timeoutByBlkNum blkPeriod fuel
              (fromBlock - 1) (block_number w3 0) 1%nat res)
    as (b & Hb & Hqs & Hempty & Hend); [lia | exact Hres |].
  exists b. split; [lia |]. split; [| split; [| exact Hend]].
  - rewrite Hqs. f_equal; lia.
  - intros b' Hb'. apply Hempty. lia.
Qed.

(** The log queries of [WaitForEvent], in any run and however far it has
    got, are single-block queries for [fromBlock], [fromBlock + 1], ... in
    order, and none is for a block above every head the node has
    reported. *)
Theorem WaitForEvent_queries_behind_head (fuel : nat) (w3 : Web3)
    (event : ContractEvent) (fromBlock timeoutByBlkNum : Z) :
  exists n : nat,
    queries (fst (WaitForEvent fuel w3 event fromBlock timeoutByBlkNum))
      = single_block_queries fromBlock n
    /\ (n = O \/ exists k, fromBlock + Z.of_nat n - 1 <= block_number w3 k).
Proof.
  unfold WaitForEvent.
  destruct (GetBlockPeriod w3 fromBlock) as [blkPeriod | e].
  - cbv zeta.
    destruct (loop_queries w3 event fromBlock timeoutByBlkNum blkPeriod fuel
                (fromBlock - 1) (block_number w3 0) 1%nat)
      as (n & Hqs & Hn); [eauto |].
    exists n. split.
    + rewrite Hqs. f_equal. lia.
    + destruct Hn as [-> | [k Hk]]; [left; reflexivity | right; exists k; lia].
  - exists O. split; [reflexivity | left; reflexivity].
Qed.

(** The timeout counts blocks, not time.  On a chain whose head never
    passes a block [top] short of [fromBlock + timeoutByBlkNum], and with
    no log of the event up to [top], [WaitForEvent] never returns, however
    long it runs. *)
Theorem WaitForEvent_waits_for_blocks (w3 : Web3) (event : ContractEvent)
    (fromBlock timeoutByBlkNum blkPeriod top : Z) :
  GetBlockPeriod w3 fromBlock = Ok blkPeriod ->
  0 <= blkPeriod ->
  (forall k, block_number w3 k <= top) ->
  (forall b, fromBlock <= b <= top -> get_logs event b b = Ok []) ->
  timeoutByBlkNum <= 0 \/ top < fromBlock + timeoutByBlkNum ->
  forall fuel,
    snd (WaitForEvent fuel w3 event fromBlock timeoutByBlkNum) = None.
Proof.
  intros Hperiod Hp Hhead Hempty Ht fuel.
  unfold WaitForEvent. rewrite Hperiod. cbv zeta.
  apply (loop_waits w3 event fromBlock timeoutByBlkNum blkPeriod top fuel);
    try assumption; [lia | apply Hhead].
Qed.

(** [WaitForEvent] finds the first block with logs.  When the blocks from
    [fromBlock] up to [hit] are empty, [hit] has logs, the timeout is not
    positive or exceeds [hit - fromBlock], and the head reaches [hit] at
    some read, the poller returns the logs of [hit] after querying
    [fromBlock], ..., [hit] and nothing else. *)
Theorem WaitForEvent_finds_first_logs (w3 : Web3) (event : ContractEvent)
    (fromBlock timeoutByBlkNum blkPeriod hit : Z) (logs : list LogEntry)
    (K : nat) :
  GetBlockPeriod w3 fromBlock = Ok blkPeriod ->
  0 <= blkPeriod ->
  fromBlock <= hit ->
  (forall b, fromBlock <= b < hit -> get_logs event b b = Ok []) ->
  get_logs event hit hit = Ok logs ->
  logs <> [] ->
  timeoutByBlkNum <= 0 \/ hit - fromBlock < timeoutByBlkNum ->
  hit <= block_number w3 K ->
  exists fuel0 : nat, forall fuel : nat, (fuel0 <= fuel)%nat ->
    snd (WaitForEvent fuel w3 event fromBlock timeoutByBlkNum)
      = Some (Ok logs)
    /\ queries (fst (WaitForEvent fuel w3 event fromBlock timeoutByBlkNum))
         = single_block_queries fromBlock (Z.to_nat (hit - fromBlock + 1)).
Proof.
  intros Hperiod Hp Hhit Hempty Hlogs Hne Ht Hhead.
  exists (Z.to_nat (hit - fromBlock + 1) + K)%nat. intros fuel Hfuel.
  unfold WaitForEvent. rewrite Hperiod. cbv zeta.
  destruct (loop_reaches w3 event fromBlock timeoutByBlkNum blkPeriod
              fromBlock hit logs K)
    with (fuel := fuel) (q := fromBlock - 1) (c := block_number w3 0)
         (r := 1%nat)
    as (Hres & Hqs & _).
  - intros b Hb. split; [apply Hempty; exact Hb | lia].
  - left. split; assumption.
  - exact Hhead.
  - lia.
  - destruct K as [| K']; [left; exact Hhead | right; split; [lia | exact Hp]].
  - replace (hit - (fromBlock - 1)) with (hit - fromBlock + 1) by lia.
    destruct (hit <=? block_number w3 0)%Z; lia.
  - split; [exact Hres |]. rewrite Hqs. f_equal; lia.
Qed.

(** A timeout of [timeoutByBlkNum] blocks inspects one block more.  With a
    positive timeout, no log of the event in the blocks from [fromBlock] to
    [fromBlock + timeoutByBlkNum], and a head that reaches that last block
    at some read, [WaitForEvent] returns the empty list after querying
    those [timeoutByBlkNum + 1] blocks and nothing else. *)
Theorem WaitForEvent_timeout_blocks (w3 : Web3) (event : ContractEvent)
    (fromBlock timeoutByBlkNum blkPeriod : Z) (K : nat) :
  GetBlockPeriod w3 fromBlock = Ok blkPeriod ->
  0 <= blkPeriod ->
  0 < timeoutByBlkNum ->
  (forall b, fromBlock <= b <= fromBlock + timeoutByBlkNum ->
             get_logs event b b = Ok []) ->
  fromBlock + timeoutByBlkNum <= block_number w3 K ->
  exists fuel0 : nat, forall fuel : nat, (fuel0 <= fuel)%nat ->
    snd (WaitForEvent fuel w3 event fromBlock timeoutByBlkNum)
      = Some (Ok [])
    /\ queries (fst (WaitForEvent fuel w3 event fromBlock timeoutByBlkNum))
         = single_block_queries fromBlock (Z.to_nat (timeoutByBlkNum + 1)).
Proof.
  intros Hperiod Hp Ht Hempty Hhead.
  exists (Z.to_nat (timeoutByBlkNum + 1) + K)%nat. intros fuel Hfuel.
  unfold WaitForEvent. rewrite Hperiod. cbv zeta.
  destruct (loop_reaches w3 event fromBlock timeoutByBlkNum blkPeriod
              fromBlock (fromBlock + timeoutByBlkNum) [] K)
    with (fuel := fuel) (q := fromBlock - 1) (c := block_number w3 0)
         (r := 1%nat)
    as (Hres & Hqs & _).
  - intros b Hb. split; [apply Hempty; lia | lia].
  - right. repeat split; try lia. apply Hempty. lia.
  - exact Hhead.
  - lia.
  - destruct K as [| K']; [left; exact Hhead | right; split; [lia | exact Hp]].
  - replace (fromBlock + timeoutByBlkNum - (fromBlock - 1))
      with (timeoutByBlkNum + 1) by lia.
    destruct (fromBlock + timeoutByBlkNum <=? block_number w3 0)%Z; lia.
  - split; [exact Hres |]. rewrite Hqs. f_equal; lia.
Qed.

(** ** Loading a contract *)

Lemma ends_with_sep_app (a b : string) :
  b <> "" -> ends_with_sep (a ++ b) = ends_with_sep b.
Proof.
  intros Hb. induction a as [| c a IH]; [reflexivity |].
  change (String c a ++ b) with (String c (a ++ b)). cbn [ends_with_sep].
  destruct (a ++ b) eqn:E; [| exact IH].
  destruct a; [change b with ("" ++ b) in Hb; congruence | discriminate].
Qed.

Lemma string_app_assoc (a b c : string) : (a ++ b) ++ c = a ++ (b ++ c).
Proof.
  induction a as [| x a IH]; [reflexivity |].
  change (String x ((a ++ b) ++ c) = String x (a ++ (b ++ c))).
  now rewrite IH.
Qed.

Lemma starts_with_sep_app (a b : string) :
  a <> "" -> starts_with_sep (a ++ b) = starts_with_sep a.
Proof. destruct a; [congruence | reflexivity]. Qed.

(** The layout of a local build.  With a build directory and a module
    that are not empty and do not end with the separator, and a module and
    a contract name that do not start with it, [LoadBytesFromLocal] reads
    buildDir/module/contract.abi and buildDir/module/contract.bin.  The
    ABI file is looked for first: when it is missing the error is about
    it, whether or not the BIN file is there; the BIN file is only missed
    once the ABI file has been found. *)
Theorem LoadBytesFromLocal_build_layout (env : LoaderEnv) (conf : ConfDict)
    (contract dir module : string) (modules : gmap string string) :
  buildDir conf = Some dir ->
  contractModuleMap conf = Some modules ->
  modules !! contract = Some module ->
  dir <> "" -> ends_with_sep dir = false ->
  module <> "" -> ends_with_sep module = false ->
  starts_with_sep module = false ->
  contract <> "" -> starts_with_sep contract = false ->
  let pathAbi := dir ++ "/" ++ module ++ "/" ++ contract ++ ".abi" in
  let pathBin := dir ++ "/" ++ module ++ "/" ++ contract ++ ".bin" in
  LoadBytesFromLocal env (ConfMap conf) contract
  = match files env !! pathAbi, files env !! pathBin with
    | None, _ =>
        LoadFailed (FileNotFoundError
          ("Cannot find locally built contract ABI file at " ++ pathAbi
           ++ "; please build the contract first."))
    | Some _, None =>
        LoadFailed (FileNotFoundError
          ("Cannot find locally built contract BIN file at " ++ pathBin
           ++ "; please build the contract first."))
    | Some abiBytes, Some binBytes => Loaded (abiBytes, binBytes)
    end.
Proof.
  intros Hdir Hmap Hmod Hd1 Hd2 Hm1 Hm2 Hm3 Hc1 Hc2 pathAbi pathBin.
  unfold LoadBytesFromLocal. rewrite Hmap, Hmod, Hdir.
  assert (Hjoin : forall ext, ext <> "" ->
            os_path_join dir [module; contract ++ ext]
            = dir ++ "/" ++ module ++ "/" ++ contract ++ ext).
  { intros ext Hext. unfold os_path_join. cbn [fold_left].
    rewrite Hm3. apply String.eqb_neq in Hd1. rewrite Hd1, Hd2. cbn [orb].
    rewrite (starts_with_sep_app contract ext Hc1), Hc2.
    assert (Hne : (dir ++ "/" ++ module) <> "").
    { destruct dir; [apply String.eqb_neq in Hd1; congruence | discriminate]. }
    apply String.eqb_neq in Hne. rewrite Hne. cbn [orb].
    replace (dir ++ "/" ++ module) with (dir ++ ("/" ++ module)) by reflexivity.
    rewrite (ends_with_sep_app dir ("/" ++ module)) by discriminate.
    rewrite (ends_with_sep_app "/" module Hm1), Hm2.
    rewrite !string_app_assoc. reflexivity. }
  rewrite !Hjoin by discriminate. fold pathAbi pathBin.
  destruct (files env !! pathAbi); [| reflexivity].
  destruct (files env !! pathBin); reflexivity.
Qed.


(** Loading a contract that is already deployed still needs its bytecode
    file.  From a pair of local paths and with an address, [LoadContract]
    fails when the BIN file is missing although the ABI file is there; when
    both are there it builds the contract at that address from the ABI
    alone, the bytecode it has read being left aside. *)
Theorem LoadContract_existing_needs_bin (env : LoaderEnv)
    (pathAbi pathBin contractName address abiBytes : string) :
  files env !! pathAbi = Some abiBytes ->
  (files env !! pathBin = None ->
   exists message,
     LoadContract env (ConfGiven (ConfPaths pathAbi pathBin)) contractName
       None (Some address)
     = LoadFailed (FileNotFoundError message))
  /\ (forall binBytes, files env !! pathBin = Some binBytes ->
      LoadContract env (ConfGiven (ConfPaths pathAbi pathBin)) contractName
        None (Some address)
      = eth_contract env (Some address) abiBytes None
      /\ LoadContract env (ConfGiven (ConfPaths pathAbi pathBin)) contractName
           None None
         = eth_contract env None abiBytes (Some binBytes)).
Proof.
  intros Habi. unfold LoadContract, LoadBytesFromLocal. rewrite Habi. split.
  - intros ->. eexists. reflexivity.
  - intros binBytes ->. split; reflexivity.
Qed.

(** ** The command line *)

Lemma SignTx_key_events (w3 : Web3) (tx : TxParams) (privKey : string)
    (confirmPrompt : bool) :
  Forall (key_events (Some privKey) confirmPrompt)
         (trace (_SignTx w3 tx privKey confirmPrompt)).
Proof.
  unfold _SignTx, cost_breakdown.
  trace_forall ltac:(cbn; first [reflexivity | split; [reflexivity | discriminate]]).
Qed.

Lemma DoTransaction_key_events (w3 : Web3) (executable : Executable)
    (privKey : option string) (gas : option Z) (value : Z)
    (confirmPrompt : bool) (feeCalculator : Z -> Z -> Z * Z) :
  Forall (key_events privKey confirmPrompt)
         (trace (_DoTransaction w3 executable privKey gas value confirmPrompt
                   feeCalculator)).
Proof.
  unfold _DoTransaction.
  apply Forall_trace_bind.
  { unfold _DetermineGas, _EstimateGas. trace_forall ltac:(exact I). }
  intros gas' _. apply Forall_trace_bind; [| intros; trace_forall ltac:(exact I)].
  destruct privKey as [k |].
  - apply Forall_trace_bind; [apply Forall_trace_emit; cbn; discriminate |].
    intros _ _. apply Forall_trace_bind; [apply Forall_trace_lift |].
    intros tx _. apply Forall_trace_bind; [apply SignTx_key_events |].
    intros; trace_forall ltac:(cbn; discriminate).
  - trace_forall ltac:(reflexivity).
Qed.

Lemma DeployContract_key_events (w3 : Web3) (contract : Contract)
    (arguments : list string) (privKey : option string) (gas : option Z)
    (value : Z) (confirmPrompt : bool) (feeCalculator : Z -> Z -> Z * Z) :
  Forall (key_events privKey confirmPrompt)
         (trace (DeployContract w3 contract arguments privKey gas value
                   confirmPrompt feeCalculator)).
Proof.
  unfold DeployContract.
  repeat (apply Forall_trace_bind; [apply Forall_trace_lift | intros ? _]).
  apply Forall_trace_bind; [apply DoTransaction_key_events |].
  intros; apply Forall_trace_ret.
Qed.

Lemma CallContractFunc_key_events (w3 : Web3) (contract : Contract)
    (funcName : string) (arguments : list string) (privKey : option string)
    (gas : option Z) (value : Z) (confirmPrompt : bool)
    (feeCalculator : Z -> Z -> Z * Z) :
  Forall (key_events privKey confirmPrompt)
         (trace (CallContractFunc w3 contract funcName arguments privKey gas
                   value confirmPrompt feeCalculator)).
Proof.
  unfold CallContractFunc.
  repeat (apply Forall_trace_bind; [apply Forall_trace_lift | intros ? _]).
  destruct (String.eqb _ "view").
  - trace_forall ltac:(exact I).
  - apply Forall_trace_bind; [apply DoTransaction_key_events |].
    intros; apply Forall_trace_ret.
Qed.

(** The events of the program are those of its deployment or call, made
    with the key and the handle that the account setup returned. *)
Lemma main_key_events (env : LoaderEnv) (to_wei : Z -> string -> result Z)
    (is_connected : bool) (w3 : Web3) (args : Args) :
  fst (main env to_wei is_connected w3 args) = []
  \/ exists privKey,
       snd (SetupSendingAccount w3 (arg_account args) (arg_key_json args))
         = Ok privKey
       /\ Forall (key_events privKey (negb (arg_no_confirm args)))
                 (fst (main env to_wei is_connected w3 args)).
Proof.
  unfold main. destruct is_connected; [| left; reflexivity]. cbn [negb].
  destruct (ConvertValToWei _ _ _) as [valueToSend | e]; [| left; reflexivity].
  destruct (SetupSendingAccount w3 (arg_account args) (arg_key_json args))
    as [w3' [privKey | e]]; [| left; reflexivity].
  destruct (LoadContract _ _ _ _ _) as [contract | e]; [| left; reflexivity].
  right. exists privKey. split; [reflexivity |].
  destruct (arg_operation args) as [arguments | address function arguments].
  - pose proof (DeployContract_key_events w3' contract arguments privKey
                  (arg_gas args) valueToSend (negb (arg_no_confirm args))
                  DefaultFeeCalculator) as H.
    destruct (DeployContract _ _ _ _ _ _ _ _) as [t [r | e]]; exact H.
  - pose proof (CallContractFunc_key_events w3' contract function arguments
                  privKey (arg_gas args) valueToSend
                  (negb (arg_no_confirm args)) DefaultFeeCalculator) as H.
    destruct (CallContractFunc _ _ _ _ _ _ _ _ _) as [t [r | e]]; exact H.
Qed.

(** Through the command line every signature is made with the key of the
    sending account: the key comes from the key file and its address is
    the default account the transaction is sent from.  Without a key file
    nothing is signed or prompted for, with or without --no-confirm, and
    the message goes to the node's own account; with a key file it never
    does; and the prompt appears only without --no-confirm. *)
Theorem main_signs_as_sender (env : LoaderEnv)
    (to_wei : Z -> string -> result Z) (is_connected : bool) (w3 : Web3)
    (args : Args) :
  let setup :=
    SetupSendingAccount w3 (arg_account args) (arg_key_json args) in
  Forall (fun ev =>
            match ev with
            | EvSign _ key =>
                arg_key_json args <> None
                /\ from_key (fst setup) key = default_account (fst setup)
            | EvPrint | EvInput =>
                arg_no_confirm args = false /\ arg_key_json args <> None
            | EvSendRaw _ | EvBuildTransaction _ => arg_key_json args <> None
            | EvTransact _ => arg_key_json args = None
            | _ => True
            end)
         (fst (main env to_wei is_connected w3 args)).
Proof.
  cbv zeta.
  destruct (main_key_events env to_wei is_connected w3 args)
    as [-> | (privKey & Hsetup & Hall)]; [constructor |].
  eapply Forall_impl; [exact Hall |].
  assert (Hkey : forall key, privKey = Some key ->
            arg_key_json args <> None
            /\ from_key (fst (SetupSendingAccount w3 (arg_account args)
                                (arg_key_json args))) key
               = default_account (fst (SetupSendingAccount w3
                                         (arg_account args)
                                         (arg_key_json args)))).
  { intros key ->.
    unfold SetupSendingAccount in *.
    destruct (arg_key_json args) as [file |].
    - split; [discriminate |].
      destruct (_LoadAccountCredentials file (arg_account args))
        as [[addr priv] | e]; [| discriminate].
      cbn [set_default_account default_account from_key] in *.
      destruct (String.eqb_spec (from_key w3 priv) addr) as [Heq | Hne];
        cbn [negb fst snd] in *; [| discriminate].
      injection Hsetup as <-. exact Heq.
    - destruct (accounts w3); cbn in Hsetup; discriminate. }
  assert (Hnone : privKey = None -> arg_key_json args = None).
  { intros ->. unfold SetupSendingAccount in Hsetup.
    destruct (arg_key_json args) as [file |]; [| reflexivity].
    destruct (_LoadAccountCredentials file (arg_account args))
      as [[addr priv] | e]; [| discriminate].
    cbn [set_default_account default_account from_key] in Hsetup.
    destruct (String.eqb (from_key w3 priv) addr); cbn in Hsetup;
      discriminate. }
  assert (Hsome : privKey <> None -> arg_key_json args <> None).
  { intros Hp. destruct privKey as [key |]; [| congruence].
    apply (Hkey key eq_refl). }
  intros ev. destruct ev; cbn; auto.
  - intros [Hc Hp]. split; [| auto].
    destruct (arg_no_confirm args); [discriminate | reflexivity].
  - intros [Hc Hp]. split; [| auto].
    destruct (arg_no_confirm args); [discriminate | reflexivity].
Qed.

(** A key file whose key does not belong to the address it is filed under
    stops the program before anything is loaded, estimated, signed or
    sent: on a connected node and with a value that converts, the program
    ends with the key-mismatch error and no event. *)
Theorem main_key_mismatch (env : LoaderEnv)
    (to_wei : Z -> string -> result Z) (is_connected : bool) (w3 : Web3)
    (args : Args) (file : KeyJson) (addr privKey : string) :
  arg_key_json args = Some file ->
  _LoadAccountCredentials file (arg_account args) = Ok (addr, privKey) ->
  from_key w3 privKey <> addr ->
  fst (main env to_wei is_connected w3 args) = []
  /\ (exists e, snd (main env to_wei is_connected w3 args) = Some e)
  /\ (is_connected = true ->
      (exists valueToSend,
         to_wei (arg_value args) (arg_value_unit args) = Ok valueToSend) ->
      snd (main env to_wei is_connected w3 args)
        = Some (MainPy ValueError_KeyMismatch)).
Proof.
  intros Hfile Hload Hne. unfold main, ConvertValToWei.
  destruct is_connected; cbn [negb];
    [| repeat split; [eauto | discriminate]].
  destruct (to_wei (arg_value args) (arg_value_unit args)) as [v | e].
  - unfold SetupSendingAccount. rewrite Hfile, Hload.
    cbn [set_default_account default_account from_key].
    apply String.eqb_neq in Hne. rewrite Hne. cbn [negb].
    repeat split; eauto.
  - repeat split; [eauto |]. intros _ [v Hv]. discriminate.
Qed.

(** ** Checksumming a keys file *)

Lemma dict_set_fresh (d : list (string * string)) (k v : string) :
  ~ In k (map fst d) -> dict_set d k v = (d ++ [(k, v)])%list.
Proof.
  induction d as [| [k' v'] d IH]; cbn [dict_set map fst In app];
    [reflexivity |].
  intros Hk. destruct (String.eqb_spec k' k) as [-> | _]; [tauto |].
  rewrite IH by tauto. reflexivity.
Qed.

Section Checksum.

Variable to_checksum_address : string -> result string.
Variable checksum : string -> string.

Local Abbreviation converts := (converts to_checksum_address checksum).

Lemma checksum_NoDup (items : list (string * string)) :
  Forall (fun item => converts (fst item)) items ->
  List.NoDup (map (fun item => lower (fst item)) items) ->
  List.NoDup (map (fun item => checksum (fst item)) items).
Proof.
  intros Hc. induction Hc as [| [k v] items [_ Hk] Hc IH]; cbn [map fst];
    [constructor |].
  intros Hnd. apply List.NoDup_cons_iff in Hnd as [Hnotin Hnd].
  apply List.NoDup_cons_iff. split; [| apply IH; exact Hnd].
  intros Hin. apply Hnotin. apply in_map_iff in Hin as ([k' v'] & Heq & Hin).
  apply in_map_iff. exists (k', v'). split; [| exact Hin]. cbn [fst] in *.
  rewrite List.Forall_forall in Hc. destruct (Hc (k', v') Hin) as [_ Hk'].
  cbn [fst] in Hk'. congruence.
Qed.

Lemma checksum_both_map (items : list (string * string)) :
  forall acc,
    Forall (fun item => converts (fst item) /\ converts (snd item)) items ->
    List.NoDup (map fst acc ++ map (fun item => checksum (fst item)) items) ->
    checksum_both to_checksum_address items acc
    = Ok (acc ++ map (fun item => (checksum (fst item), checksum (snd item)))
                     items)%list.
Proof.
  induction items as [| [k v] items IH]; intros acc Hc Hnd;
    cbn [checksum_both map fst snd].
  - now rewrite app_nil_r.
  - apply Forall_cons_iff in Hc as [[[Hk _] [Hv _]] Hc]. cbn [fst snd] in *.
    rewrite Hk, Hv. cbn [map fst] in Hnd.
    assert (Hfresh : ~ In (checksum k) (map fst acc)).
    { intros Hin. apply List.NoDup_remove_2 in Hnd. apply Hnd.
      apply in_or_app. left. exact Hin. }
    rewrite (dict_set_fresh acc _ _ Hfresh), IH; [| exact Hc |].
    + now rewrite <- app_assoc.
    + rewrite map_app. cbn [map fst]. rewrite <- app_assoc. exact Hnd.
Qed.

Lemma checksum_keys_map (items : list (string * string)) :
  forall acc,
    Forall (fun item => converts (fst item)) items ->
    List.NoDup (map fst acc ++ map (fun item => checksum (fst item)) items) ->
    checksum_keys to_checksum_address items acc
    = Ok (acc ++ map (fun item => (checksum (fst item), snd item)) items)%list.
Proof.
  induction items as [| [k v] items IH]; intros acc Hc Hnd;
    cbn [checksum_keys map fst snd].
  - now rewrite app_nil_r.
  - apply Forall_cons_iff in Hc as [[Hk _] Hc]. cbn [fst snd] in *.
    rewrite Hk. cbn [map fst] in Hnd.
    assert (Hfresh : ~ In (checksum k) (map fst acc)).
    { intros Hin. apply List.NoDup_remove_2 in Hnd. apply Hnd.
      apply in_or_app. left. exact Hin. }
    rewrite (dict_set_fresh acc _ _ Hfresh), IH; [| exact Hc |].
    + now rewrite <- app_assoc.
    + rewrite map_app. cbn [map fst]. rewrite <- app_assoc. exact Hnd.
Qed.

Lemma find_map_items (address : string) (items : list (string * string)) :
  Forall (fun item => lower (checksum (fst item)) = lower (fst item)) items ->
  lower (checksum address) = lower address ->
  List.find (fun item => String.eqb (lower (fst item))
                                    (lower (checksum address)))
            (map (fun item => (checksum (fst item), snd item)) items)
  = option_map (fun item => (checksum (fst item), snd item))
      (List.find (fun item => String.eqb (lower (fst item)) (lower address))
                 items).
Proof.
  intros Hitems Ha. rewrite Ha.
  induction Hitems as [| [k v] items Hk _ IH]; [reflexivity |].
  cbn [map List.find fst snd] in *. rewrite Hk.
  destruct (String.eqb (lower k) (lower address)); [reflexivity | exact IH].
Qed.

(** Checksumming keeps the credentials.  When every address of the keys
    file converts to one that differs from it in case only, and no two
    addresses of either object are equal when case is ignored, the
    checksummed file lists the converted addresses in the same order with
    the private keys unchanged; and for every index,
    [_LoadAccountCredentials] finds on it the converted address and the
    same private key that it finds on the original, or fails in the same
    way. *)
Theorem ChecksumGanacheKeysFile_keeps_credentials (keysJson : GanacheKeys) :
  Forall (fun item => converts (fst item) /\ converts (snd item))
         (ganache_addresses keysJson) ->
  Forall (fun item => converts (fst item)) (ganache_private_keys keysJson) ->
  List.NoDup (map (fun item => lower (fst item)) (ganache_addresses keysJson)) ->
  List.NoDup (map (fun item => lower (fst item))
                  (ganache_private_keys keysJson)) ->
  exists checksummed,
    ChecksumGanacheKeysFile to_checksum_address keysJson = Ok checksummed
    /\ ganache_addresses checksummed
         = map (fun item => (checksum (fst item), checksum (snd item)))
               (ganache_addresses keysJson)
    /\ ganache_private_keys checksummed
         = map (fun item => (checksum (fst item), snd item))
               (ganache_private_keys keysJson)
    /\ forall index,
         _LoadAccountCredentials (credentials_of checksummed) index
         = match _LoadAccountCredentials (credentials_of keysJson) index with
           | Ok (address, priv) => Ok (checksum address, priv)
           | Raise (KeyError address) => Raise (KeyError (checksum address))
           | Raise e => Raise e
           end.
Proof.
  intros Haddr Hpriv Hnd1 Hnd2.
  assert (Haddr1 : Forall (fun item => converts (fst item))
                          (ganache_addresses keysJson)).
  { eapply Forall_impl; [exact Haddr |]. intros item [H _]. exact H. }
  eexists. split; [| split; [| split]].
  - unfold ChecksumGanacheKeysFile.
    rewrite (checksum_both_map _ [] Haddr)
      by (apply checksum_NoDup; assumption).
    rewrite (checksum_keys_map _ [] Hpriv)
      by (apply checksum_NoDup; assumption).
    reflexivity.
  - reflexivity.
  - reflexivity.
  - intros index. unfold _LoadAccountCredentials, credentials_of.
    cbn [addresses private_keys ganache_addresses ganache_private_keys app].
    rewrite !length_map.
    destruct (index >=? Z.of_nat (length (ganache_addresses keysJson)))%Z;
      [reflexivity |].
    destruct (index <? 0)%Z; [reflexivity |].
    rewrite !list_lookup_fmap.
    destruct (ganache_addresses keysJson !! Z.to_nat index)
      as [[address v] |] eqn:Hl; cbn [fmap option_fmap option_map fst];
      [| reflexivity].
    assert (Ha : lower (checksum address) = lower address).
    { apply list_elem_of_lookup_2 in Hl.
      rewrite Forall_forall in Haddr1. apply (Haddr1 _ Hl). }
    rewrite find_map_items; [| | exact Ha].
    + destruct (List.find _ (ganache_private_keys keysJson)) as [[k p] |];
        reflexivity.
    + eapply Forall_impl; [exact Hpriv |]. intros item [_ H]. exact H.
Qed.

End Checksum.

(** ** Filling an account from the development node *)

(** [FillAccount] transfers only when it is given [amountEth] alone.  With
    [amountWei], alone or not, it raises before anything is sent: the
    ValueError when both amounts are given, and otherwise the TypeError of
    the log line, which formats the missing [amountEth].  A transfer that
    is sent goes from the development account to [accAddr] with 21000 gas
    and the value [to_wei(amountEth, 'ether')]; and the call returns only
    after a receipt whose status is 1. *)
Theorem FillAccount_transfers (Amount : Type) (self : GethDevNodeGuard Amount)
    (accAddr : string) (amountWei : option Z) (amountEth : option Amount) :
  let run := FillAccount self accAddr amountWei amountEth in
  (amountWei <> None ->
   run = ([], Some (match amountEth with
                    | Some _ => ValueError_TwoAmounts
                    | None => TypeError_Format
                    end)))
  /\ (forall tx, In (EvSendTransaction tx) (fst run) ->
        amountWei = None
        /\ exists amount w3 wei,
             amountEth = Some amount
             /\ guard_w3 self = Some w3
             /\ to_wei_ether self amount = Ok wei
             /\ tx = {| transfer_chainId := chain_id w3;
                        transfer_nonce :=
                          get_transaction_count w3 (devAccount self);
                        transfer_from := devAccount self;
                        transfer_to := accAddr;
                        transfer_value := wei;
                        transfer_gas := 21000 |})
  /\ (snd run = None ->
        exists tx txHash receipt w3,
          guard_w3 self = Some w3
          /\ fst run = [EvSendTransaction tx; EvWaitTransfer txHash]
          /\ send_transaction self tx = Ok txHash
          /\ wait_for_transaction_receipt w3 txHash = Ok receipt
          /\ status receipt = 1).
Proof.
  cbv zeta. unfold FillAccount.
  assert (Hnothing : forall e : GuardError,
            (forall t, In (EvSendTransaction t)
                          (fst (([] : list GuardEvent), Some e)) ->
               amountWei = None
               /\ exists amount w3 wei,
                    amountEth = Some amount
                    /\ guard_w3 self = Some w3
                    /\ to_wei_ether self amount = Ok wei
                    /\ t = {| transfer_chainId := chain_id w3;
                              transfer_nonce :=
                                get_transaction_count w3 (devAccount self);
                              transfer_from := devAccount self;
                              transfer_to := accAddr;
                              transfer_value := wei;
                              transfer_gas := 21000 |})
            /\ (snd (([] : list GuardEvent), Some e) = None ->
                exists t txHash receipt w3,
                  guard_w3 self = Some w3
                  /\ fst (([] : list GuardEvent), Some e)
                     = [EvSendTransaction t; EvWaitTransfer txHash]
                  /\ send_transaction self t = Ok txHash
                  /\ wait_for_transaction_receipt w3 txHash = Ok receipt
                  /\ status receipt = 1)).
  { intros e. split; [intros t [] | discriminate]. }
  destruct amountWei as [wei |], amountEth as [amount |].
  - split; [reflexivity | apply Hnothing].
  - split; [reflexivity | apply Hnothing].
  - split; [congruence |].
    destruct (guard_w3 self) as [w3 |] eqn:Hw3; [| apply Hnothing].
    destruct (to_wei_ether self amount) as [wei | e] eqn:Hwei;
      [| apply Hnothing].
    set (sent := {| transfer_chainId := chain_id w3;
                    transfer_nonce :=
                      get_transaction_count w3 (devAccount self);
                    transfer_from := devAccount self;
                    transfer_to := accAddr;
                    transfer_value := wei;
                    transfer_gas := 21000 |}).
    assert (Hsent : forall (t : Transfer) (rest : list GuardEvent),
              (forall t', In (EvSendTransaction t') rest -> False) ->
              In (EvSendTransaction t) (EvSendTransaction sent :: rest) ->
              @None Z = None
              /\ exists amount' w3' wei',
                   Some amount = Some amount'
                   /\ Some w3 = Some w3'
                   /\ to_wei_ether self amount' = Ok wei'
                   /\ t = {| transfer_chainId := chain_id w3';
                             transfer_nonce :=
                               get_transaction_count w3' (devAccount self);
                             transfer_from := devAccount self;
                             transfer_to := accAddr;
                             transfer_value := wei';
                             transfer_gas := 21000 |}).
    { intros t rest Hrest [[= <-] | Hin]; [| destruct (Hrest t Hin)].
      split; [reflexivity |]. exists amount, w3, wei. auto. }
    destruct (send_transaction self sent) as [txHash | e] eqn:Hsend.
    + assert (Hwaitev : forall t', In (EvSendTransaction t')
                                     [EvWaitTransfer txHash] -> False).
      { intros t' [[=] | []]. }
      destruct (wait_for_transaction_receipt w3 txHash) as [receipt | e]
        eqn:Hwait.
      * destruct (Z.eqb_spec (status receipt) 1) as [Hst | Hst]; cbn [negb].
        -- destruct (log_balance self accAddr) as [[] | e];
             (split; [intros t; apply Hsent, Hwaitev |]);
             [| discriminate].
           intros _. exists sent, txHash, receipt, w3. auto 10.
        -- split; [intros t; apply Hsent, Hwaitev | discriminate].
      * split; [intros t; apply Hsent, Hwaitev | discriminate].
    + split; [intros t; apply Hsent; intros t' [] | discriminate].
  - split; [congruence | apply Hnothing].
Qed.

(** ** Deploying a contract without a constructor *)

(** A contract whose ABI lists no constructor cannot be deployed: when
    every entry of the ABI has a 'type' and none is 'constructor',
    [DeployContract] raises the ValueError before anything is asked of the
    node. *)
Theorem DeployContract_no_constructor (w3 : Web3) (contract : Contract)
    (arguments : list string) (privKey : option string) (gas : option Z)
    (value : Z) (confirmPrompt : bool) (feeCalculator : Z -> Z -> Z * Z) :
  Forall (fun abi => exists ty, abi !! "type" = Some ty /\ ty <> "constructor")
         (abi contract) ->
  DeployContract w3 contract arguments privKey gas value confirmPrompt
    feeCalculator
  = ([], Raise ValueError_NoConstructor).
Proof.
  intros Hall.
  assert (Hfind : _FindConstructorAbi (abi contract)
                  = Raise ValueError_NoConstructor).
  { induction Hall as [| abi rest (ty & Hty & Hne) _ IH]; [reflexivity |].
    cbn [_FindConstructorAbi]. unfold abi_getitem. rewrite Hty.
    apply String.eqb_neq in Hne. rewrite Hne. exact IH. }
  unfold DeployContract. rewrite Hfind. reflexivity.
Qed.

Lemma DeployContract_no_constructor_witness :
  Forall (fun abi => exists ty, abi !! "type" = Some ty /\ ty <> "constructor")
         (abi Fixture.library_only)
  /\ DeployContract Sample.funded Fixture.library_only [] None None 5 true
       DefaultFeeCalculator
     = ([], Raise ValueError_NoConstructor).
Proof.
  assert (H : Forall (fun abi => exists ty, abi !! "type" = Some ty
                                            /\ ty <> "constructor")
                     (abi Fixture.library_only)).
  { repeat constructor. exists "function". split; [reflexivity | discriminate]. }
  split; [exact H |].
  exact (DeployContract_no_constructor Sample.funded Fixture.library_only []
           None None 5 true DefaultFeeCalculator H).
Defined.

(** ** Instances *)

Lemma CallContractFunc_view_witness :
  _FindFuncAbi (abi Sample.contract) "get"
    = Ok (Sample.entry "function" "get" "view")
  /\ Sample.entry "function" "get" "view" !! "stateMutability" = Some "view"
  /\ Forall (fun ev => ev = EvCall)
       (trace (CallContractFunc Sample.funded Sample.contract "get" []
                 (Some "key-of-alice") None 5 true DefaultFeeCalculator)).
Proof.
  split; [reflexivity | split; [reflexivity |]].
  exact (proj1 (proj2 (CallContractFunc_view Sample.funded Sample.contract
                         "get" [] (Some "key-of-alice") None 5 true
                         DefaultFeeCalculator
                         (Sample.entry "function" "get" "view")
                         eq_refl eq_refl))).
Defined.

Lemma CallContractFunc_transaction_witness :
  _FindFuncAbi (abi Sample.contract) "pay"
    = Ok (Sample.entry "function" "pay" "payable")
  /\ Sample.entry "function" "pay" "payable" !! "stateMutability"
       = Some "payable"
  /\ "payable" <> "view"
  /\ Forall (carries_value 5)
       (trace (CallContractFunc Sample.funded Sample.contract "pay" []
                 None None 5 true DefaultFeeCalculator)).
Proof.
  assert (Hne : "payable" <> "view") by discriminate.
  split; [reflexivity | split; [reflexivity | split; [exact Hne |]]].
  exact (proj1 (proj2 (CallContractFunc_transaction Sample.funded
                         Sample.contract "pay" [] None None 5 true
                         DefaultFeeCalculator
                         (Sample.entry "function" "pay" "payable") "payable"
                         eq_refl eq_refl Hne))).
Defined.

Lemma CallContractFunc_unknown_function_witness :
  Forall (fun abi => exists ty, abi !! "type" = Some ty
                     /\ (ty = "function" ->
                         exists name, abi !! "name" = Some name
                                      /\ name <> "burn"))
         (abi Sample.contract)
  /\ CallContractFunc Sample.funded Sample.contract "burn" [] None None 5
       true DefaultFeeCalculator
     = ([], Raise (ValueError_FuncNotFound "burn")).
Proof.
  assert (H : Forall (fun abi => exists ty, abi !! "type" = Some ty
                        /\ (ty = "function" ->
                            exists name, abi !! "name" = Some name
                                         /\ name <> "burn"))
                     (abi Sample.contract)).
  { repeat constructor.
    - exists "constructor". split; [reflexivity | discriminate].
    - exists "function". split; [reflexivity |]. intros _.
      exists "get". split; [reflexivity | discriminate].
    - exists "function". split; [reflexivity |]. intros _.
      exists "add". split; [reflexivity | discriminate].
    - exists "function". split; [reflexivity |]. intros _.
      exists "pay". split; [reflexivity | discriminate]. }
  split; [exact H |].
  exact (CallContractFunc_unknown_function Sample.funded Sample.contract
           "burn" [] None None 5 true DefaultFeeCalculator H).
Defined.

Lemma SignTx_prompt_witness :
  tx_fields Sample.tx !! "maxFeePerGas" = Some 1020
  /\ tx_fields Sample.tx !! "maxPriorityFeePerGas" = Some 20
  /\ tx_fields Sample.tx !! "gas" = Some 21000
  /\ tx_fields Sample.tx !! "value" = Some 5
  /\ (1020 + 20) * 21000 + 5
       <= get_balance Sample.exact (default_account Sample.exact)
  /\ cost_breakdown Sample.exact 1020 20 21000 5
       (get_balance Sample.exact (default_account Sample.exact))
       ((1020 + 20) * 21000) ((1020 + 20) * 21000 + 5)
     = ([EvPrint], Ok tt)
  /\ In (stdin Sample.exact)
        ["yes"; "yeS"; "yEs"; "yES"; "Yes"; "YeS"; "YEs"; "YES"]
  /\ _SignTx Sample.exact Sample.tx "key-of-alice" true
     = ([EvPrint; EvInput; EvSign Sample.tx "key-of-alice"],
        sign_transaction Sample.exact Sample.tx "key-of-alice").
Proof.
  assert (Hle : (1020 + 20) * 21000 + 5
                <= get_balance Sample.exact (default_account Sample.exact))
    by (cbn; lia).
  assert (Hshown : cost_breakdown Sample.exact 1020 20 21000 5
                     (get_balance Sample.exact (default_account Sample.exact))
                     ((1020 + 20) * 21000) ((1020 + 20) * 21000 + 5)
                   = ([EvPrint], Ok tt))
    by (vm_compute; reflexivity).
  assert (Hin : In (stdin Sample.exact)
                   ["yes"; "yeS"; "yEs"; "yES"; "Yes"; "YeS"; "YEs"; "YES"])
    by (left; reflexivity).
  do 4 (split; [reflexivity |]).
  split; [exact Hle | split; [exact Hshown | split; [exact Hin |]]].
  exact (proj1 (SignTx_prompt Sample.exact Sample.tx "key-of-alice"
                  1020 20 21000 5 eq_refl eq_refl eq_refl eq_refl Hle Hshown)
           Hin).
Defined.

Lemma DoTransaction_default_fee_guard_witness :
  build_transaction (Sample.executable 100000)
    (_FillMessage Sample.exact 21000 5 (Some "key-of-alice")
       DefaultFeeCalculator)
  = Ok {| tx_fields := _FillMessage Sample.exact 21000 5
                         (Some "key-of-alice") DefaultFeeCalculator;
          tx_from := None |}
  /\ (gas_price Sample.exact
      + 2 * Z.max (gas_price Sample.exact * 2 / 100)
                  (max_priority_fee Sample.exact)) * 21000 + 5
     <= get_balance Sample.exact (default_account Sample.exact)
  /\ exists rest,
       trace (_DoTransaction Sample.exact (Sample.executable 100000)
                (Some "key-of-alice") (Some 21000) 5 false
                DefaultFeeCalculator)
       = EvBuildTransaction
           (_FillMessage Sample.exact 21000 5 (Some "key-of-alice")
              DefaultFeeCalculator)
         :: EvSign {| tx_fields := _FillMessage Sample.exact 21000 5
                                     (Some "key-of-alice")
                                     DefaultFeeCalculator;
                      tx_from := None |} "key-of-alice"
         :: EvSendRaw "signed-with-key-of-alice" :: rest.
Proof.
  assert (Hle : (gas_price Sample.exact
                 + 2 * Z.max (gas_price Sample.exact * 2 / 100)
                             (max_priority_fee Sample.exact)) * 21000 + 5
                <= get_balance Sample.exact (default_account Sample.exact))
    by (vm_compute; discriminate).
  split; [reflexivity | split; [exact Hle |]].
  refine (proj2 (proj2 (DoTransaction_default_fee_guard Sample.exact
                   (Sample.executable 100000) "key-of-alice" 21000 5 false
                   {| tx_fields := _FillMessage Sample.exact 21000 5
                                     (Some "key-of-alice")
                                     DefaultFeeCalculator;
                      tx_from := None |}
                   eq_refl eq_refl eq_refl eq_refl eq_refl) Hle)
            _
            {| rawTransaction := "signed-with-key-of-alice";
               hash := "0xfeed" |} eq_refl).
  discriminate.
Defined.

Lemma DoTransaction_estimate_fails_witness :
  estimate_gas Fixture.reverting 5
    = Raise (ExternalError "execution reverted")
  /\ _DoTransaction Sample.funded Fixture.reverting (Some "key-of-alice")
       None 5 true DefaultFeeCalculator
     = ([EvEstimateGas 5], Raise (ExternalError "execution reverted")).
Proof.
  split; [reflexivity |].
  exact (DoTransaction_estimate_fails Sample.funded Fixture.reverting
           (Some "key-of-alice") 5 true DefaultFeeCalculator
           (ExternalError "execution reverted") eq_refl).
Defined.

Lemma SetupSendingAccount_key_matches_witness :
  snd (SetupSendingAccount Sample.funded 0 (Some Fixture.good_keys))
    = Ok (Some "key-of-alice")
  /\ from_key (fst (SetupSendingAccount Sample.funded 0
                      (Some Fixture.good_keys))) "key-of-alice"
     = default_account (fst (SetupSendingAccount Sample.funded 0
                               (Some Fixture.good_keys))).
Proof.
  split; [reflexivity |].
  exact (proj1 (SetupSendingAccount_key_matches Sample.funded 0
                  (Some Fixture.good_keys) "key-of-alice" eq_refl)).
Defined.

Lemma WaitForEvent_returns_first_witness :
  snd (WaitForEvent 7 Sample.growing Sample.at_103 100 (-1))
    = Some (Ok [ {| blockNumber := 103; data := "hit" |} ])
  /\ exists last,
       100 <= last
       /\ queries (fst (WaitForEvent 7 Sample.growing Sample.at_103 100 (-1)))
            = single_block_queries 100 (Z.to_nat (last - 100 + 1))
       /\ (forall b, 100 <= b < last -> get_logs Sample.at_103 b b = Ok [])
       /\ (([ {| blockNumber := 103; data := "hit" |} ] <> []
            /\ get_logs Sample.at_103 last last
               = Ok [ {| blockNumber := 103; data := "hit" |} ])
           \/ ([ {| blockNumber := 103; data := "hit" |} ] = []
               /\ get_logs Sample.at_103 last last = Ok []
               /\ 0 < -1 /\ last = 100 + -1)).
Proof.
  split; [reflexivity |].
  exact (WaitForEvent_returns_first 7 Sample.growing Sample.at_103 100 (-1)
           [ {| blockNumber := 103; data := "hit" |} ] eq_refl).
Defined.

Lemma WaitForEvent_waits_for_blocks_witness :
  GetBlockPeriod Sample.stalled 100 = Ok 12
  /\ 0 <= 12
  /\ (forall k, block_number Sample.stalled k <= 100)
  /\ (forall b, 100 <= b <= 100 -> get_logs Sample.silent b b = Ok [])
  /\ (5 <= 0 \/ 100 < 100 + 5)
  /\ forall fuel, snd (WaitForEvent fuel Sample.stalled Sample.silent 100 5)
                  = None.
Proof.
  assert (Hp : 0 <= 12) by lia.
  assert (Hhead : forall k, block_number Sample.stalled k <= 100)
    by (intros k; cbn; lia).
  assert (Ht : 5 <= 0 \/ 100 < 100 + 5) by (right; lia).
  split; [reflexivity | split; [exact Hp | split; [exact Hhead |]]].
  split; [reflexivity | split; [exact Ht |]].
  exact (WaitForEvent_waits_for_blocks Sample.stalled Sample.silent 100 5 12
           100 eq_refl Hp Hhead (fun b _ => eq_refl) Ht).
Defined.

Lemma WaitForEvent_finds_first_logs_witness :
  GetBlockPeriod Sample.growing 100 = Ok 12
  /\ 0 <= 12
  /\ 100 <= 103
  /\ (forall b, 100 <= b < 103 -> get_logs Sample.at_103 b b = Ok [])
  /\ get_logs Sample.at_103 103 103
       = Ok [ {| blockNumber := 103; data := "hit" |} ]
  /\ (5 <= 0 \/ 103 - 100 < 5)
  /\ 103 <= block_number Sample.growing 3
  /\ exists fuel0 : nat, forall fuel : nat, (fuel0 <= fuel)%nat ->
       snd (WaitForEvent fuel Sample.growing Sample.at_103 100 5)
         = Some (Ok [ {| blockNumber := 103; data := "hit" |} ])
       /\ queries (fst (WaitForEvent fuel Sample.growing Sample.at_103 100 5))
            = single_block_queries 100 (Z.to_nat (103 - 100 + 1)).
Proof.
  assert (Hp : 0 <= 12) by lia.
  assert (Hhit : 100 <= 103) by lia.
  assert (Hempty : forall b, 100 <= b < 103 ->
                     get_logs Sample.at_103 b b = Ok []).
  { intros b Hb. cbn. rewrite (proj2 (Z.leb_gt 103 b)) by lia.
    now rewrite andb_false_r. }
  assert (Ht : 5 <= 0 \/ 103 - 100 < 5) by (right; lia).
  assert (Hhead : 103 <= block_number Sample.growing 3) by (cbn; lia).
  split; [reflexivity | split; [exact Hp | split; [exact Hhit |]]].
  split; [exact Hempty | split; [reflexivity | split; [exact Ht |]]].
  split; [exact Hhead |].
  refine (WaitForEvent_finds_first_logs Sample.growing Sample.at_103 100 5 12
            103 [ {| blockNumber := 103; data := "hit" |} ] 3
            eq_refl Hp Hhit Hempty eq_refl _ Ht Hhead).
  discriminate.
Defined.

Lemma WaitForEvent_timeout_blocks_witness :
  GetBlockPeriod Sample.stalled_at_105 100 = Ok 12
  /\ 0 <= 12
  /\ 0 < 5
  /\ (forall b, 100 <= b <= 100 + 5 -> get_logs Sample.silent b b = Ok [])
  /\ 100 + 5 <= block_number Sample.stalled_at_105 0
  /\ exists fuel0 : nat, forall fuel : nat, (fuel0 <= fuel)%nat ->
       snd (WaitForEvent fuel Sample.stalled_at_105 Sample.silent 100 5)
         = Some (Ok [])
       /\ queries (fst (WaitForEvent fuel Sample.stalled_at_105 Sample.silent
                          100 5))
            = single_block_queries 100 (Z.to_nat (5 + 1)).
Proof.
  assert (Hp : 0 <= 12) by lia.
  assert (Ht : 0 < 5) by lia.
  assert (Hhead : 100 + 5 <= block_number Sample.stalled_at_105 0)
    by (cbn; lia).
  split; [reflexivity | split; [exact Hp | split; [exact Ht |]]].
  split; [reflexivity | split; [exact Hhead |]].
  exact (WaitForEvent_timeout_blocks Sample.stalled_at_105 Sample.silent 100
           5 12 0 eq_refl Hp Ht (fun b _ => eq_refl) Hhead).
Defined.

Lemma LoadBytesFromLocal_build_layout_witness :
  buildDir Fixture.conf = Some "build"
  /\ contractModuleMap Fixture.conf = Some {[ "Token" := "tokens" ]}
  /\ ({[ "Token" := "tokens" ]} : gmap string string) !! "Token"
       = Some "tokens"
  /\ LoadBytesFromLocal Fixture.env (ConfMap Fixture.conf) "Token"
     = LoadFailed (FileNotFoundError
         "Cannot find locally built contract BIN file at build/tokens/Token.bin; please build the contract first.").
Proof.
  split; [reflexivity | split; [reflexivity | split; [reflexivity |]]].
  refine (eq_trans
            (LoadBytesFromLocal_build_layout Fixture.env Fixture.conf "Token"
               "build" "tokens" {[ "Token" := "tokens" ]}
               eq_refl eq_refl eq_refl _ eq_refl _ eq_refl eq_refl _ eq_refl)
            _); [discriminate | discriminate | discriminate | reflexivity].
Defined.


Lemma LoadContract_existing_needs_bin_witness :
  files Fixture.env !! "build/tokens/Token.abi" = Some "[]"
  /\ files Fixture.env !! "build/tokens/Token.bin" = None
  /\ exists message,
       LoadContract Fixture.env
         (ConfGiven (ConfPaths "build/tokens/Token.abi"
                               "build/tokens/Token.bin"))
         "Token" None (Some "0xC0DE")
       = LoadFailed (FileNotFoundError message).
Proof.
  split; [reflexivity | split; [reflexivity |]].
  exact (proj1 (LoadContract_existing_needs_bin Fixture.env
                  "build/tokens/Token.abi" "build/tokens/Token.bin" "Token"
                  "0xC0DE" "[]" eq_refl) eq_refl).
Defined.

Lemma main_key_mismatch_witness :
  arg_key_json Fixture.args = Some Sample.keys
  /\ _LoadAccountCredentials Sample.keys (arg_account Fixture.args)
       = Ok ("0xA11CE", "key-of-bob")
  /\ from_key Sample.funded "key-of-bob" <> "0xA11CE"
  /\ main Fixture.env Fixture.to_wei true Sample.funded Fixture.args
     = ([], Some (MainPy ValueError_KeyMismatch)).
Proof.
  assert (Hne : from_key Sample.funded "key-of-bob" <> "0xA11CE")
    by discriminate.
  split; [reflexivity | split; [reflexivity | split; [exact Hne |]]].
  destruct (main_key_mismatch Fixture.env Fixture.to_wei true Sample.funded
              Fixture.args Sample.keys "0xA11CE" "key-of-bob"
              eq_refl eq_refl Hne) as (Htrace & _ & Hout).
  specialize (Hout eq_refl (ex_intro _ 0 eq_refl)).
  destruct (main Fixture.env Fixture.to_wei true Sample.funded Fixture.args)
    as [t o].
  cbn [fst snd] in Htrace, Hout. now subst.
Defined.

Lemma ChecksumGanacheKeysFile_keeps_credentials_witness :
  Forall (fun item =>
            converts (fun a => Ok (Fixture.checksum a)) Fixture.checksum
                     (fst item)
            /\ converts (fun a => Ok (Fixture.checksum a)) Fixture.checksum
                        (snd item))
         (ganache_addresses Fixture.ganache)
  /\ Forall (fun item =>
               converts (fun a => Ok (Fixture.checksum a)) Fixture.checksum
                        (fst item))
            (ganache_private_keys Fixture.ganache)
  /\ List.NoDup (map (fun item => lower (fst item))
                     (ganache_addresses Fixture.ganache))
  /\ List.NoDup (map (fun item => lower (fst item))
                     (ganache_private_keys Fixture.ganache))
  /\ exists checksummed,
       ChecksumGanacheKeysFile (fun a => Ok (Fixture.checksum a))
         Fixture.ganache = Ok checksummed
       /\ ganache_addresses checksummed
            = [("0xA11CE", "0xA11CE"); ("0xB0B", "0xB0B")]
       /\ ganache_private_keys checksummed
            = [("0xA11CE", "key-of-alice"); ("0xB0B", "key-of-bob")].
Proof.
  assert (Hconv : forall a, In a ["0xa11ce"; "0xb0b"] ->
            converts (fun a => Ok (Fixture.checksum a)) Fixture.checksum a).
  { intros a [<- | [<- | []]]; split; reflexivity. }
  assert (Haddr : Forall (fun item =>
              converts (fun a => Ok (Fixture.checksum a)) Fixture.checksum
                       (fst item)
              /\ converts (fun a => Ok (Fixture.checksum a)) Fixture.checksum
                          (snd item))
            (ganache_addresses Fixture.ganache)).
  { repeat constructor; apply Hconv; cbn; tauto. }
  assert (Hpriv : Forall (fun item =>
              converts (fun a => Ok (Fixture.checksum a)) Fixture.checksum
                       (fst item))
            (ganache_private_keys Fixture.ganache)).
  { repeat constructor; apply Hconv; cbn; tauto. }
  assert (Hnd : List.NoDup ["0xa11ce"; "0xb0b"]).
  { repeat constructor; cbn; intuition discriminate. }
  split; [exact Haddr | split; [exact Hpriv |]].
  split; [exact Hnd | split; [exact Hnd |]].
  destruct (ChecksumGanacheKeysFile_keeps_credentials
              (fun a => Ok (Fixture.checksum a)) Fixture.checksum
              Fixture.ganache Haddr Hpriv Hnd Hnd)
    as (checksummed & Hrun & Ha & Hk & _).
  exists checksummed. split; [exact Hrun | split; [exact Ha | exact Hk]].
Defined.
